(** * fintech-ai-platform: the natural-language query and anomaly core

    A shallow embedding of the Python modules under [src/ai]:
    [anomaly_detector.py], [nl_to_sql.py], [vector_store.py],
    [local_models.py] and [hf_api.py], followed by the properties that
    the specification states about them.

    Conventions of the embedding.
    - A Python [str] is a [string]; character-level work happens on its
      [list ascii].  Case mapping, [\w], [\b] and [str.strip] are the
      ASCII ones (code points below 128); other bytes are caseless,
      non-word and non-space.
    - A Python [float] is a rational [Q]: every comparison in the code
      is against a literal, and the thresholds are taken as written.
      NaN and the infinities are outside the model.
    - A Python [dict] is a [gmap]; a [set] of strings is a [gset].
    - A call that raises is a result [None] (or a dedicated outcome);
      [try/except] blocks are the matches on it.
    - Collaborators that live outside the repository (the embedding
      model, the vector database, the HTTP endpoint, the SQL database,
      the zero-shot classifier, [float] parsing of text) are arguments
      of the functions that use them. *)

From Stdlib Require Import QArith Qabs Qminmax Lqa.
From Stdlib Require Import Ascii NArith ZArith Bool DecimalString.
From stdpp Require Import gmap strings list fin_maps.

Local Open Scope Q_scope.
Local Open Scope stdpp_scope.

(** ** Python values that travel in rows and metadata *)

Inductive pyval : Type :=
| PNone
| PBool (b : bool)
| PInt (z : Z)
| PFloat (q : Q)
| PStr (s : string).

(** A row is a [dict] from column name to value. *)
Abbreviation pyrow := (gmap string pyval).

(** ** Text primitives (ASCII) *)
Module Py.

Definition chars (s : string) : list ascii :=
  Stdlib.Strings.String.list_ascii_of_string s.

Definition str_of (l : list ascii) : string :=
  Stdlib.Strings.String.string_of_list_ascii l.

Definition code (c : ascii) : N := N_of_ascii c.

Definition between (lo hi : N) (c : ascii) : bool :=
  ((lo <=? code c)%N && (code c <=? hi)%N)%bool.

Definition is_upper : ascii -> bool := between 65 90.
Definition is_lower : ascii -> bool := between 97 122.
Definition is_digit : ascii -> bool := between 48 57.

(** [\w]: letters, digits and the underscore. *)
Definition is_word (c : ascii) : bool :=
  (is_upper c || is_lower c || is_digit c || (code c =? 95)%N)%bool.

(** [str.isspace]: TAB..CR, FS..US and the blank. *)
Definition is_space (c : ascii) : bool :=
  (between 9 13 c || between 28 32 c)%bool.

Definition lower_char (c : ascii) : ascii :=
  if is_upper c then ascii_of_N (code c + 32) else c.

Definition upper_char (c : ascii) : ascii :=
  if is_lower c then ascii_of_N (code c - 32) else c.

(** [s.lower()], [s.upper()] *)
Definition lower (l : list ascii) : list ascii := map lower_char l.
Definition upper (l : list ascii) : list ascii := map upper_char l.

(** [s.lstrip()], [s.rstrip()], [s.strip()] *)
Fixpoint lstrip (l : list ascii) : list ascii :=
  match l with
  | c :: l' => if is_space c then lstrip l' else l
  | [] => []
  end.

Definition rstrip (l : list ascii) : list ascii := rev (lstrip (rev l)).

Definition strip (l : list ascii) : list ascii := rstrip (lstrip l).

(** [s.startswith(p)] *)
Fixpoint startswith (p l : list ascii) : bool :=
  match p, l with
  | [], _ => true
  | a :: p', b :: l' => (Ascii.eqb a b && startswith p' l')%bool
  | _ :: _, [] => false
  end.

(** [sub in s] *)
Fixpoint contains (sub l : list ascii) : bool :=
  (startswith sub l ||
   match l with
   | _ :: l' => contains sub l'
   | [] => false
   end)%bool.

(** *** A small matcher for the regular expressions of the sources

    The three patterns used are [\bKEYWORD\b], [\b[A-Z]{2,5}\b] and
    [\b\d+\b]: sequences of word boundaries, literal characters and
    greedy repetitions of a character class. *)

Inductive atom : Type :=
| WordB                                         (* \b *)
| Lit (c : ascii)                               (* a literal character *)
| Rep (p : ascii -> bool) (lo : nat) (hi : option nat). (* [p]{lo,hi}, greedy *)

Definition word_opt (o : option ascii) : bool :=
  match o with Some c => is_word c | None => false end.

(** [\b] holds between [prev] and the next character when exactly one
    side is a word character; the ends of the text count as non-word. *)
Definition at_boundary (prev : option ascii) (l : list ascii) : bool :=
  xorb (word_opt prev) (word_opt (head l)).

(** Length of the longest prefix of [l] inside class [p], capped. *)
Fixpoint run (p : ascii -> bool) (cap : option nat) (l : list ascii) : nat :=
  match cap with
  | Some O => O
  | _ =>
    match l with
    | c :: l' =>
      if p c then S (run p (match cap with Some (S k) => Some k | _ => None end) l')
      else O
    | [] => O
    end
  end.

(** The character before position [k] of [l], [prev] when [k] is 0. *)
Definition prev_at (prev : option ascii) (l : list ascii) (k : nat) : option ascii :=
  match k with
  | O => prev
  | S k' => match l !! k' with Some c => Some c | None => prev end
  end.

(** Backtracking over a greedy repetition: try [n], [n-1], ... down to
    [lo] repetitions, the first count whose continuation matches wins. *)
Fixpoint backtrack (cont : option ascii -> list ascii -> option nat)
    (prev : option ascii) (l : list ascii) (lo n : nat) : option nat :=
  if (n <? lo)%nat then None else
  match cont (prev_at prev l n) (drop n l) with
  | Some m => Some (n + m)%nat
  | None =>
    match n with
    | O => None
    | S n' => backtrack cont prev l lo n'
    end
  end.

(** [match_here pat prev l]: the pattern matched at the front of [l]
    ([prev] is the character before it); the result is the number of
    characters consumed. *)
Fixpoint match_here (pat : list atom) (prev : option ascii) (l : list ascii)
    : option nat :=
  match pat with
  | [] => Some O
  | WordB :: pat' =>
    if at_boundary prev l then match_here pat' prev l else None
  | Lit c :: pat' =>
    match l with
    | c' :: l' =>
      if Ascii.eqb c c' then S <$> match_here pat' (Some c') l' else None
    | [] => None
    end
  | Rep p lo hi :: pat' =>
    backtrack (match_here pat') prev l lo (run p hi l)
  end.

(** [re.search(pat, s) is not None]: the leftmost position that matches. *)
Fixpoint search_from (pat : list atom) (prev : option ascii) (l : list ascii)
    : bool :=
  match match_here pat prev l with
  | Some _ => true
  | None =>
    match l with
    | c :: l' => search_from pat (Some c) l'
    | [] => false
    end
  end.

Definition re_search (pat : list atom) (l : list ascii) : bool :=
  search_from pat None l.

(** [re.findall(pat, s)]: the non-overlapping matches, left to right.
    [skip] counts the characters still covered by the previous match. *)
Fixpoint findall_from (pat : list atom) (prev : option ascii) (l : list ascii)
    (skip : nat) : list (list ascii) :=
  match skip with
  | S k =>
    match l with
    | c :: l' => findall_from pat (Some c) l' k
    | [] => []
    end
  | O =>
    match match_here pat prev l with
    | Some n =>
      take n l ::
      match l with
      | c :: l' => findall_from pat (Some c) l' (Nat.pred n)
      | [] => []
      end
    | None =>
      match l with
      | c :: l' => findall_from pat (Some c) l' O
      | [] => []
      end
    end
  end.

Definition re_findall (pat : list atom) (l : list ascii) : list (list ascii) :=
  findall_from pat None l O.

(** [rf'\b{keyword}\b'] *)
Definition word_pattern (kw : list ascii) : list atom :=
  WordB :: map Lit kw ++ [WordB].

(** [r'\b[A-Z]{2,5}\b'] *)
Definition ticker_pattern : list atom :=
  [WordB; Rep is_upper 2 (Some 5%nat); WordB].

(** [r'\b\d+\b'] *)
Definition number_pattern : list atom :=
  [WordB; Rep is_digit 1 None; WordB].

(** Truth value of an [Optional[str]]: [None] and the empty string are
    false. *)
Definition truthy (s : option string) : bool :=
  match s with
  | Some s => negb (String.eqb s "")
  | None => false
  end.

End Py.

(** ** [anomaly_detector.py] *)
Module AnomalyDetector.

(** [float(x)]; [None] is the TypeError or ValueError.  Parsing of
    text is Python's and is taken as the argument [float_of_str]. *)
Definition py_float (float_of_str : string -> option Q) (v : pyval) : option Q :=
  match v with
  | PNone => None
  | PBool b => Some (if b then 1 else 0)
  | PInt z => Some (inject_Z z)
  | PFloat q => Some q
  | PStr s => float_of_str s
  end.

(** [d.get(key, 0)] *)
Definition get0 (d : pyrow) (key : string) : pyval :=
  default (PInt 0) (d !! key).

(** Lines 96-103: the [if]/[elif] chain on the thresholds. *)
Definition severity_of (z_score : Q) : string :=
  if Qle_bool 4 z_score then "critical"
  else if Qle_bool 3 z_score then "high"
  else if Qle_bool (5 # 2) z_score then "medium"
  else "low".

(** Lines 89-93: the absolute score, with the fallback on the daily
    return when the score is zero or missing. *)
Definition z_score_of (float_of_str : string -> option Q) (anomaly : pyrow)
    : option Q :=
  s ← py_float float_of_str (get0 anomaly "anomaly_score");
  let z_score := Qabs s in
  if Qeq_bool z_score 0 then
    r ← py_float float_of_str (get0 anomaly "daily_return");
    Some (Qabs r * 100)
  else Some z_score.

(** The body of the loop: one row, classified. *)
Definition classify_one (float_of_str : string -> option Q) (anomaly : pyrow)
    : option pyrow :=
  z_score ← z_score_of float_of_str anomaly;
  Some (<["z_score_abs" := PFloat z_score]>
        (<["severity" := PStr (severity_of z_score)]> anomaly)).

(** [_classify_anomalies]: an exception in any row leaves the loop. *)
Definition _classify_anomalies (float_of_str : string -> option Q)
    (anomalies : list pyrow) : option (list pyrow) :=
  mapM (classify_one float_of_str) anomalies.

End AnomalyDetector.

(** ** [vector_store.py], the severity table of [search_similar_anomalies] *)
Module Severity.

(** [severity_order = {'low': 0, 'medium': 1, 'high': 2, 'critical': 3}] *)
Definition severity_order : gmap string nat :=
  <["critical" := 3%nat]> (<["high" := 2%nat]> (<["medium" := 1%nat]>
    (<["low" := 0%nat]> ∅))).

(** [severity_order.get(name, 0)] *)
Definition level (name : string) : nat :=
  default 0%nat (severity_order !! name).

End Severity.


(** ** [local_models.py]: embeddings *)
Module LocalModelManager.

(** [self.embedding_model.encode(texts, batch_size, show_progress_bar)]
    of the sentence-transformer, loading the model on first use: the
    rows of the matrix, or [None] when loading or encoding raises. *)
Definition encoder : Type :=
  list string → nat → bool → option (list (list Q)).

(** [np.zeros((rows, cols))] *)
Definition zeros (rows cols : nat) : list (list Q) :=
  replicate rows (replicate cols 0).

(** [generate_embeddings]: the [try] returns what the model returns,
    the [except] returns the zero matrix. *)
Definition generate_embeddings (encode : encoder) (texts : list string)
    (batch_size : nat) (show_progress : bool) : list (list Q) :=
  let show_progress :=
    if ((10 <? length texts)%nat && negb show_progress)%bool then true
    else show_progress in
  match encode texts batch_size show_progress with
  | Some embeddings => embeddings
  | None => zeros (length texts) 384
  end.

(** The call with the default [batch_size=32], [show_progress=False]. *)
Definition embed (encode : encoder) (texts : list string) : list (list Q) :=
  generate_embeddings encode texts 32 false.

(** The zero-shot pipeline [self.classifier(query, candidate_labels,
    multi_label)]: the labels and scores, best first, or [None] when
    loading or classifying raises. *)
Definition zero_shot : Type :=
  string → list string → bool → option (list string * list Q).

(** [classify_query_intent]: [(intent, confidence)] of the dictionary
    returned; the [except] falls back on the first candidate. *)
Definition classify_query_intent (classifier : zero_shot) (query : string)
    (candidates : list string) : string * Q :=
  match
    classifier query candidates false ≫=
      (λ '(labels, scores),
         label ← head labels; score ← head scores; Some (label, score))
  with
  | Some r => r
  | None => (default "unknown" (head candidates), 0)
  end.

(** The sentiment pipeline [self.sentiment_model(text)[0]]: the label
    and the score, or the message of the exception that loading or
    classifying raises. *)
Definition sentiment_pipeline : Type := string → string + (string * Q).

(** The dictionary that [analyze_sentiment] returns; ['error'] is only
    set by the [except] branch. *)
Record sentiment : Type := Sentiment {
  label : string;
  score : Q;
  confidence : string;
  sentiment_error : option string }.

(** [analyze_sentiment] *)
Definition analyze_sentiment (sentiment_model : sentiment_pipeline)
    (text : string) : sentiment :=
  let text :=
    if (512 <? length (Py.chars text))%nat
    then Py.str_of (take 512 (Py.chars text)) else text in
  match sentiment_model text with
  | inr (label, score) =>
    Sentiment label score
      (if negb (Qle_bool score (8 # 10)) then "high"
       else if negb (Qle_bool score (6 # 10)) then "medium"
       else "low")
      None
  | inl e => Sentiment "neutral" (1 # 2) "low" (Some e)
  end.

(** [batch_sentiment_analysis] *)
Definition batch_sentiment_analysis (sentiment_model : sentiment_pipeline)
    (texts : list string) : list sentiment :=
  map (analyze_sentiment sentiment_model) texts.

End LocalModelManager.

(** ** [vector_store.py] *)
Module FinancialVectorStore.

(** Arguments of [collection.add(embeddings, documents, metadatas, ids)]. *)
Record add_request : Type := AddRequest {
  add_embeddings : list (list Q);
  add_documents : list string;
  add_metadatas : list pyrow;
  add_ids : list string }.

(** Arguments of [collection.query(query_embeddings, n_results, where)]. *)
Record query_request : Type := QueryRequest {
  query_embeddings : list (list Q);
  n_results : nat;
  where_clause : option pyrow }.

(** What [collection.query] returns: one inner list per query. *)
Record query_results : Type := QueryResults {
  ids : list (list string);
  documents : list (list string);
  metadatas : list (list (option pyrow));
  distances : list (list Q) }.

(** The calls that reach the vector database, by collection name. *)
Inductive db_call : Type :=
| CallAdd (name : string) (r : add_request)
| CallQuery (name : string) (r : query_request).

(** The vector database as the store sees it: a type of collections
    with [add] and [query], either of which may raise ([None]). *)
Record backend : Type := Backend {
  collection : Type;
  coll_add : collection → add_request → option collection;
  coll_query : collection → query_request → option query_results }.

(** The three collections of [__init__] and the calls made so far. *)
Record store (B : backend) : Type := Store {
  patterns_collection : collection B;
  anomalies_collection : collection B;
  events_collection : collection B;
  calls : list db_call }.

Arguments Store {B}.
Arguments patterns_collection {B}.
Arguments anomalies_collection {B}.
Arguments events_collection {B}.
Arguments calls {B}.

(** An entry of the list that [_format_results] builds. *)
Record similarity_match : Type := SimilarityMatch {
  id : string;
  description : string;
  metadata : option pyrow;
  similarity : Q;
  relevance : string }.

(** [x > y] on floats *)
Definition Qgt_bool (x y : Q) : bool := negb (Qle_bool x y).

(** Line 280: the conditional expression for ['relevance']. *)
Definition relevance_of (distance : Q) : string :=
  if Qgt_bool (1 - distance) (8 # 10) then "high"
  else if Qgt_bool (1 - distance) (6 # 10) then "medium"
  else "low".

(** The body of the loop of [_format_results] at index [i]; [None] is
    the IndexError or TypeError of a missing position. *)
Definition format_one (results : query_results) (i : nat)
    : option similarity_match :=
  id_ ← ids results !! 0%nat ≫= (.!! i);
  doc ← documents results !! 0%nat ≫= (.!! i);
  md ← metadatas results !! 0%nat ≫= (.!! i);
  dist ← distances results !! 0%nat ≫= (.!! i);
  Some {| id := id_; description := doc; metadata := md;
          similarity := 1 - dist; relevance := relevance_of dist |}.

(** [_format_results] *)
Definition _format_results (results : query_results)
    : option (list similarity_match) :=
  match ids results with
  | [] => Some []
  | [] :: _ => Some []
  | ids0 :: _ => mapM (format_one results) (seq 0 (length ids0))
  end.

(** [severity_order.get(v, 0)] for a metadata value [v]: only a string
    can be a key of the table. *)
Definition level_of (v : pyval) : nat :=
  match v with
  | PStr name => Severity.level name
  | _ => 0%nat
  end.

(** The condition of the list comprehension at line 216; [None] is the
    AttributeError of a result without metadata. *)
Definition severity_at_least (min_level : nat) (r : similarity_match)
    : option bool :=
  md ← metadata r;
  Some (min_level <=? level_of (default (PStr "low") (md !! "severity")))%nat.

(** A list comprehension whose condition may raise. *)
Fixpoint filter_raising {A} (cond : A → option bool) (l : list A)
    : option (list A) :=
  match l with
  | [] => Some []
  | x :: l' =>
    b ← cond x;
    rest ← filter_raising cond l';
    Some (if b : bool then x :: rest else rest)
  end.

(** [{first_key: first_value, second_key: second_value, **metadata}] *)
Definition full_metadata (k1 : string) (v1 : pyval) (k2 : string) (v2 : pyval)
    (metadata : pyrow) : pyrow :=
  metadata ∪ <[k2 := v2]> (<[k1 := v1]> ∅).

(** Truth value of a metadata value. *)
Definition py_truthy (v : pyval) : bool :=
  match v with
  | PNone => false
  | PBool b => b
  | PInt z => negb (z =? 0)%Z
  | PFloat q => negb (Qeq_bool q 0)
  | PStr s => negb (String.eqb s "")
  end.

(** [a < b] on [str]: the order of the first character that differs, a
    proper prefix coming first. *)
Fixpoint str_lt (a b : list ascii) : bool :=
  match a, b with
  | _, [] => false
  | [], _ :: _ => true
  | x :: a', y :: b' =>
    if (Py.code x <? Py.code y)%N then true
    else if (Py.code y <? Py.code x)%N then false
    else str_lt a' b'
  end.

(** [event_date < bound] where [event_date] comes out of the metadata:
    anything but a string against a string is a TypeError ([None]). *)
Definition before (v : pyval) (bound : string) : option bool :=
  match v with
  | PStr e => Some (str_lt (Py.chars e) (Py.chars bound))
  | _ => None
  end.

(** [event_date > bound] *)
Definition after (v : pyval) (bound : string) : option bool :=
  match v with
  | PStr e => Some (str_lt (Py.chars bound) (Py.chars e))
  | _ => None
  end.

(** [_date_in_range]; [event_date] is what [metadata.get('event_date')]
    gave, [None] when the key is missing. *)
Definition _date_in_range (event_date : option pyval)
    (date_from date_to : option string) : option bool :=
  match event_date with
  | None => Some true
  | Some v =>
    if negb (py_truthy v) then Some true
    else
      too_early ← (if Py.truthy date_from
                   then before v (default "" date_from) else Some false);
      if too_early : bool then Some false
      else
        too_late ← (if Py.truthy date_to
                    then after v (default "" date_to) else Some false);
        Some (negb too_late)
  end.

(** The condition of the list comprehension at lines 252-258; [None] is
    the AttributeError of a result without metadata or the TypeError of
    the comparison. *)
Definition event_in_range (date_from date_to : option string)
    (r : similarity_match) : option bool :=
  md ← metadata r;
  _date_in_range (md !! "event_date") date_from date_to.

Section Operations.
Context {B : backend}.
Variable encode : LocalModelManager.encoder.

(** [add_market_pattern]; [now] is [datetime.now().isoformat()].  The
    [except] branch logs and leaves the collection as it is. *)
Definition add_market_pattern (st : store B) (now : string)
    (pattern_id pattern_description pattern_type : string) (metadata : pyrow)
    : store B :=
  match LocalModelManager.embed encode [pattern_description] !! 0%nat with
  | None => st
  | Some embedding =>
    let r := AddRequest [embedding] [pattern_description]
      [full_metadata "pattern_type" (PStr pattern_type)
                     "timestamp" (PStr now) metadata]
      [pattern_id] in
    let log := calls st ++ [CallAdd "financial_patterns" r] in
    match coll_add B (patterns_collection st) r with
    | Some c =>
      Store c (anomalies_collection st) (events_collection st) log
    | None =>
      Store (patterns_collection st) (anomalies_collection st)
            (events_collection st) log
    end
  end.

(** [add_anomaly] *)
Definition add_anomaly (st : store B) (now : string)
    (anomaly_id anomaly_description severity : string) (metadata : pyrow)
    : store B :=
  match LocalModelManager.embed encode [anomaly_description] !! 0%nat with
  | None => st
  | Some embedding =>
    let r := AddRequest [embedding] [anomaly_description]
      [full_metadata "severity" (PStr severity)
                     "detected_at" (PStr now) metadata]
      [anomaly_id] in
    let log := calls st ++ [CallAdd "market_anomalies" r] in
    match coll_add B (anomalies_collection st) r with
    | Some c =>
      Store (patterns_collection st) c (events_collection st) log
    | None =>
      Store (patterns_collection st) (anomalies_collection st)
            (events_collection st) log
    end
  end.

(** What follows [results = self.anomalies_collection.query(...)] inside
    the [try]; [None] is an exception. *)
Definition filter_anomalies (results : query_results) (k : nat)
    (min_severity : option string) : option (list similarity_match) :=
  formatted ← _format_results results;
  if Py.truthy min_severity then
    min_level ← Severity.severity_order !! default "" min_severity;
    kept ← filter_raising (severity_at_least min_level) formatted;
    Some (take k kept)
  else Some formatted.

(** [search_similar_anomalies]: every exception ends in [return []]. *)
Definition search_similar_anomalies (st : store B) (query : string)
    (k : nat) (min_severity : option string)
    : list similarity_match * store B :=
  match LocalModelManager.embed encode [query] !! 0%nat with
  | None => ([], st)
  | Some query_embedding =>
    let r := QueryRequest [query_embedding] (k * 2) None in
    let st' := Store (patterns_collection st) (anomalies_collection st)
                     (events_collection st)
                     (calls st ++ [CallQuery "market_anomalies" r]) in
    match coll_query B (anomalies_collection st) r with
    | None => ([], st')
    | Some results =>
      (default [] (filter_anomalies results k min_severity), st')
    end
  end.

(** [search_similar_patterns] *)
Definition search_similar_patterns (st : store B) (query : string)
    (k : nat) (pattern_type : option string)
    : list similarity_match * store B :=
  match LocalModelManager.embed encode [query] !! 0%nat with
  | None => ([], st)
  | Some query_embedding =>
    let where_ :=
      if Py.truthy pattern_type
      then Some (<["pattern_type" := PStr (default "" pattern_type)]> ∅)
      else None in
    let r := QueryRequest [query_embedding] k where_ in
    let st' := Store (patterns_collection st) (anomalies_collection st)
                     (events_collection st)
                     (calls st ++ [CallQuery "financial_patterns" r]) in
    match coll_query B (patterns_collection st) r with
    | None => ([], st')
    | Some results => (default [] (_format_results results), st')
    end
  end.

(** [add_market_event] *)
Definition add_market_event (st : store B) (now : string)
    (event_id event_description event_date : string) (metadata : pyrow)
    : store B :=
  match LocalModelManager.embed encode [event_description] !! 0%nat with
  | None => st
  | Some embedding =>
    let r := AddRequest [embedding] [event_description]
      [full_metadata "event_date" (PStr event_date)
                     "indexed_at" (PStr now) metadata]
      [event_id] in
    let log := calls st ++ [CallAdd "market_events" r] in
    match coll_add B (events_collection st) r with
    | Some c =>
      Store (patterns_collection st) (anomalies_collection st) c log
    | None =>
      Store (patterns_collection st) (anomalies_collection st)
            (events_collection st) log
    end
  end.

(** What follows [results = self.events_collection.query(...)] inside
    the [try]; [None] is an exception. *)
Definition filter_events (results : query_results) (k : nat)
    (date_from date_to : option string) : option (list similarity_match) :=
  formatted ← _format_results results;
  if (Py.truthy date_from || Py.truthy date_to)%bool then
    kept ← filter_raising (event_in_range date_from date_to) formatted;
    Some (take k kept)
  else Some formatted.

(** [search_historical_events]: every exception ends in [return []]. *)
Definition search_historical_events (st : store B) (query : string)
    (k : nat) (date_from date_to : option string)
    : list similarity_match * store B :=
  match LocalModelManager.embed encode [query] !! 0%nat with
  | None => ([], st)
  | Some query_embedding =>
    let r := QueryRequest [query_embedding] (k * 2) None in
    let st' := Store (patterns_collection st) (anomalies_collection st)
                     (events_collection st)
                     (calls st ++ [CallQuery "market_events" r]) in
    match coll_query B (events_collection st) r with
    | None => ([], st')
    | Some results =>
      (default [] (filter_events results k date_from date_to), st')
    end
  end.

End Operations.

End FinancialVectorStore.

(** ** The vector database *)
Module Chroma.

(** A database that accepts every [add] and answers every [query] with
    the same [answer] ([None]: the query raises).  Used for examples. *)
Definition canned (answer : option FinancialVectorStore.query_results)
    : FinancialVectorStore.backend :=
  FinancialVectorStore.Backend unit (λ _ _, Some tt) (λ _ _, answer).

Definition canned_store (answer : option FinancialVectorStore.query_results)
    : FinancialVectorStore.store (canned answer) :=
  FinancialVectorStore.Store (B := canned answer) tt tt tt [].

(** A record of a collection. *)
Record stored : Type := Stored {
  stored_embedding : list Q;
  stored_document : string;
  stored_metadata : pyrow }.

(** Modelled from the spec: the [add] of a collection of the vector
    database (the [chromadb] package, which is not part of the sources).
    The specification (4.5) says that [add] stores (embedding,
    document, metadata) keyed by [id] and that a duplicate [id] silently
    overwrites; a collection is therefore a map from [id] to record and
    [add] writes the given records into it one by one. *)
Definition spec_add (c : gmap string stored)
    (r : FinancialVectorStore.add_request) : option (gmap string stored) :=
  Some (foldl
    (λ c '(i, (e, (d, m))), <[i := Stored e d m]> c) c
    (zip (FinancialVectorStore.add_ids r)
       (zip (FinancialVectorStore.add_embeddings r)
          (zip (FinancialVectorStore.add_documents r)
               (FinancialVectorStore.add_metadatas r))))).

(** Modelled from the spec: [collection.count()], the number of stored
    records of the vector database (absent from the sources). *)
Definition spec_count (c : gmap string stored) : nat := size c.

(** Modelled from the spec: the vector database with the [add] above.
    Nearest-neighbour search is not described by the specification
    beyond its result shape, so [query] stays an argument. *)
Definition spec_backend
    (query : gmap string stored → FinancialVectorStore.query_request →
             option FinancialVectorStore.query_results)
    : FinancialVectorStore.backend :=
  FinancialVectorStore.Backend (gmap string stored) spec_add query.

End Chroma.

(** ** [config.py] *)
Module Config.

Definition hf_requests_per_month : Z := 30000.
Definition hf_requests_per_day : Z := 1000.
Definition temperature : Q := 1 # 10.
Definition top_p : Q := 9 # 10.

(** [str(config.temperature)] *)
Definition temperature_str : string := "0.1".

End Config.

(** ** [hf_api.py] *)
Module HuggingFaceAPI.

(** Wall-clock time in microseconds; [datetime.now()] reads the clock
    of the world, [time.sleep] and the network move it forward. *)
Definition seconds (n : Z) : Z := (n * 1000000)%Z.

(** [t.date()], as a day number *)
Definition date_of (t : Z) : Z := (t / seconds 86400)%Z.

(** [self.cache_ttl = timedelta(hours=1)] *)
Definition cache_ttl : Z := seconds 3600.

(** The fields of the client that its methods read and write. *)
Record api : Type := Api {
  requests_today : Z;
  last_reset_date : Z;
  total_requests_month : Z;
  last_request_time : option Z;
  cache : gmap string (string * Z) }.

Inductive log_level : Type := DEBUG | INFO | WARNING | ERROR.

(** The JSON body of a request. *)
Record payload : Type := Payload {
  inputs : string;
  max_new_tokens : Z;
  p_temperature : Q;
  p_top_p : Q;
  return_full_text : bool;
  do_sample : bool }.

(** [result[0]] of a JSON list: something without [.get] (the message
    is the one of the AttributeError), or an object with or without the
    key [generated_text]. *)
Inductive first_item : Type :=
| NotADict (err : string)
| Dict (generated_text : option string).

(** [response.json()]: it raises, or it is not a non-empty list (with
    its printed form), or it is a list with a first item. *)
Inductive json_body : Type :=
| BodyInvalid (err : string)
| BodyOther (repr : string)
| BodyList (first : first_item).

(** The outcome of one [requests.post(..., timeout=30)]: a timeout,
    another request exception (with the text of its response, if it has
    one), or a response; [reason] is the message that
    [raise_for_status] raises for an error status. *)
Inductive http_reply : Type :=
| Timeout
| RequestFailed (err : string) (response_text : option string)
| Response (status : Z) (reason text : string) (body : json_body).

(** The endpoint: the reply to the request number [n] (how many were
    sent before it) and the time the exchange takes. *)
Definition endpoint : Type := nat → payload → Z * http_reply.

(** What the client shares with its surroundings: the clock, the
    requests put on the network, the log. *)
Record world : Type := World {
  clock : Z;
  sent : list payload;
  log : list (log_level * string) }.

Definition say (lvl : log_level) (msg : string) (w : world) : world :=
  World (clock w) (sent w) (log w ++ [(lvl, msg)]).

(** [time.sleep(d)] *)
Definition sleep (d : Z) (w : world) : world :=
  World (clock w + d)%Z (sent w) (log w).

(** [str(n)] for an [int] *)
Definition str_of_Z (n : Z) : string :=
  DecimalString.NilZero.string_of_int (Z.to_int n).

(** [len(s)] printed *)
Definition str_of_len (s : string) : string :=
  str_of_Z (Z.of_nat (length (Py.chars s))).

(** [_check_rate_limits]: [(can_proceed, reason_if_not)] *)
Definition _check_rate_limits (st : api) (w : world)
    : (bool * option string) * api * world :=
  let today := date_of (clock w) in
  let '(st, w) :=
    if negb (today =? last_reset_date st)%Z
    then (Api 0 today (total_requests_month st) (last_request_time st)
              (cache st),
          say INFO "Daily request counter reset" w)
    else (st, w) in
  if (Config.hf_requests_per_day <=? requests_today st)%Z then
    ((false, Some ("Daily limit reached ("
                   +:+ str_of_Z Config.hf_requests_per_day +:+ " requests)")),
     st, w)
  else if (Config.hf_requests_per_month <=? total_requests_month st)%Z then
    ((false, Some ("Monthly limit reached ("
                   +:+ str_of_Z Config.hf_requests_per_month +:+ " requests)")),
     st, w)
  else
    let w :=
      match last_request_time st with
      | Some t =>
        let time_since_last := (clock w - t)%Z in
        if (time_since_last <? seconds 1)%Z
        then sleep (seconds 1 - time_since_last) w
        else w
      | None => w
      end in
    ((true, None), st, w).

(** [_get_cache_key]: [f"{prompt[:100]}_{max_new_tokens}_{temperature}"] *)
Definition _get_cache_key (prompt : string) (max_new_tokens : Z) : string :=
  Py.str_of (take 100 (Py.chars prompt)) +:+ "_" +:+ str_of_Z max_new_tokens
  +:+ "_" +:+ Config.temperature_str.

(** [_check_cache]: a fresh entry is returned, an expired one deleted. *)
Definition _check_cache (st : api) (w : world) (cache_key : string)
    : option string * api * world :=
  match cache st !! cache_key with
  | Some (cached_data, cached_time) =>
    if (clock w - cached_time <? cache_ttl)%Z
    then (Some cached_data, st, say DEBUG "Cache hit" w)
    else (None,
          Api (requests_today st) (last_reset_date st)
              (total_requests_month st) (last_request_time st)
              (delete cache_key (cache st)),
          w)
  | None => (None, st, w)
  end.

(** One [requests.post]: the request goes out, the clock moves on. *)
Definition post (net : endpoint) (p : payload) (w : world)
    : http_reply * world :=
  let '(duration, reply) := net (length (sent w)) p in
  (reply, World (clock w + duration)%Z (sent w ++ [p]) (log w)).

(** Lines 131-134: a 503 is answered by waiting 20 seconds and sending
    the request once more. *)
Definition post_with_retry (net : endpoint) (p : payload) (w : world)
    : http_reply * world :=
  let '(reply, w) := post net p w in
  match reply with
  | Response 503 _ _ _ =>
    post net p (sleep (seconds 20)
                  (say INFO "Model is loading, waiting 20 seconds..." w))
  | _ => (reply, w)
  end.

(** Lines 136-168: from [raise_for_status] to the three [except]s. *)
Definition handle_reply (st : api) (w : world) (cache_key : string)
    (use_cache : bool) (reply : http_reply) : option string * api * world :=
  match reply with
  | Timeout => (None, st, say ERROR "Request timeout (30s)" w)
  | RequestFailed err response_text =>
    let w := say ERROR ("API request failed: " +:+ err) w in
    (None, st,
     match response_text with
     | Some t => say ERROR ("Response: " +:+ t) w
     | None => w
     end)
  | Response status reason text body =>
    if ((400 <=? status)%Z && (status <? 600)%Z)%bool then
      (None, st,
       say ERROR ("Response: " +:+ text)
         (say ERROR ("API request failed: " +:+ reason) w))
    else
      let st := Api (requests_today st + 1)%Z (last_reset_date st)
                    (total_requests_month st + 1)%Z (Some (clock w))
                    (cache st) in
      match body with
      | BodyInvalid err =>
        (None, st, say ERROR ("API request failed: " +:+ err) w)
      | BodyOther repr =>
        (None, st, say WARNING ("Unexpected response format: " +:+ repr) w)
      | BodyList (NotADict err) =>
        (None, st, say ERROR ("Unexpected error: " +:+ err) w)
      | BodyList (Dict item) =>
        let generated_text := default "" item in
        let st :=
          if (use_cache && negb (String.eqb generated_text ""))%bool
          then Api (requests_today st) (last_reset_date st)
                   (total_requests_month st) (last_request_time st)
                   (<[cache_key := (generated_text, clock w)]> (cache st))
          else st in
        (Some generated_text, st,
         say DEBUG ("Generated " +:+ str_of_len generated_text
                    +:+ " characters") w)
      end
  end.

(** Lines 109-168 of [generate_text]: the rate-limit check, the
    request and the handling of the reply. *)
Definition request_text (net : endpoint) (st : api) (w : world)
    (prompt : string) (max_length : Z) (cache_key : string)
    (use_cache : bool) : option string * api * world :=
  let '((can_proceed, reason), st, w) := _check_rate_limits st w in
  if negb can_proceed then
    (None, st,
     say WARNING ("Rate limit exceeded: " +:+ default "None" reason) w)
  else
    let p := Payload prompt max_length Config.temperature Config.top_p
                     false true in
    let w := say DEBUG ("Sending request to HF API (length: "
                        +:+ str_of_len prompt +:+ " chars)") w in
    let '(reply, w) := post_with_retry net p w in
    handle_reply st w cache_key use_cache reply.

(** [generate_text]: the cache first, then the request. *)
Definition generate_text (net : endpoint) (st : api) (w : world)
    (prompt : string) (max_length : Z) (use_cache : bool)
    : option string * api * world :=
  let cache_key := _get_cache_key prompt max_length in
  let '(cached_result, st, w) :=
    if use_cache then _check_cache st w cache_key else (None, st, w) in
  if Py.truthy cached_result then (cached_result, st, w)
  else request_text net st w prompt max_length cache_key use_cache.

(** The text that a call is served from the cache: the entry under the
    key of the call, when it is younger than the time to live and not
    empty. *)
Definition cache_hit (st : api) (w : world) (prompt : string)
    (max_length : Z) : option string :=
  match cache st !! _get_cache_key prompt max_length with
  | Some (cached_data, cached_time) =>
    if ((clock w - cached_time <? cache_ttl)%Z
        && negb (String.eqb cached_data ""))%bool
    then Some cached_data else None
  | None => None
  end.

(** [re.sub(pat, '', s)]: the text without the matches of [pat]. *)
Fixpoint re_delete_from (pat : list Py.atom) (prev : option ascii)
    (l : list ascii) (skip : nat) : list ascii :=
  match l with
  | [] => []
  | c :: l' =>
    match skip with
    | S k => re_delete_from pat (Some c) l' k
    | O =>
      match Py.match_here pat prev l with
      | Some (S n) => re_delete_from pat (Some c) l' n
      | _ => c :: re_delete_from pat (Some c) l' O
      end
    end
  end.

Definition re_delete (pat : list Py.atom) (l : list ascii) : list ascii :=
  re_delete_from pat None l O.

Definition is_newline (c : ascii) : bool := (Py.code c =? 10)%N.

(** [r'```sql\n?'] and [r'```\n?'] *)
Definition sql_fence : list Py.atom :=
  map Py.Lit (Py.chars "```sql") ++ [Py.Rep is_newline 0 (Some 1%nat)].
Definition fence : list Py.atom :=
  map Py.Lit (Py.chars "```") ++ [Py.Rep is_newline 0 (Some 1%nat)].

(** [re.sub(r'^(SQL Query:|Query:)\s*', '', sql, flags=re.IGNORECASE)] *)
Definition drop_label (l : list ascii) : list ascii :=
  if Py.startswith (Py.chars "sql query:") (Py.lower l)
  then Py.lstrip (drop 10 l)
  else if Py.startswith (Py.chars "query:") (Py.lower l)
  then Py.lstrip (drop 6 l)
  else l.

(** [s.lstrip(';')] *)
Fixpoint lstrip_semicolons (l : list ascii) : list ascii :=
  match l with
  | c :: l' => if Ascii.eqb c ";" then lstrip_semicolons l' else l
  | [] => []
  end.

(** [s.rstrip(';')] *)
Definition rstrip_semicolons (l : list ascii) : list ascii :=
  rev (lstrip_semicolons (rev l)).

(** [_clean_sql] *)
Definition _clean_sql (sql : string) : string :=
  if String.eqb sql "" then ""
  else
    Py.str_of (rstrip_semicolons (Py.strip (drop_label
      (re_delete fence (re_delete sql_fence (Py.chars sql)))))).

(** The prompt of [generate_sql_from_nl]. *)
Definition sql_prompt (natural_language_query schema_info : string) : string :=
  "You are a PostgreSQL expert for a financial analytics database.
Convert the natural language query to a valid PostgreSQL SQL query.

DATABASE SCHEMA:
" +:+ schema_info +:+ "

QUERY: " +:+ natural_language_query +:+ "

RULES:
- Return ONLY the SQL query, no explanations
- Use proper PostgreSQL syntax
- Include appropriate JOINs if needed
- Add LIMIT clause to prevent large results
- Use meaningful aliases

SQL Query:".

(** [generate_sql_from_nl] *)
Definition generate_sql_from_nl (net : endpoint) (st : api) (w : world)
    (natural_language_query schema_info : string)
    : option string * api * world :=
  let '(sql, st, w) :=
    generate_text net st w (sql_prompt natural_language_query schema_info)
                  300 true in
  (if Py.truthy sql then _clean_sql <$> sql else None, st, w).

(** [text.split()]: the maximal runs of non-space characters; [cur] is
    the run being read. *)
Fixpoint split_from (cur : list ascii) (l : list ascii)
    : list (list ascii) :=
  match l with
  | [] => match cur with [] => [] | _ => [cur] end
  | c :: l' =>
    if Py.is_space c then
      match cur with
      | [] => split_from [] l'
      | _ => cur :: split_from [] l'
      end
    else split_from (cur ++ [c]) l'
  end.

Definition split (l : list ascii) : list (list ascii) := split_from [] l.

(** [' '.join(words)] *)
Fixpoint join_blank (words : list (list ascii)) : list ascii :=
  match words with
  | [] => []
  | [x] => x
  | x :: rest => x ++ " "%char :: join_blank rest
  end.

(** [re.sub(r'^(Explanation:|Analysis:|Summary:)\s*', '', text,
    flags=re.IGNORECASE)] *)
Definition drop_heading (l : list ascii) : list ascii :=
  if Py.startswith (Py.chars "explanation:") (Py.lower l)
  then Py.lstrip (drop 12 l)
  else if Py.startswith (Py.chars "analysis:") (Py.lower l)
  then Py.lstrip (drop 9 l)
  else if Py.startswith (Py.chars "summary:") (Py.lower l)
  then Py.lstrip (drop 8 l)
  else l.

(** [_clean_explanation] *)
Definition _clean_explanation (text : string) : string :=
  if String.eqb text "" then ""
  else
    Py.str_of (Py.strip (join_blank (split (drop_heading (Py.chars text))))).

(** The dictionary of [get_usage_stats]; [last_request] is the instant
    that [isoformat] prints. *)
Record usage_stats : Type := UsageStats {
  stats_requests_today : Z;
  stats_requests_month : Z;
  remaining_today : Z;
  remaining_month : Z;
  last_request : option Z;
  cache_size : nat;
  daily_limit : Z;
  monthly_limit : Z }.

(** [get_usage_stats] *)
Definition get_usage_stats (st : api) : usage_stats :=
  UsageStats (requests_today st) (total_requests_month st)
    (Config.hf_requests_per_day - requests_today st)%Z
    (Config.hf_requests_per_month - total_requests_month st)%Z
    (last_request_time st) (size (cache st))
    Config.hf_requests_per_day Config.hf_requests_per_month.

(** [reset_usage_stats] *)
Definition reset_usage_stats (st : api) : api :=
  Api 0 (last_reset_date st) 0 (last_request_time st) (cache st).

(** [clear_cache] *)
Definition clear_cache (st : api) : api :=
  Api (requests_today st) (last_reset_date st) (total_requests_month st)
      (last_request_time st) ∅.

End HuggingFaceAPI.

(** ** [nl_to_sql.py] *)
Module NaturalLanguageSQL.

(** What [sqlparse.parse(sql)] does: it raises, or it returns a tuple
    of statements, of which only the number matters. *)
Inductive parse_outcome : Type :=
| ParseRaises (msg : string)
| Parsed (statements : nat).

Definition dangerous_keywords : list string :=
  ["drop"; "delete"; "truncate"; "insert"; "update"; "alter"; "create";
   "grant"; "revoke"].

(** The [for keyword in dangerous_keywords] loop with its early return:
    the first keyword that [re.search(rf'\b{keyword}\b', sql_lower)]
    finds. *)
Fixpoint first_dangerous (keywords : list string) (sql_lower : list ascii)
    : option string :=
  match keywords with
  | [] => None
  | keyword :: rest =>
    if Py.re_search (Py.word_pattern (Py.chars keyword)) sql_lower
    then Some keyword
    else first_dangerous rest sql_lower
  end.

(** [_validate_sql]: the pair [(is_valid, error_message)]. *)
Definition _validate_sql (sqlparse : string -> parse_outcome) (sql : string)
    : bool * option string :=
  let sql_lower := Py.strip (Py.lower (Py.chars sql)) in
  match first_dangerous dangerous_keywords sql_lower with
  | Some keyword =>
    (false, Some ("Dangerous keyword '" +:+ keyword +:+ "' not allowed"))
  | None =>
    if negb (Py.startswith (Py.chars "select") sql_lower) then
      (false, Some "Only SELECT queries are allowed")
    else
      match sqlparse sql with
      | ParseRaises e => (false, Some ("SQL parsing error: " +:+ e))
      | Parsed O => (false, Some "Invalid SQL syntax")
      | Parsed (S _) => (true, None)
      end
  end.

(** [asset_keywords], in the insertion order that the loop follows. *)
Definition asset_keywords : list (string * string) :=
  [("bitcoin", "btc"); ("ethereum", "eth"); ("apple", "aapl");
   ("microsoft", "msft"); ("google", "googl"); ("amazon", "amzn");
   ("tesla", "tsla")].

(** The list [assets] just before [list(set(assets))]: the symbols of
    the aliases that occur in the text, then the lower-cased matches of
    [\b[A-Z]{2,5}\b] in [text.upper()]. *)
Definition extracted_assets (text : string) : list string :=
  let by_alias :=
    omap (λ '(keyword, symbol),
            if Py.contains (Py.chars keyword) (Py.chars text)
            then Some symbol else None)
         asset_keywords in
  let tickers := Py.re_findall Py.ticker_pattern (Py.upper (Py.chars text)) in
  by_alias ++ map (λ t, Py.str_of (Py.lower t)) tickers.

(** [_extract_assets]: [list(set(assets))] has no defined order, so the
    result is the set. *)
Definition _extract_assets (text : string) : gset string :=
  list_to_set (extracted_assets text).

(** [query.lower()] on a [str] *)
Definition str_lower (s : string) : string :=
  Py.str_of (Py.lower (Py.chars s)).

(** *** Templates *)

(** The template returned at line 140. *)
Definition top_stocks_by_return (limit : string) : string :=
  "
                        SELECT asset_symbol, asset_name, total_return, sharpe_ratio, sector
                        FROM mart_asset_performance
                        WHERE asset_type = 'stock'
                        ORDER BY total_return DESC
                        LIMIT "
  +:+ limit
  +:+ "
                        ".

(** The template returned at line 148. *)
Definition top_stocks_by_volatility (limit : string) : string :=
  "
                        SELECT ticker, company_name, volatility_20d, daily_return, sector
                        FROM int_stock_daily_analysis
                        WHERE date = (SELECT MAX(date) FROM int_stock_daily_analysis)
                        ORDER BY volatility_20d DESC
                        LIMIT "
  +:+ limit
  +:+ "
                        ".

(** The template returned at line 156. *)
Definition top_stocks_by_volume (limit : string) : string :=
  "
                        SELECT ticker, company_name, volume, close_price, daily_return
                        FROM int_stock_daily_analysis
                        WHERE date = (SELECT MAX(date) FROM int_stock_daily_analysis)
                        ORDER BY volume DESC
                        LIMIT "
  +:+ limit
  +:+ "
                        ".

(** The template returned at line 164. *)
Definition latest_stocks : string :=
  "
                    SELECT ticker, company_name, close_price, daily_return, sector
                    FROM int_stock_daily_analysis
                    WHERE date = (SELECT MAX(date) FROM int_stock_daily_analysis)
                    ORDER BY ticker
                    LIMIT 20
                    ".

(** The template returned at line 176. *)
Definition top_crypto (limit : string) : string :=
  "
                    SELECT symbol, name, price_usd, daily_return, volume_24h
                    FROM int_crypto_analysis
                    WHERE date = (SELECT MAX(date) FROM int_crypto_analysis)
                    ORDER BY daily_return DESC
                    LIMIT "
  +:+ limit
  +:+ "
                    ".

(** The template returned at line 184. *)
Definition latest_crypto : string :=
  "
                    SELECT symbol, name, price_usd, daily_return, ma_7d, ma_30d
                    FROM int_crypto_analysis
                    WHERE date = (SELECT MAX(date) FROM int_crypto_analysis)
                    ORDER BY symbol
                    LIMIT 20
                    ".

(** The template returned at line 197. *)
Definition average_return_by_sector : string :=
  "
                    SELECT sector, 
                           AVG(total_return) as avg_return,
                           AVG(volatility) as avg_volatility,
                           COUNT(" +:+ "*) as num_assets
                    FROM mart_asset_performance
                    WHERE asset_type = 'stock' AND sector IS NOT NULL
                    GROUP BY sector
                    ORDER BY avg_return DESC
                    ".

(** The template returned at line 208. *)
Definition average_return_by_asset_type : string :=
  "
                    SELECT asset_type,
                           AVG(total_return) as avg_return,
                           AVG(volatility) as avg_volatility,
                           COUNT(" +:+ "*) as num_assets
                    FROM mart_asset_performance
                    GROUP BY asset_type
                    ORDER BY avg_return DESC
                    ".

(** The template returned at line 220. *)
Definition average_volatility_by_sector : string :=
  "
                    SELECT sector,
                           AVG(volatility) as avg_volatility,
                           MAX(volatility) as max_volatility,
                           MIN(volatility) as min_volatility
                    FROM mart_asset_performance
                    WHERE asset_type = 'stock' AND sector IS NOT NULL
                    GROUP BY sector
                    ORDER BY avg_volatility DESC
                    ".

(** The template returned at line 239. *)
Definition compare_assets (assets_list : string) : string :=
  "
                SELECT asset_symbol, asset_name, total_return, 
                       annualized_return, sharpe_ratio, volatility
                FROM mart_asset_performance
                WHERE LOWER(asset_symbol) IN ('"
  +:+ assets_list
  +:+ "')
                   OR LOWER(asset_name) IN ('"
  +:+ assets_list
  +:+ "')
                ORDER BY total_return DESC
                ".

(** The template returned at line 249. *)
Definition compare_asset_types : string :=
  "
                SELECT asset_type,
                       AVG(total_return) as avg_return,
                       AVG(sharpe_ratio) as avg_sharpe,
                       AVG(volatility) as avg_volatility
                FROM mart_asset_performance
                GROUP BY asset_type
                ORDER BY avg_return DESC
                ".

(** The template returned at line 265. *)
Definition market_trend (days : string) : string :=
  "
                SELECT date, asset_class, avg_return, 
                       return_volatility, market_regime
                FROM mart_daily_market_summary
                WHERE date >= CURRENT_DATE - INTERVAL '"
  +:+ days
  +:+ " days'
                ORDER BY date DESC, asset_class
                ".

(** The template returned at line 276. *)
Definition recent_anomalies : string :=
  "
            SELECT asset_name, date, daily_return, volume,
                   return_z_score, anomaly_type
            FROM analytics_market_anomalies
            WHERE ABS(return_z_score) > 2
            ORDER BY date DESC, ABS(return_z_score) DESC
            LIMIT 20
            ".

(** Is the literal [sub] in the lower-cased query? *)
Definition has (sub : string) (query_lower : list ascii) : bool :=
  Py.contains (Py.chars sub) query_lower.

(** [int(s)] for a string of digits *)
Definition int_of_digits (s : list ascii) : N :=
  default 0%N (N.of_uint <$> DecimalString.NilZero.uint_of_string (Py.str_of s)).

(** [str(n)] *)
Definition str_of_N (n : N) : string :=
  DecimalString.NilZero.string_of_uint (N.to_uint n).

(** [_extract_number] *)
Definition _extract_number (text : string) (default_ : N) : N :=
  match Py.re_findall Py.number_pattern (Py.chars text) with
  | first :: _ => int_of_digits first
  | [] => default_
  end.

(** ["', '".join(assets)] *)
Fixpoint join (sep : string) (l : list string) : string :=
  match l with
  | [] => ""
  | [x] => x
  | x :: rest => x +:+ sep +:+ join sep rest
  end.

(** [_generate_sql_template].  A branch that is entered and finds no
    template ends in the final [return None].  The order in which
    [list(set(assets))] lists the symbols is not defined by Python; the
    model takes the one of [elements]. *)
Definition _generate_sql_template (query intent : string) : option string :=
  let q := Py.lower (Py.chars query) in
  if (String.eqb intent "data_retrieval" || has "show" q || has "list" q
      || has "get" q)%bool then
    if has "stock" q then
      if (has "top" q || has "best" q || has "highest" q)%bool then
        let limit := str_of_N (_extract_number query 10) in
        if (has "return" q || has "performance" q)%bool
        then Some (top_stocks_by_return limit)
        else if has "volatil" q then Some (top_stocks_by_volatility limit)
        else if has "volume" q then Some (top_stocks_by_volume limit)
        else None
      else Some latest_stocks
    else if (has "crypto" q || has "bitcoin" q || has "ethereum" q)%bool then
      if (has "top" q || has "best" q)%bool
      then Some (top_crypto (str_of_N (_extract_number query 10)))
      else Some latest_crypto
    else None
  else if (String.eqb intent "aggregation" || has "average" q || has "avg" q
           || has "mean" q)%bool then
    if has "return" q then
      if has "sector" q then Some average_return_by_sector
      else Some average_return_by_asset_type
    else if has "volatil" q then
      if has "sector" q then Some average_volatility_by_sector else None
    else None
  else if (String.eqb intent "comparison" || has "compare" q || has "vs" q
           || has "versus" q)%bool then
    let assets := elements (_extract_assets (Py.str_of q)) in
    if (2 <=? length assets)%nat
    then Some (compare_assets (join "', '" assets))
    else Some compare_asset_types
  else if (String.eqb intent "trend_analysis" || has "trend" q
           || has "over time" q)%bool then
    let days := str_of_N (_extract_number query 30) in
    if has "market" q then Some (market_trend days) else None
  else if (String.eqb intent "anomaly_detection" || has "anomaly" q
           || has "unusual" q || has "outlier" q)%bool then
    Some recent_anomalies
  else None.

(** *** Execution *)

(** A value as the database driver hands it over. *)
Inductive dbval : Type :=
| DbNull
| DbBool (b : bool)
| DbInt (z : Z)
| DbFloat (q : Q)
| DbDecimal (q : Q)
| DbTemporal (isoformat : string)
| DbText (s : string).

(** The loop body of lines 369-376: a value with [isoformat] becomes
    that string, a value with [__float__] a float, the rest passes. *)
Definition normalize (val : dbval) : pyval :=
  match val with
  | DbTemporal iso => PStr iso
  | DbBool b => PFloat (if b then 1 else 0)
  | DbInt z => PFloat (inject_Z z)
  | DbFloat q => PFloat q
  | DbDecimal q => PFloat q
  | DbNull => PNone
  | DbText s => PStr s
  end.

(** The database: connecting, executing and fetching either raise (with
    the message of the exception) or give the column names and rows. *)
Definition database : Type :=
  string → string + (list string * list (list dbval)).

(** [row_dict]: the columns zipped with the values of a row. *)
Definition row_dict (columns : list string) (row : list dbval) : pyrow :=
  foldl (λ d '(col, val), <[col := normalize val]> d) ∅ (zip columns row).

(** [_execute_query]; [inl] is the exception that leaves it. *)
Definition _execute_query (db : database) (sql : string) (limit : N)
    : string + list pyrow :=
  let sql :=
    if has "limit" (Py.lower (Py.chars sql)) then sql
    else Py.str_of (HuggingFaceAPI.rstrip_semicolons (Py.chars sql))
         +:+ " LIMIT " +:+ str_of_N limit in
  match db sql with
  | inl err => inl err
  | inr (columns, rows) => inr (map (row_dict columns) rows)
  end.

(** *** The entry point *)

(** The dictionary that [process_query] returns; a key that a return
    statement leaves out is [None]. *)
Record query_result : Type := QueryResult {
  success : bool;
  error : option string;
  suggestion : option string;
  sql : option string;
  results : option (list pyrow);
  row_count : option nat;
  intent : string;
  confidence : option Q;
  method : option string;
  processing_time : Q }.

Definition query_intents : list string :=
  ["data_retrieval"; "aggregation"; "comparison"; "trend_analysis";
   "anomaly_detection"].

(** [process_query].  [classifier] is the zero-shot model, [schema_for]
    is [schema_manager.get_schema_for_sql_generation], [sqlparse] the
    parser, [db] the database, [net] the remote endpoint; [elapsed] is
    what the clock shows between the start and the return. *)
Definition process_query
    (classifier : LocalModelManager.zero_shot) (schema_for : string → string)
    (sqlparse : string → parse_outcome) (db : database)
    (net : HuggingFaceAPI.endpoint) (elapsed : Q)
    (hf : HuggingFaceAPI.api) (w : HuggingFaceAPI.world)
    (natural_language_query : string) (use_ai : bool)
    : query_result * HuggingFaceAPI.api * HuggingFaceAPI.world :=
  let '(intent, confidence) :=
    LocalModelManager.classify_query_intent classifier
      natural_language_query query_intents in
  let '(sql_query, method) :=
    if (FinancialVectorStore.Qgt_bool confidence (7 # 10) || negb use_ai)%bool
    then (_generate_sql_template natural_language_query intent, "template")
    else (None, "attempted_template") in
  let '(sql_query, method, hf, w) :=
    if (negb (Py.truthy sql_query) && use_ai)%bool then
      let '(generated, hf, w) :=
        HuggingFaceAPI.generate_sql_from_nl net hf w natural_language_query
          (schema_for natural_language_query) in
      (generated, "ai_generated", hf, w)
    else (sql_query, method, hf, w) in
  match sql_query with
  | Some sql_query =>
    if String.eqb sql_query "" then
      (QueryResult false (Some "Could not generate SQL query")
         (Some "Try rephrasing your question or be more specific")
         None None None intent (Some confidence) None elapsed, hf, w)
    else
      match _validate_sql sqlparse sql_query with
      | (false, validation_error) =>
        (QueryResult false
           (Some ("SQL validation failed: " +:+ default "None" validation_error))
           None (Some sql_query) None None intent None (Some method) elapsed,
         hf, w)
      | (true, _) =>
        match _execute_query db sql_query 100 with
        | inr rows =>
          (QueryResult true None None (Some sql_query) (Some rows)
             (Some (length rows)) intent (Some confidence) (Some method)
             elapsed, hf, w)
        | inl e =>
          (QueryResult false (Some e) None (Some sql_query) None None intent
             None (Some method) elapsed, hf, w)
        end
      end
  | None =>
    (QueryResult false (Some "Could not generate SQL query")
       (Some "Try rephrasing your question or be more specific")
       None None None intent (Some confidence) None elapsed, hf, w)
  end.

End NaturalLanguageSQL.

(** ** The words of the specification about SQL validation *)
Module SqlGuard.

(** The claim's words: [kw] occurs in [sql] as a standalone word, in
    any letter case: some stretch of the text lower-cases to [kw] and
    has no word character right before or right after it. *)
Definition standalone_word (kw sql : string) : Prop :=
  ∃ pre w post : list ascii,
    Py.chars sql = pre ++ w ++ post ∧
    Py.lower w = Py.chars kw ∧
    Py.word_opt (last pre) = false ∧
    Py.word_opt (head post) = false.

(** The claim's words: after trimming, the text begins with [select]
    in some letter case. *)
Definition begins_with_select (sql : string) : bool :=
  Py.startswith (Py.chars "select") (Py.lower (Py.strip (Py.chars sql))).

(** The character that precedes what follows [a]. *)
Definition last_or (prev : option ascii) (a : list ascii) : option ascii :=
  match last a with Some c => Some c | None => prev end.

End SqlGuard.

(** ** Collaborators for the examples *)
Module Examples.

(** An endpoint that answers every request with [text]. *)
Definition answering (text : string) : HuggingFaceAPI.endpoint :=
  λ _ _, (HuggingFaceAPI.seconds 2,
          HuggingFaceAPI.Response 200 "" ""
            (HuggingFaceAPI.BodyList (HuggingFaceAPI.Dict (Some text)))).

(** An endpoint whose model is still loading at the first request and
    that answers with [text] from the second on. *)
Definition loading_first (text : string) : HuggingFaceAPI.endpoint :=
  λ n _,
    match n with
    | O => (HuggingFaceAPI.seconds 1,
            HuggingFaceAPI.Response 503
              "503 Server Error: Service Unavailable" "loading"
              (HuggingFaceAPI.BodyOther "{}"))
    | S _ => (HuggingFaceAPI.seconds 2,
              HuggingFaceAPI.Response 200 "" ""
                (HuggingFaceAPI.BodyList (HuggingFaceAPI.Dict (Some text))))
    end.

(** A client that has made no request, at day 0. *)
Definition fresh : HuggingFaceAPI.api := HuggingFaceAPI.Api 0 0 0 None ∅.

(** A world five seconds into day 0, nothing sent, nothing logged. *)
Definition start : HuggingFaceAPI.world :=
  HuggingFaceAPI.World (HuggingFaceAPI.seconds 5) [] [].

(** A classifier that is sure of [intent]. *)
Definition sure (intent : string) : LocalModelManager.zero_shot :=
  λ _ _ _, Some ([intent], [9 # 10]).

(** A database that answers every statement with the same two rows. *)
Definition two_rows : NaturalLanguageSQL.database :=
  λ _, inr (["asset_symbol"; "total_return"],
            [[NaturalLanguageSQL.DbText "AAPL";
              NaturalLanguageSQL.DbDecimal (12 # 100)];
             [NaturalLanguageSQL.DbText "MSFT";
              NaturalLanguageSQL.DbDecimal (9 # 100)]]).

End Examples.

(** ** [anomaly_detector.py]: detection and comparison *)
Module AnomalyReports.

(** A value of an anomaly dictionary once it is enriched: a value of
    the database row or the list stored under ['similar_patterns']. *)
Inductive cell : Type :=
| Val (v : pyval)
| Patterns (l : list FinancialVectorStore.similarity_match).

Abbreviation anomaly := (gmap string cell).

(** [str(self.anomaly_threshold)], the float [2.0] *)
Definition anomaly_threshold_str : string := "2.0".

(** The query of lines 36-44. *)
Definition anomalies_query (days : string) : string :=
  "
        SELECT asset_name, asset_id, date, daily_return, anomaly_type,
               anomaly_score, price_change_pct
        FROM public_analytics.analytics_market_anomalies
        WHERE date >= CURRENT_DATE - INTERVAL '"
  +:+ days
  +:+ " days'
          AND ABS(anomaly_score) > "
  +:+ anomaly_threshold_str
  +:+ "
        ORDER BY date DESC, ABS(anomaly_score) DESC
        LIMIT 50
        ".

(** An exception caught by the [except] of [detect_recent_anomalies]:
    one raised by [_execute_query], with its message, or the TypeError
    or ValueError of a conversion. *)
Inductive failure : Type :=
| DatabaseError (message : string)
| ConversionError
| MissingKey.

Record severity_counts : Type := SeverityCounts {
  critical : nat;
  high : nat;
  medium : nat;
  low : nat }.

(** The dictionary that [detect_recent_anomalies] returns; a key that a
    return statement leaves out is [None]. *)
Record detection : Type := Detection {
  success : bool;
  anomalies_found : option nat;
  message : option string;
  period_days : option Z;
  by_severity : option severity_counts;
  top_anomalies : option (list anomaly);
  all_anomalies : option (list anomaly);
  error : option failure }.

(** [a['severity'] == label]; [None] is the KeyError of a dictionary
    without the key. *)
Definition has_severity (label : string) (a : anomaly) : option bool :=
  match a !! "severity" with
  | None => None
  | Some (Val (PStr s)) => Some (String.eqb s label)
  | Some _ => Some false
  end.

(** [len([a for a in classified if a['severity'] == label])] *)
Definition count_severity (label : string) (classified : list anomaly)
    : option nat :=
  length <$> FinancialVectorStore.filter_raising (has_severity label) classified.

(** The dictionary that [compare_to_historical] returns. *)
Record comparison : Type := Comparison {
  has_historical_match : bool;
  comparison_message : option string;
  similarity_score : option Q;
  best_match_event : option string;
  best_match_description : option string;
  best_match_date : option pyval;
  best_match_severity : option pyval;
  all_matches : option (list FinancialVectorStore.similarity_match);
  match_quality : option string }.

(** Lines 276-281: the ladder on the similarity of the best match. *)
Definition quality_of (similarity : Q) : string :=
  if FinancialVectorStore.Qgt_bool similarity (8 # 10) then "Very similar"
  else if FinancialVectorStore.Qgt_bool similarity (6 # 10)
       then "Moderately similar"
  else "Somewhat similar".

Section Detector.
Context {B : FinancialVectorStore.backend}.
Variable encode : LocalModelManager.encoder.
Variable db : NaturalLanguageSQL.database.
(** Python's parsing and printing of values: [float(s)] of a string,
    [str(v)] of a value that is not a string, and the float formats
    [.2%] and [.2f]. *)
Variable float_of_str : string → option Q.
Variable py_str : pyval → string.
Variable format_percent2 : Q → string.
Variable format_fixed2 : Q → string.

(** [f"{asset}"] *)
Definition str_of_val (v : pyval) : string :=
  match v with
  | PStr s => s
  | _ => py_str v
  end.

(** [f"{z_score:.2f}"]: a number is printed, [None] and a string raise. *)
Definition fixed2 (v : pyval) : option string :=
  match v with
  | PFloat q => Some (format_fixed2 q)
  | PInt z => Some (format_fixed2 (inject_Z z))
  | PBool b => Some (format_fixed2 (if b then 1 else 0))
  | PNone | PStr _ => None
  end.

(** Lines 119-124: the description handed to the vector search. *)
Definition description_of (row : pyrow) : option string :=
  let asset := default (PStr "Unknown") (row !! "asset_name") in
  return_val ← AnomalyDetector.py_float float_of_str
                 (AnomalyDetector.get0 row "daily_return");
  z_score ← fixed2 (AnomalyDetector.get0 row "z_score_abs");
  Some (str_of_val asset +:+ " experienced " +:+ format_percent2 return_val
        +:+ " return with z-score " +:+ z_score).

(** [_enrich_with_patterns]: each dictionary gets the key
    ['similar_patterns']; [None] is an exception, the store is the one
    left by the searches made until then. *)
Fixpoint _enrich_with_patterns (st : FinancialVectorStore.store B)
    (anomalies : list pyrow)
    : option (list anomaly) * FinancialVectorStore.store B :=
  match anomalies with
  | [] => (Some [], st)
  | row :: rest =>
    match description_of row with
    | None => (None, st)
    | Some description =>
      let '(similar, st) :=
        FinancialVectorStore.search_similar_anomalies encode st description 3
          (Some "medium") in
      let '(rest, st) := _enrich_with_patterns st rest in
      ((λ rest, <["similar_patterns" := Patterns similar]> (Val <$> row) :: rest)
         <$> rest, st)
    end
  end.

(** [detect_recent_anomalies].  The dictionaries of the first ten rows
    are the ones that [_enrich_with_patterns] writes to, so they carry
    ['similar_patterns'] in ['all_anomalies'] as well. *)
Definition detect_recent_anomalies (st : FinancialVectorStore.store B)
    (days : Z) (min_severity : string)
    : detection * FinancialVectorStore.store B :=
  match NaturalLanguageSQL._execute_query db
          (anomalies_query (HuggingFaceAPI.str_of_Z days)) 100 with
  | inl e =>
    (Detection false None None None None None None (Some (DatabaseError e)), st)
  | inr [] =>
    (Detection true (Some 0%nat)
       (Some ("No significant anomalies detected in last "
              +:+ HuggingFaceAPI.str_of_Z days +:+ " days"))
       None None None None None, st)
  | inr result =>
    match AnomalyDetector._classify_anomalies float_of_str result with
    | None =>
      (Detection false None None None None None None (Some ConversionError), st)
    | Some classified =>
      match _enrich_with_patterns st (take 10 classified) with
      | (None, st) =>
        (Detection false None None None None None None (Some ConversionError),
         st)
      | (Some enriched, st) =>
        let classified := enriched ++ ((λ row : pyrow, Val <$> row) <$> drop 10 classified) in
        match count_severity "critical" classified,
              count_severity "high" classified,
              count_severity "medium" classified,
              count_severity "low" classified with
        | Some critical, Some high, Some medium, Some low =>
          (Detection true (Some (length result)) None (Some days)
             (Some (SeverityCounts critical high medium low))
             (Some enriched) (Some classified) None, st)
        | _, _, _, _ =>
          (Detection false None None None None None None (Some MissingKey), st)
        end
      end
    end
  end.

(** [compare_to_historical]; [None] is an exception that leaves the
    method, which has no [try]. *)
Definition compare_to_historical (st : FinancialVectorStore.store B)
    (current_anomaly : pyrow)
    : option comparison * FinancialVectorStore.store B :=
  match AnomalyDetector.py_float float_of_str
          (AnomalyDetector.get0 current_anomaly "daily_return"),
        AnomalyDetector.py_float float_of_str
          (AnomalyDetector.get0 current_anomaly "return_z_score") with
  | Some return_val, Some _ =>
    let description :=
      "Significant price movement of " +:+ format_percent2 return_val
      +:+ " with high volatility" in
    let '(similar, st) :=
      FinancialVectorStore.search_similar_anomalies encode st description 5
        None in
    match similar with
    | [] =>
      (Some (Comparison false (Some "No similar historical patterns found")
               None None None None None None None), st)
    | best_match :: _ =>
      let similarity := FinancialVectorStore.similarity best_match in
      (md ← FinancialVectorStore.metadata best_match;
       Some (Comparison true None (Some similarity)
               (Some (FinancialVectorStore.id best_match))
               (Some (FinancialVectorStore.description best_match))
               (Some (default (PStr "Unknown") (md !! "date")))
               (Some (default (PStr "Unknown") (md !! "severity")))
               (Some similar) (Some (quality_of similarity))), st)
    end
  | _, _ => (None, st)
  end.

End Detector.

End AnomalyReports.


(** ** Collaborators for the examples of the anomaly reports *)
Module AnomalyExamples.

(** A database that answers every statement with two anomalies. *)
Definition two_anomalies : NaturalLanguageSQL.database :=
  λ _, inr (["asset_name"; "anomaly_score"; "daily_return"],
            [[NaturalLanguageSQL.DbText "AAPL";
              NaturalLanguageSQL.DbDecimal (- (9 # 2));
              NaturalLanguageSQL.DbDecimal (- (6 # 100))];
             [NaturalLanguageSQL.DbText "MSFT";
              NaturalLanguageSQL.DbDecimal (26 # 10);
              NaturalLanguageSQL.DbDecimal (3 # 100)]]).

(** A vector database that answers every query with one past crash. *)
Definition history : FinancialVectorStore.query_results :=
  FinancialVectorStore.QueryResults [["crash_1987"]] [["Black Monday"]]
    [[Some {[ "severity" := PStr "critical"; "date" := PStr "1987-10-19" ]}]]
    [[1 # 10]].

(** An embedding model that maps every text to the same vector. *)
Definition constant_encoder : LocalModelManager.encoder :=
  λ _ _ _, Some [[1%Q; 0%Q]].

(** Stand-ins for Python's parsing and printing of floats. *)
Definition no_parse : string → option Q := λ _, None.
Definition blank_str : pyval → string := λ _, "".
Definition blank_format : Q → string := λ _, "".

End AnomalyExamples.


(** ** [schema_manager.py] *)
Module SchemaManager.

(** A table of [schema_info]; the two lists of hints are optional keys. *)
Record table_info : Type := TableInfo {
  description : string;
  columns : list (string * string);
  common_filters : option (list string);
  common_sorts : option (list string) }.

(** [_build_schema_info]: the layers, their tables and the columns, in
    the order of the dictionary literals. *)
Definition schema_info : list (string * list (string * table_info)) :=
  [("staging",
     [("stg_stocks",
       TableInfo "Staging table for raw stock data"
          [("ticker", "Stock ticker symbol");
           ("date", "Trading date");
           ("open", "Opening price");
           ("high", "High price");
           ("low", "Low price");
           ("close", "Closing price");
           ("volume", "Trading volume");
           ("company_name", "Company name");
           ("sector", "Business sector");
           ("industry", "Industry classification")]
          None
          None);
      ("stg_economic_indicators",
       TableInfo "Staging table for economic indicators"
          [("series_id", "FRED series ID");
           ("date", "Observation date");
           ("value", "Indicator value");
           ("series_title", "Indicator name");
           ("units", "Measurement units");
           ("frequency", "Data frequency")]
          None
          None);
      ("stg_crypto",
       TableInfo "Staging table for cryptocurrency data"
          [("symbol", "Crypto symbol");
           ("name", "Cryptocurrency name");
           ("date", "Date");
           ("price_usd", "Price in USD");
           ("volume_24h", "24-hour trading volume");
           ("market_cap", "Market capitalization");
           ("category", "Crypto category")]
          None
          None)]);
   ("intermediate",
     [("public_intermediate.int_stock_daily_analysis",
       TableInfo "Daily stock analysis with technical indicators"
          [("ticker", "Stock ticker");
           ("date", "Trading date");
           ("close_price", "Closing price");
           ("volume", "Trading volume");
           ("daily_return", "Daily percentage return");
           ("sma_short", "Short-term moving average (20 days)");
           ("sma_long", "Long-term moving average (50 days)");
           ("rsi_14d", "Relative Strength Index (14 days)");
           ("volatility_20d", "20-day volatility");
           ("company_name", "Company name");
           ("sector", "Business sector");
           ("market_cap_category", "Market cap size (Large/Mid/Small)")]
          (Some ["sector"; "market_cap_category"])
          (Some ["daily_return"; "volatility_20d"; "volume"]));
      ("int_economic_analysis",
       TableInfo "Economic indicators with calculations"
          [("series_id", "FRED series ID");
           ("date", "Date");
           ("value", "Indicator value");
           ("percentage_change", "Period-over-period change");
           ("year_over_year_change", "Year-over-year change");
           ("series_title", "Indicator name");
           ("indicator_category", "Category (GDP, Inflation, Employment, etc.)");
           ("units", "Units")]
          (Some ["indicator_category"])
          (Some ["date"; "percentage_change"]));
      ("int_crypto_analysis",
       TableInfo "Cryptocurrency analysis with metrics"
          [("symbol", "Crypto symbol");
           ("name", "Name");
           ("date", "Date");
           ("price_usd", "Price in USD");
           ("volume_24h", "24-hour volume");
           ("daily_return", "Daily return");
           ("ma_7d", "7-day moving average");
           ("ma_30d", "30-day moving average");
           ("volatility_30d", "30-day volatility");
           ("crypto_category", "Category (DeFi, Layer1, etc.)")]
          (Some ["crypto_category"])
          (Some ["daily_return"; "volume_24h"; "price_usd"]))]);
   ("marts",
     [("mart_daily_market_summary",
       TableInfo "Daily market summary by asset class"
          [("date", "Date");
           ("asset_class", "Asset class (stock/crypto/economic)");
           ("avg_return", "Average return");
           ("return_volatility", "Return volatility");
           ("total_volume", "Total trading volume");
           ("market_regime", "Market regime (bull/bear/neutral)");
           ("risk_sentiment", "Risk sentiment score")]
          (Some ["asset_class"; "market_regime"])
          (Some ["date"; "avg_return"]));
      ("mart_asset_performance",
       TableInfo "Asset performance metrics"
          [("asset_symbol", "Asset symbol/ticker");
           ("asset_type", "Type (stock/crypto)");
           ("asset_name", "Asset name");
           ("total_return", "Total return");
           ("annualized_return", "Annualized return");
           ("volatility", "Volatility");
           ("sharpe_ratio", "Sharpe ratio");
           ("max_drawdown", "Maximum drawdown");
           ("beta", "Market beta");
           ("sector", "Sector (for stocks)");
           ("performance_category", "Performance tier")]
          (Some ["asset_type"; "sector"; "performance_category"])
          (Some ["total_return"; "sharpe_ratio"; "volatility"]));
      ("analytics_cross_asset_correlations",
       TableInfo "Cross-asset correlation matrix"
          [("asset_1", "First asset");
           ("asset_2", "Second asset");
           ("correlation_coefficient", "Correlation (-1 to 1)");
           ("relationship_type", "Type (positive/negative/none)");
           ("correlation_strength", "Strength (strong/moderate/weak)")]
          (Some ["relationship_type"; "correlation_strength"])
          (Some ["correlation_coefficient"]));
      ("analytics_market_anomalies",
       TableInfo "Detected market anomalies"
          [("asset_id", "Asset identifier");
           ("asset_name", "Asset name");
           ("date", "Date");
           ("daily_return", "Return");
           ("volume", "Volume");
           ("return_z_score", "Z-score for return");
           ("volume_z_score", "Z-score for volume");
           ("anomaly_type", "Type of anomaly")]
          (Some ["anomaly_type"])
          (Some ["date"; "return_z_score"]))])].

(** [keyword_mapping] of [get_relevant_tables], in insertion order. *)
Definition keyword_mapping : list (string * list string) :=
  [("stock", ["int_stock_daily_analysis"; "mart_asset_performance"]);
   ("crypto", ["int_crypto_analysis"; "mart_asset_performance"]);
   ("economic", ["int_economic_analysis"]);
   ("market", ["mart_daily_market_summary"]);
   ("correlation", ["analytics_cross_asset_correlations"]);
   ("anomaly", ["analytics_market_anomalies"]);
   ("performance", ["mart_asset_performance"]);
   ("volatility", ["int_stock_daily_analysis"; "int_crypto_analysis"]);
   ("return", ["mart_asset_performance"; "int_stock_daily_analysis"])].

(** The line break of the format strings. *)
Definition nl : string := "
".

(** [''.join] of the pieces of a text built with [+=]. *)
Definition concat_str (l : list string) : string := foldr String.append "" l.

(** The text that [get_table_description] builds for a table found. *)
Definition describe (table_name : string) (info : table_info) : string :=
  "Table: " +:+ table_name +:+ nl
  +:+ "Description: " +:+ description info +:+ nl
  +:+ "Columns:" +:+ nl
  +:+ concat_str (map (λ '(col, desc), "  - " +:+ col +:+ ": " +:+ desc +:+ nl)
                      (columns info))
  +:+ match common_filters info with
      | Some filters =>
        "Common filters: " +:+ NaturalLanguageSQL.join ", " filters +:+ nl
      | None => ""
      end
  +:+ match common_sorts info with
      | Some sorts =>
        "Common sorts: " +:+ NaturalLanguageSQL.join ", " sorts +:+ nl
      | None => ""
      end.

(** [tables[table_name]] when [table_name in tables] *)
Fixpoint table_of (tables : list (string * table_info)) (table_name : string)
    : option table_info :=
  match tables with
  | [] => None
  | (name, info) :: rest =>
    if String.eqb name table_name then Some info else table_of rest table_name
  end.

(** The loop of [get_table_description] over the layers. *)
Fixpoint describe_in (layers : list (string * list (string * table_info)))
    (table_name : string) : option string :=
  match layers with
  | [] => None
  | (_, tables) :: rest =>
    match table_of tables table_name with
    | Some info => Some (describe table_name info)
    | None => describe_in rest table_name
    end
  end.

(** [get_table_description] *)
Definition get_table_description (table_name : string) : string :=
  default ("Table " +:+ table_name +:+ " not found")
          (describe_in schema_info table_name).

(** [get_all_tables] *)
Definition get_all_tables : list string :=
  concat (map (λ '(_, tables), map fst tables) schema_info).

(** [list(dict.fromkeys(l))]: the first occurrence of each name, in
    order; [seen] holds the names met so far. *)
Fixpoint first_occurrences (seen l : list string) : list string :=
  match l with
  | [] => []
  | x :: rest =>
    if existsb (String.eqb x) seen then first_occurrences seen rest
    else x :: first_occurrences (x :: seen) rest
  end.

(** [get_relevant_tables] *)
Definition get_relevant_tables (query : string) : list string :=
  let query_lower := Py.lower (Py.chars query) in
  let relevant_tables :=
    concat (map (λ '(keyword, tables),
                   if Py.contains (Py.chars keyword) query_lower
                   then tables else [])
                keyword_mapping) in
  match first_occurrences [] relevant_tables with
  | [] => ["mart_asset_performance"; "int_stock_daily_analysis";
           "mart_daily_market_summary"]
  | relevant_tables => relevant_tables
  end.

(** [get_schema_for_sql_generation] *)
Definition get_schema_for_sql_generation (query : string) : string :=
  "Available PostgreSQL Tables:" +:+ nl +:+ nl
  +:+ concat_str (map (λ table_name, get_table_description table_name +:+ nl)
                      (take 3 (get_relevant_tables query)))
  +:+ nl +:+ "Notes:" +:+ nl
  +:+ "- Use proper PostgreSQL syntax" +:+ nl
  +:+ "- Always include LIMIT clause (max 100 rows)" +:+ nl
  +:+ "- Use meaningful column aliases" +:+ nl
  +:+ "- Date format: 'YYYY-MM-DD'" +:+ nl.

End SchemaManager.


(* ================================================================== *)
(** * Properties *)
(* ================================================================== *)

(** ** Anomaly severity *)

Ltac threshold_cases :=
  repeat match goal with
  | |- context [Qle_bool ?a ?b] =>
    let E := fresh "E" in
    destruct (Qle_bool a b) eqn:E;
    [ apply Qle_bool_iff in E
    | apply not_true_iff_false in E; rewrite Qle_bool_iff in E ]
  end.

Lemma severity_of_cases (z : Q) :
  (4 <= z ∧ AnomalyDetector.severity_of z = "critical") ∨
  (3 <= z ∧ z < 4 ∧ AnomalyDetector.severity_of z = "high") ∨
  (5 # 2 <= z ∧ z < 3 ∧ AnomalyDetector.severity_of z = "medium") ∨
  (z < 5 # 2 ∧ AnomalyDetector.severity_of z = "low").
Proof.
  unfold AnomalyDetector.severity_of. threshold_cases.
  - left. split; [lra | reflexivity].
  - right; left. repeat split; [lra | lra].
  - right; right; left. repeat split; [lra | lra].
  - right; right; right. split; [lra | reflexivity].
Qed.

Lemma classify_one_fields fos (a row : pyrow) :
  AnomalyDetector.classify_one fos a = Some row →
  ∃ z, AnomalyDetector.z_score_of fos a = Some z ∧
       row !! "z_score_abs" = Some (PFloat z) ∧
       row !! "severity" = Some (PStr (AnomalyDetector.severity_of z)).
Proof.
  unfold AnomalyDetector.classify_one. intros H.
  destruct (AnomalyDetector.z_score_of fos a) as [z|]; simpl in H; [|discriminate].
  injection H as <-. exists z. split; [reflexivity|]. split.
  - apply lookup_insert_eq.
  - rewrite lookup_insert_ne by discriminate. apply lookup_insert_eq.
Qed.

(** C1. Every row that [_classify_anomalies] returns carries the computed
    absolute z-score [z] and the severity fixed by the thresholds:
    critical iff [z >= 4.0], high iff [3.0 <= z < 4.0], medium iff
    [2.5 <= z < 3.0], low iff [z < 2.5]; hence the severity level never
    decreases when [z] grows. *)
Theorem classify_severity_thresholds :
  (∀ z : Q,
     (AnomalyDetector.severity_of z = "critical" ↔ 4 <= z) ∧
     (AnomalyDetector.severity_of z = "high" ↔ 3 <= z ∧ z < 4) ∧
     (AnomalyDetector.severity_of z = "medium" ↔ 5 # 2 <= z ∧ z < 3) ∧
     (AnomalyDetector.severity_of z = "low" ↔ z < 5 # 2)) ∧
  (∀ z1 z2 : Q, z1 <= z2 →
     (Severity.level (AnomalyDetector.severity_of z1)
      ≤ Severity.level (AnomalyDetector.severity_of z2))%nat) ∧
  (∀ fos (anomalies classified : list pyrow),
     AnomalyDetector._classify_anomalies fos anomalies = Some classified →
     length classified = length anomalies ∧
     ∀ (i : nat) (row : pyrow), classified !! i = Some row →
       ∃ (a : pyrow) (z : Q),
         anomalies !! i = Some a ∧
         AnomalyDetector.z_score_of fos a = Some z ∧
         row !! "z_score_abs" = Some (PFloat z) ∧
         row !! "severity" = Some (PStr (AnomalyDetector.severity_of z))).
Proof.
  split; [|split].
  - intros z.
    destruct (severity_of_cases z) as [[? ->]|[(? & ? & ->)|[(? & ? & ->)|[? ->]]]];
      repeat split; intros; try discriminate; try lra;
      repeat match goal with H : _ ∧ _ |- _ => destruct H end; lra.
  - intros z1 z2 Hle.
    destruct (severity_of_cases z1) as [[? ->]|[(? & ? & ->)|[(? & ? & ->)|[? ->]]]];
    destruct (severity_of_cases z2) as [[? ->]|[(? & ? & ->)|[(? & ? & ->)|[? ->]]]];
      try (vm_compute; lia); exfalso; lra.
  - intros fos anomalies classified H.
    unfold AnomalyDetector._classify_anomalies in H.
    apply mapM_Some in H. split.
    + symmetry. eapply Forall2_length, H.
    + intros i row Hi.
      destruct (Forall2_lookup_r _ _ _ _ _ H Hi) as (a & Ha & Hc).
      destruct (classify_one_fields _ _ _ Hc) as (z & Hz & Hf & Hs).
      exists a, z. auto.
Qed.

Lemma classify_severity_thresholds_witness :
  (Severity.level (AnomalyDetector.severity_of 3)
   ≤ Severity.level (AnomalyDetector.severity_of (9 # 2)))%nat ∧
  ∃ (a : pyrow) (z : Q),
    [ ({[ "anomaly_score" := PFloat (- (7 # 2)) ]} : pyrow) ] !! 0%nat = Some a ∧
    AnomalyDetector.z_score_of (λ _, None) a = Some z ∧
    (<["z_score_abs" := PFloat (7 # 2)]>
       (<["severity" := PStr "high"]>
          ({[ "anomaly_score" := PFloat (- (7 # 2)) ]} : pyrow)))
      !! "severity" = Some (PStr (AnomalyDetector.severity_of z)).
Proof.
  destruct classify_severity_thresholds as (_ & Hmono & Hrows). split.
  - apply Hmono. vm_compute. discriminate.
  - assert (Hc : AnomalyDetector._classify_anomalies (λ _, None)
      [ ({[ "anomaly_score" := PFloat (- (7 # 2)) ]} : pyrow) ]
      = Some [ <["z_score_abs" := PFloat (7 # 2)]>
          (<["severity" := PStr "high"]>
             ({[ "anomaly_score" := PFloat (- (7 # 2)) ]} : pyrow)) ])
      by (vm_compute; reflexivity).
    destruct (Hrows _ _ _ Hc) as [_ Hrow].
    destruct (Hrow 0%nat _ eq_refl) as (a & z & Ha & Hz & _ & Hs).
    exists a, z. auto.
Defined.

(** ** SQL validation *)

Lemma lower_char_word c : Py.is_word (Py.lower_char c) = Py.is_word c.
Proof. destruct c as [[] [] [] [] [] [] [] []]; reflexivity. Qed.

Lemma lower_char_space c : Py.is_space (Py.lower_char c) = Py.is_space c.
Proof. destruct c as [[] [] [] [] [] [] [] []]; reflexivity. Qed.

Lemma word_not_space c : Py.is_word c = true → Py.is_space c = false.
Proof. destruct c as [[] [] [] [] [] [] [] []]; vm_compute; congruence. Qed.

Lemma lstrip_lower l : Py.lstrip (Py.lower l) = Py.lower (Py.lstrip l).
Proof.
  induction l as [|c l IH]; [reflexivity|].
  simpl. rewrite lower_char_space. destruct (Py.is_space c); [exact IH | reflexivity].
Qed.

Lemma strip_lower l : Py.strip (Py.lower l) = Py.lower (Py.strip l).
Proof.
  unfold Py.strip, Py.rstrip. rewrite lstrip_lower.
  unfold Py.lower at 1. rewrite <- map_rev. fold (Py.lower (rev (Py.lstrip l))).
  rewrite lstrip_lower. unfold Py.lower. by rewrite map_rev.
Qed.

(** Stripping on the left of a text whose middle starts with a
    non-space character only shortens what stands before the middle. *)
Lemma lstrip_keeps (x : list ascii) k y :
  Py.is_space k = false →
  ∃ x0 x', x = x0 ++ x' ∧ Py.lstrip (x ++ k :: y) = x' ++ k :: y.
Proof.
  intros Hk. induction x as [|c x IH].
  - exists [], []. simpl. by rewrite Hk.
  - simpl. destruct (Py.is_space c) eqn:Hc.
    + destruct IH as (x0 & x' & -> & ->). by exists (c :: x0), x'.
    + by exists [], (c :: x).
Qed.

Lemma strip_keeps (pre kw post : list ascii) :
  kw ≠ [] → Forall (λ c, Py.is_space c = false) kw →
  ∃ pre0 pre' post' post0,
    pre = pre0 ++ pre' ∧ post = post' ++ post0 ∧
    Py.strip (pre ++ kw ++ post) = pre' ++ kw ++ post'.
Proof.
  intros Hne Hns.
  destruct kw as [|k kw]; [done|].
  apply Forall_cons in Hns as [Hk Hkw].
  destruct (lstrip_keeps pre k (kw ++ post) Hk) as (pre0 & pre' & -> & Hl).
  assert (∃ kw' e, k :: kw = kw' ++ [e] ∧ Py.is_space e = false) as (kw' & e & Hsn & He).
  { destruct (rev (k :: kw)) as [|e r] eqn:Hr.
    - apply (f_equal (@rev ascii)) in Hr. rewrite rev_involutive in Hr. done.
    - exists (rev r), e. split.
      + apply (f_equal (@rev ascii)) in Hr. rewrite rev_involutive in Hr. by rewrite Hr.
      + assert (He : e ∈ k :: kw).
        { apply list_elem_of_In, in_rev. rewrite Hr. by left. }
        assert (HF : Forall (λ c, Py.is_space c = false) (k :: kw)) by by constructor.
        rewrite Forall_forall in HF. by apply HF. }
  destruct (lstrip_keeps (rev post) e (rev kw' ++ rev pre') He)
    as (q0 & q' & Hq & Hr).
  exists pre0, pre', (rev q'), (rev q0). split; [done|]. split.
  - apply (f_equal (@rev ascii)) in Hq. rewrite rev_involutive, rev_app_distr in Hq. done.
  - unfold Py.strip, Py.rstrip.
    change ((k :: kw) ++ post) with (k :: kw ++ post). rewrite Hl.
    change (k :: kw ++ post) with ((k :: kw) ++ post). rewrite Hsn.
    replace (rev (pre' ++ (kw' ++ [e]) ++ post))
      with (rev post ++ e :: rev kw' ++ rev pre')
      by (rewrite !rev_app_distr; simpl; by rewrite <- !app_assoc).
    rewrite Hr. rewrite !rev_app_distr. simpl. rewrite !rev_app_distr.
    rewrite !rev_involutive. simpl. by rewrite <- !app_assoc.
Qed.

Lemma last_or_cons prev c a : SqlGuard.last_or prev (c :: a) = SqlGuard.last_or (Some c) a.
Proof.
  unfold SqlGuard.last_or. destruct a as [|d a]; [reflexivity|].
  change (last (c :: d :: a)) with (last (d :: a)).
  destruct (last (d :: a)) eqn:E; [reflexivity|]. by apply last_None in E.
Qed.

Lemma match_literals kw rest prev b n :
  Py.match_here rest (SqlGuard.last_or prev kw) b = Some n →
  Py.match_here (map Py.Lit kw ++ rest) prev (kw ++ b) = Some (length kw + n)%nat.
Proof.
  revert prev. induction kw as [|c kw IH]; intros prev H.
  - exact H.
  - simpl. rewrite Ascii.eqb_refl. rewrite last_or_cons in H.
    by rewrite (IH _ H).
Qed.

Lemma match_word kw prev b :
  kw ≠ [] → Forall (λ c, Py.is_word c = true) kw →
  Py.word_opt prev = false → Py.word_opt (head b) = false →
  Py.match_here (Py.word_pattern kw) prev (kw ++ b) = Some (length kw + 0)%nat.
Proof.
  intros Hne Hw Hp Hb. unfold Py.word_pattern.
  cbn [Py.match_here]. unfold Py.at_boundary at 1.
  destruct kw as [|k kw]; [done|].
  pose proof (Forall_inv Hw) as Hk. simpl in Hk.
  rewrite Hp.
  change (Py.word_opt (head ((k :: kw) ++ b))) with (Py.is_word k).
  rewrite Hk. cbn [xorb].
  apply match_literals. cbn [Py.match_here]. unfold Py.at_boundary.
  assert (Hl : Py.word_opt (SqlGuard.last_or prev (k :: kw)) = true).
  { unfold SqlGuard.last_or. destruct (last (k :: kw)) as [e|] eqn:He.
    - apply last_Some_elem_of in He. rewrite Forall_forall in Hw. by apply Hw.
    - by apply last_None in He. }
  by rewrite Hl, Hb.
Qed.

Lemma search_from_app pat prev a l n :
  Py.match_here pat (SqlGuard.last_or prev a) l = Some n →
  Py.search_from pat prev (a ++ l) = true.
Proof.
  revert prev. induction a as [|c a IH]; intros prev H.
  - destruct l; simpl; unfold SqlGuard.last_or in H; simpl in H; by rewrite H.
  - simpl. destruct (Py.match_here pat prev (c :: a ++ l)); [done|].
    apply IH. rewrite last_or_cons in H. exact H.
Qed.

Lemma first_dangerous_found kw kws l :
  kw ∈ kws →
  Py.re_search (Py.word_pattern (Py.chars kw)) l = true →
  is_Some (NaturalLanguageSQL.first_dangerous kws l).
Proof.
  intros Hin Hs. induction kws as [|k kws IH]; [by apply elem_of_nil in Hin|].
  simpl. destruct (Py.re_search (Py.word_pattern (Py.chars k)) l) eqn:Hk; [by eexists|].
  apply elem_of_cons in Hin as [->|Hin]; [congruence | by apply IH].
Qed.

Lemma dangerous_keywords_words :
  Forall (λ kw, Py.chars kw ≠ [] ∧ Forall (λ c, Py.is_word c = true) (Py.chars kw))
         NaturalLanguageSQL.dangerous_keywords.
Proof.
  unfold NaturalLanguageSQL.dangerous_keywords.
  repeat (apply Forall_cons; split; [split; [discriminate | repeat constructor] |]).
  constructor.
Qed.

Lemma last_lower l : last (Py.lower l) = Py.lower_char <$> last l.
Proof.
  induction l as [|c l IH]; [reflexivity|].
  destruct l as [|d l]; [reflexivity|]. exact IH.
Qed.

Lemma standalone_word_found kw sql :
  Py.chars kw ≠ [] → Forall (λ c, Py.is_word c = true) (Py.chars kw) →
  SqlGuard.standalone_word kw sql →
  Py.re_search (Py.word_pattern (Py.chars kw))
               (Py.strip (Py.lower (Py.chars sql))) = true.
Proof.
  intros Hne Hw (pre & w & post & Hs & Hl & Hp & Hq).
  rewrite Hs. unfold Py.lower. rewrite !map_app.
  fold (Py.lower pre) (Py.lower w) (Py.lower post). rewrite Hl.
  destruct (strip_keeps (Py.lower pre) (Py.chars kw) (Py.lower post) Hne)
    as (pre0 & pre' & post' & post0 & Hpre & Hpost & ->).
  { eapply Forall_impl; [exact Hw|]. intros c. apply word_not_space. }
  unfold Py.re_search. eapply search_from_app. apply match_word; [done|done| |].
  - unfold SqlGuard.last_or. destruct (last pre') as [e|] eqn:He; [|reflexivity].
    assert (last (Py.lower pre) = Some e) as Hlast.
    { rewrite Hpre. destruct pre' as [|p pre'] using rev_ind; [done|].
      rewrite last_snoc in He. rewrite app_assoc, last_snoc. done. }
    rewrite last_lower in Hlast.
    destruct (last pre) as [e0|]; [|done]. simpl in Hlast. injection Hlast as <-.
    simpl. rewrite lower_char_word. exact Hp.
  - destruct post' as [|p post']; [reflexivity|]. simpl.
    destruct post as [|p0 post]; [done|].
    simpl in Hpost. injection Hpost as <- _. simpl in Hq.
    rewrite lower_char_word. exact Hq.
Qed.

(** C2. A text that holds a denylisted keyword as a standalone word, in
    any letter case, is rejected; so is a text that, once trimmed, does
    not begin with [select] in some letter case. *)
Theorem validate_sql_rejects (sqlparse : string → NaturalLanguageSQL.parse_outcome)
    (sql : string) :
  (∃ kw, kw ∈ NaturalLanguageSQL.dangerous_keywords ∧ SqlGuard.standalone_word kw sql)
  ∨ SqlGuard.begins_with_select sql = false →
  (NaturalLanguageSQL._validate_sql sqlparse sql).1 = false.
Proof.
  intros H. unfold NaturalLanguageSQL._validate_sql.
  destruct (NaturalLanguageSQL.first_dangerous _ _) as [k|] eqn:Hfd; [reflexivity|].
  destruct H as [(kw & Hin & Hst)|Hsel].
  - exfalso.
    pose proof dangerous_keywords_words as HF. rewrite Forall_forall in HF.
    destruct (HF kw Hin) as [Hne Hw].
    pose proof (standalone_word_found kw sql Hne Hw Hst) as Hs.
    destruct (first_dangerous_found kw _ _ Hin Hs) as [k Hk]. congruence.
  - unfold SqlGuard.begins_with_select in Hsel. rewrite <- strip_lower in Hsel.
    by rewrite Hsel.
Qed.

Lemma validate_sql_rejects_witness :
  (NaturalLanguageSQL._validate_sql (λ _, NaturalLanguageSQL.Parsed 2)
     "SELECT 1; Drop TABLE t").1 = false
  ∧ (NaturalLanguageSQL._validate_sql (λ _, NaturalLanguageSQL.Parsed 1)
     "  with q as (select 1) select * from q").1 = false.
Proof.
  split.
  - apply validate_sql_rejects. left. exists "drop". split.
    + unfold NaturalLanguageSQL.dangerous_keywords. set_solver.
    + exists (Py.chars "SELECT 1; "), (Py.chars "Drop"), (Py.chars " TABLE t").
      repeat split; reflexivity.
  - apply validate_sql_rejects. right. vm_compute. reflexivity.
Defined.

(** ** Entity extraction for comparison queries *)

(** C3. On the lower-cased query "Compare Bitcoin and Ethereum
    performance" [_extract_assets] does not stop at the two aliases: the
    pattern for tickers is run on the upper-cased text, so the word
    "and" is a match too and the set returned is [{btc, eth, and}], not
    [{btc, eth}]. *)
Theorem extract_assets_compare_query :
  NaturalLanguageSQL._extract_assets
    (NaturalLanguageSQL.str_lower "Compare Bitcoin and Ethereum performance")
  = {[ "btc"; "eth"; "and" ]}
  ∧ NaturalLanguageSQL._extract_assets
      (NaturalLanguageSQL.str_lower "Compare Bitcoin and Ethereum performance")
    ≠ {[ "btc"; "eth" ]}.
Proof.
  assert (H : NaturalLanguageSQL._extract_assets
    (NaturalLanguageSQL.str_lower "Compare Bitcoin and Ethereum performance")
    = {[ "btc"; "eth"; "and" ]}) by (vm_compute; reflexivity).
  split; [exact H|]. rewrite H. intros E.
  assert (Hin : "and" ∈ ({[ "btc"; "eth"; "and" ]} : gset string)) by set_solver.
  rewrite E in Hin. set_solver.
Qed.

(** ** Similarity matches *)

Lemma relevance_of_cases (distance : Q) :
  (8 # 10 < 1 - distance ∧
     FinancialVectorStore.relevance_of distance = "high") ∨
  (6 # 10 < 1 - distance ∧ 1 - distance <= 8 # 10 ∧
     FinancialVectorStore.relevance_of distance = "medium") ∨
  (1 - distance <= 6 # 10 ∧
     FinancialVectorStore.relevance_of distance = "low").
Proof.
  unfold FinancialVectorStore.relevance_of, FinancialVectorStore.Qgt_bool.
  threshold_cases; simpl;
    solve [ left; split; [lra | reflexivity]
          | right; left; split; [lra | split; [lra | reflexivity]]
          | right; right; split; [lra | reflexivity] ].
Qed.

Lemma format_results_lookup results formatted (i : nat) m :
  FinancialVectorStore._format_results results = Some formatted →
  formatted !! i = Some m →
  FinancialVectorStore.format_one results i = Some m.
Proof.
  unfold FinancialVectorStore._format_results. intros H Hi.
  destruct (FinancialVectorStore.ids results) as [|ids0 rest].
  { injection H as <-. by rewrite lookup_nil in Hi. }
  destruct ids0 as [|x ids0].
  { injection H as <-. by rewrite lookup_nil in Hi. }
  apply mapM_Some in H.
  destruct (Forall2_lookup_r _ _ _ _ _ H Hi) as (j & Hj & Hf).
  apply lookup_seq in Hj as [-> _]. exact Hf.
Qed.

(** C4, as the code has it. Every match that [_format_results] builds
    has similarity [1 - distance], not clamped: it lies in [0,1] exactly
    when the distance does.  Its relevance is "high" iff the similarity
    exceeds 0.8, "medium" iff it exceeds 0.6 but not 0.8, and "low"
    otherwise. *)
Theorem format_results_similarity (results : FinancialVectorStore.query_results)
    (formatted : list FinancialVectorStore.similarity_match)
    (i : nat) (m : FinancialVectorStore.similarity_match) :
  FinancialVectorStore._format_results results = Some formatted →
  formatted !! i = Some m →
  ∃ distance : Q,
    FinancialVectorStore.distances results !! 0%nat ≫= (.!! i) = Some distance ∧
    FinancialVectorStore.similarity m = 1 - distance ∧
    (0 <= FinancialVectorStore.similarity m ∧ FinancialVectorStore.similarity m <= 1
       ↔ 0 <= distance ∧ distance <= 1) ∧
    (FinancialVectorStore.relevance m = "high"
       ↔ 8 # 10 < FinancialVectorStore.similarity m) ∧
    (FinancialVectorStore.relevance m = "medium"
       ↔ 6 # 10 < FinancialVectorStore.similarity m
         ∧ FinancialVectorStore.similarity m <= 8 # 10) ∧
    (FinancialVectorStore.relevance m = "low"
       ↔ FinancialVectorStore.similarity m <= 6 # 10).
Proof.
  intros H Hi. pose proof (format_results_lookup _ _ _ _ H Hi) as Hf.
  unfold FinancialVectorStore.format_one in Hf.
  destruct (FinancialVectorStore.ids results !! 0%nat ≫= (.!! i)); [|done].
  destruct (FinancialVectorStore.documents results !! 0%nat ≫= (.!! i)); [|done].
  destruct (FinancialVectorStore.metadatas results !! 0%nat ≫= (.!! i)); [|done].
  destruct (FinancialVectorStore.distances results !! 0%nat ≫= (.!! i)) as [d|]; [|done].
  simpl in Hf. injection Hf as <-. exists d. simpl.
  split; [reflexivity|]. split; [reflexivity|]. split; [split; intros [? ?]; split; lra|].
  destruct (relevance_of_cases d) as [[? ->]|[(? & ? & ->)|[? ->]]];
    repeat split; intros; try discriminate; try lra;
    repeat match goal with H : _ ∧ _ |- _ => destruct H end; lra.
Qed.

Lemma format_results_similarity_witness :
  ∃ distance : Q,
    [[3 # 10]] !! 0%nat ≫= (.!! 0%nat) = Some distance ∧
    7 # 10 = 1 - distance.
Proof.
  destruct (format_results_similarity
    (FinancialVectorStore.QueryResults [["a1"]] [["crash"]] [[None]] [[3 # 10]])
    [FinancialVectorStore.SimilarityMatch "a1" "crash" None (1 - (3 # 10)) "medium"]
    0%nat
    (FinancialVectorStore.SimilarityMatch "a1" "crash" None (1 - (3 # 10)) "medium")
    eq_refl eq_refl) as (d & Hd & Hs & _).
  exists d. split; [exact Hd|].
  simpl in Hd. injection Hd as <-. reflexivity.
Defined.

(** C4, refuted as stated: a distance of 3/2 gives a match whose
    similarity is -1/2, outside [0,1]; nothing clamps it. *)
Lemma format_results_not_clamped :
  ∃ m, FinancialVectorStore._format_results
         (FinancialVectorStore.QueryResults [["a1"]] [["crash"]] [[None]] [[3 # 2]])
       = Some [m]
       ∧ FinancialVectorStore.similarity m < 0
       ∧ ¬ FinancialVectorStore.similarity m == Qmax 0 (Qmin 1 (1 - (3 # 2))).
Proof.
  eexists. split; [reflexivity|]. simpl. split.
  - reflexivity.
  - vm_compute. discriminate.
Qed.

(** ** Searching anomalies under a minimum severity *)

Lemma filter_raising_sound {A} (cond : A → option bool) (l kept : list A) :
  FinancialVectorStore.filter_raising cond l = Some kept →
  kept `sublist_of` l ∧ Forall (λ x, cond x = Some true) kept.
Proof.
  revert kept. induction l as [|x l IH]; intros kept H; simpl in H.
  - injection H as <-. split; constructor.
  - destruct (cond x) as [b|] eqn:Hx; simpl in H; [|discriminate].
    destruct (FinancialVectorStore.filter_raising cond l) as [rest|];
      simpl in H; [|discriminate].
    injection H as <-. destruct (IH rest eq_refl) as [Hs Hf].
    destruct b.
    + split; [by constructor | by constructor].
    + split; [by constructor | done].
Qed.

Lemma filter_anomalies_sound results k s kept :
  s ≠ "" →
  FinancialVectorStore.filter_anomalies results k (Some s) = Some kept →
  ∃ formatted min_level,
    FinancialVectorStore._format_results results = Some formatted ∧
    Severity.severity_order !! s = Some min_level ∧
    kept `sublist_of` formatted ∧
    (length kept ≤ k)%nat ∧
    Forall (λ r, FinancialVectorStore.severity_at_least min_level r = Some true) kept.
Proof.
  intros Hs H. unfold FinancialVectorStore.filter_anomalies in H.
  assert (Ht : Py.truthy (Some s) = true).
  { simpl. apply negb_true_iff, String.eqb_neq. exact Hs. }
  rewrite Ht in H.
  destruct (FinancialVectorStore._format_results results) as [formatted|];
    simpl in H; [|discriminate].
  destruct (Severity.severity_order !! s) as [min_level|]; simpl in H; [|discriminate].
  destruct (FinancialVectorStore.filter_raising _ formatted) as [all|] eqn:Hall;
    simpl in H; [|discriminate].
  injection H as <-. apply filter_raising_sound in Hall as [Hsub Hall].
  exists formatted, min_level. repeat split; try reflexivity.
  - etrans; [apply sublist_take | exact Hsub].
  - rewrite length_take. lia.
  - apply Forall_take, Hall.
Qed.

Lemma embed_failure_row (encode : LocalModelManager.encoder) (t : string) :
  encode [t] 32%nat false = None →
  LocalModelManager.embed encode [t] !! 0%nat = Some (replicate 384 0).
Proof.
  intros H. unfold LocalModelManager.embed, LocalModelManager.generate_embeddings.
  simpl. rewrite H. reflexivity.
Qed.

(** C5, as the code has it. With a minimum severity [s], the search asks
    the anomaly collection for [2k] candidates, keeps (in order) only
    results whose metadata severity has a level in the table at least
    that of [s], and returns at most [k] of them.  It never raises: when
    the query on the collection fails it returns the empty list.  A
    failure of the embedding model is not such a case: the zero vector
    stands in for the embedding and the query is made with it. *)
Theorem search_anomalies_min_severity {B : FinancialVectorStore.backend}
    (encode : LocalModelManager.encoder) (st : FinancialVectorStore.store B)
    (query : string) (k : nat) (s : string) :
  s ≠ "" →
  let out := FinancialVectorStore.search_similar_anomalies encode st query k (Some s) in
  (length out.1 ≤ k)%nat ∧
  (∀ r, r ∈ out.1 →
     ∃ md min_level,
       FinancialVectorStore.metadata r = Some md ∧
       Severity.severity_order !! s = Some min_level ∧
       (min_level ≤ FinancialVectorStore.level_of
                      (default (PStr "low") (md !! "severity")))%nat) ∧
  (∀ e, LocalModelManager.embed encode [query] !! 0%nat = Some e →
     let r := FinancialVectorStore.QueryRequest [e] (k * 2) None in
     FinancialVectorStore.calls out.2
       = FinancialVectorStore.calls st
         ++ [FinancialVectorStore.CallQuery "market_anomalies" r] ∧
     (FinancialVectorStore.coll_query B
        (FinancialVectorStore.anomalies_collection st) r = None → out.1 = []) ∧
     (∀ results formatted,
        FinancialVectorStore.coll_query B
          (FinancialVectorStore.anomalies_collection st) r = Some results →
        FinancialVectorStore._format_results results = Some formatted →
        out.1 `sublist_of` formatted)) ∧
  (encode [query] 32%nat false = None →
     LocalModelManager.embed encode [query] !! 0%nat = Some (replicate 384 0)).
Proof.
  intros Hs out. subst out.
  pose proof (embed_failure_row encode query) as Hz.
  remember (replicate 384 0) as zero eqn:Hzero. clear Hzero.
  unfold FinancialVectorStore.search_similar_anomalies.
  destruct (LocalModelManager.embed encode [query] !! 0%nat) as [e|] eqn:He.
  2:{ simpl. split; [lia|]. split; [intros r Hr; by apply elem_of_nil in Hr|].
      split; [intros e' He'; discriminate|]. intros Hf. apply Hz in Hf. congruence. }
  set (r := FinancialVectorStore.QueryRequest [e] (k * 2) None).
  destruct (FinancialVectorStore.coll_query B _ r) as [results|] eqn:Hq.
  2:{ simpl. split; [lia|]. split; [intros r' Hr; by apply elem_of_nil in Hr|].
      split.
      - intros e' He'. injection He' as <-. fold r. rewrite Hq.
        split; [reflexivity|]. split; [done|]. intros ? ? ?; discriminate.
      - intros Hf. apply Hz in Hf. congruence. }
  destruct (FinancialVectorStore.filter_anomalies results k (Some s)) as [kept|] eqn:Hk.
  - destruct (filter_anomalies_sound _ _ _ _ Hs Hk)
      as (formatted & min_level & Hfmt & Hlvl & Hsub & Hlen & Hall).
    simpl. split; [exact Hlen|]. split.
    + intros r' Hr. rewrite Forall_forall in Hall. specialize (Hall r' Hr).
      unfold FinancialVectorStore.severity_at_least in Hall.
      destruct (FinancialVectorStore.metadata r') as [md|]; simpl in Hall; [|discriminate].
      injection Hall as Hall. apply Nat.leb_le in Hall.
      exists md, min_level. done.
    + split.
      * intros e' He'. injection He' as <-. fold r. rewrite Hq.
        split; [reflexivity|]. split; [discriminate|].
        intros res fm Hres Hfm. injection Hres as <-. congruence.
      * intros Hf. apply Hz in Hf. congruence.
  - simpl. split; [lia|]. split; [intros r' Hr; by apply elem_of_nil in Hr|].
    split.
    + intros e' He'. injection He' as <-. fold r. rewrite Hq.
      split; [reflexivity|]. split; [discriminate|].
      intros; apply sublist_nil_l.
    + intros Hf. apply Hz in Hf. congruence.
Qed.


Lemma search_anomalies_min_severity_witness :
  "medium" ≠ "" ∧
  (length (FinancialVectorStore.search_similar_anomalies
             (λ _ _ _, Some [[1%Q; 0%Q]])
             (Chroma.canned_store (Some (FinancialVectorStore.QueryResults
                [["a1"; "a2"; "a3"]] [["x"; "y"; "z"]]
                [[Some {[ "severity" := PStr "low" ]};
                  Some {[ "severity" := PStr "high" ]};
                  Some {[ "severity" := PStr "critical" ]}]]
                [[1 # 10; 2 # 10; 3 # 10]])))
             "sudden crash" 1 (Some "medium")).1 ≤ 1)%nat.
Proof.
  assert (H : "medium" ≠ "") by discriminate.
  split; [exact H|].
  exact (proj1 (search_anomalies_min_severity _ _ "sudden crash" 1%nat "medium" H)).
Defined.

(** C5, refuted as stated: the embedding model fails, the database
    answers the query made with the zero vector, and the search returns
    that answer instead of the empty list. *)
Lemma search_anomalies_embedding_failure_not_empty :
  (λ _ _ _, None : option (list (list Q))) ["sudden crash"] 32%nat false = None ∧
  (FinancialVectorStore.search_similar_anomalies
     (λ _ _ _, None)
     (Chroma.canned_store (Some (FinancialVectorStore.QueryResults
        [["a1"]] [["flash crash"]] [[Some {[ "severity" := PStr "high" ]}]]
        [[1 # 10]])))
     "sudden crash" 1 (Some "medium")).1
  = [FinancialVectorStore.SimilarityMatch "a1" "flash crash"
       (Some {[ "severity" := PStr "high" ]}) (1 - (1 # 10)) "high"].
Proof. split; [reflexivity | vm_compute; reflexivity]. Qed.

(** ** The fallback of the embedding model *)

(** C10. [generate_embeddings] always returns a matrix: when the model
    fails on the given texts the result is the zero matrix of shape
    [(len(texts), 384)].  The add and search operations of the vector
    store then go on with the all-zero vector: it is the embedding they
    hand to the database. *)
Theorem embedding_failure_zero_vectors (encode : LocalModelManager.encoder) :
  (∀ texts batch_size show_progress,
     encode texts batch_size
       (if ((10 <? length texts)%nat && negb show_progress)%bool
        then true else show_progress) = None →
     LocalModelManager.generate_embeddings encode texts batch_size show_progress
       = LocalModelManager.zeros (length texts) 384
     ∧ length (LocalModelManager.generate_embeddings encode texts batch_size
                 show_progress) = length texts
     ∧ Forall (λ row, length row = 384%nat ∧ Forall (λ x, x = 0) row)
         (LocalModelManager.generate_embeddings encode texts batch_size
            show_progress)) ∧
  (∀ (B : FinancialVectorStore.backend) (st : FinancialVectorStore.store B)
     now pattern_id description pattern_type metadata,
     encode [description] 32%nat false = None →
     FinancialVectorStore.calls
       (FinancialVectorStore.add_market_pattern encode st now pattern_id
          description pattern_type metadata)
     = FinancialVectorStore.calls st ++
       [FinancialVectorStore.CallAdd "financial_patterns"
          (FinancialVectorStore.AddRequest [replicate 384 0] [description]
             [FinancialVectorStore.full_metadata "pattern_type"
                (PStr pattern_type) "timestamp" (PStr now) metadata]
             [pattern_id])]) ∧
  (∀ (B : FinancialVectorStore.backend) (st : FinancialVectorStore.store B)
     query k pattern_type,
     encode [query] 32%nat false = None →
     ∃ where_,
       FinancialVectorStore.calls
         (FinancialVectorStore.search_similar_patterns encode st query k
            pattern_type).2
       = FinancialVectorStore.calls st ++
         [FinancialVectorStore.CallQuery "financial_patterns"
            (FinancialVectorStore.QueryRequest [replicate 384 0] k where_)]).
Proof.
  split; [|split].
  - intros texts bs sp H.
    unfold LocalModelManager.generate_embeddings. rewrite H.
    split; [reflexivity|]. unfold LocalModelManager.zeros.
    split; [apply length_replicate|].
    apply Forall_replicate. split; [apply length_replicate|].
    by apply Forall_replicate.
  - intros B st now pid d ty md H.
    unfold FinancialVectorStore.add_market_pattern.
    rewrite (embed_failure_row encode d H).
    remember (replicate 384 0) as zero.
    by destruct (FinancialVectorStore.coll_add B _ _).
  - intros B st q k ty H.
    unfold FinancialVectorStore.search_similar_patterns.
    rewrite (embed_failure_row encode q H).
    remember (replicate 384 0) as zero. eexists.
    by destruct (FinancialVectorStore.coll_query B _ _).
Qed.

Lemma embedding_failure_zero_vectors_witness :
  LocalModelManager.generate_embeddings (λ _ _ _, None)
    ["Bitcoin rising"; "Stock market"] 32 false
  = LocalModelManager.zeros 2 384.
Proof.
  exact (proj1 (proj1 (embedding_failure_zero_vectors (λ _ _ _, None))
    ["Bitcoin rising"; "Stock market"] 32%nat false eq_refl)).
Defined.

(** ** Adding a record twice *)

Lemma spec_add_single (c : gmap string Chroma.stored) e d m i :
  Chroma.spec_add c (FinancialVectorStore.AddRequest [e] [d] [m] [i])
  = Some (<[i := Chroma.Stored e d m]> c).
Proof. reflexivity. Qed.

(** C8. On a vector database whose [add] is the keyed overwrite of the
    specification, adding twice under the same id (anomalies or
    patterns) leaves under that id the one record of the second call,
    with its description and its metadata, and the count after the
    second call is the count before it.  The embedding model is assumed
    to answer with a vector (or to fail) for each description. *)
Theorem add_twice_last_write_wins (encode : LocalModelManager.encoder)
    (query : gmap string Chroma.stored → FinancialVectorStore.query_request →
             option FinancialVectorStore.query_results)
    (st : FinancialVectorStore.store (Chroma.spec_backend query))
    (now1 now2 id d1 d2 tag1 tag2 : string) (m1 m2 : pyrow) :
  is_Some (LocalModelManager.embed encode [d1] !! 0%nat) →
  is_Some (LocalModelManager.embed encode [d2] !! 0%nat) →
  (let st1 := FinancialVectorStore.add_anomaly encode st now1 id d1 tag1 m1 in
   let st2 := FinancialVectorStore.add_anomaly encode st1 now2 id d2 tag2 m2 in
   (∃ e, LocalModelManager.embed encode [d2] !! 0%nat = Some e ∧
      (FinancialVectorStore.anomalies_collection st2 : gmap string Chroma.stored) !! id
      = Some (Chroma.Stored e d2
          (FinancialVectorStore.full_metadata "severity" (PStr tag2)
             "detected_at" (PStr now2) m2))) ∧
   Chroma.spec_count (FinancialVectorStore.anomalies_collection st2)
   = Chroma.spec_count (FinancialVectorStore.anomalies_collection st1)) ∧
  (let st1 := FinancialVectorStore.add_market_pattern encode st now1 id d1 tag1 m1 in
   let st2 := FinancialVectorStore.add_market_pattern encode st1 now2 id d2 tag2 m2 in
   (∃ e, LocalModelManager.embed encode [d2] !! 0%nat = Some e ∧
      (FinancialVectorStore.patterns_collection st2 : gmap string Chroma.stored) !! id
      = Some (Chroma.Stored e d2
          (FinancialVectorStore.full_metadata "pattern_type" (PStr tag2)
             "timestamp" (PStr now2) m2))) ∧
   Chroma.spec_count (FinancialVectorStore.patterns_collection st2)
   = Chroma.spec_count (FinancialVectorStore.patterns_collection st1)).
Proof.
  intros [e1 He1] [e2 He2].
  unfold FinancialVectorStore.add_anomaly, FinancialVectorStore.add_market_pattern.
  rewrite He1, He2. cbn [FinancialVectorStore.coll_add Chroma.spec_backend].
  rewrite !spec_add_single. cbn.
  split; (split; [exists e2; split; [reflexivity | apply lookup_insert_eq]|]).
  - unfold Chroma.spec_count. apply map_size_insert_Some.
    rewrite lookup_insert_eq. by eexists.
  - unfold Chroma.spec_count. apply map_size_insert_Some.
    rewrite lookup_insert_eq. by eexists.
Qed.


Lemma add_twice_last_write_wins_witness :
  ∃ e,
    (FinancialVectorStore.anomalies_collection
       (FinancialVectorStore.add_anomaly (λ _ _ _, Some [[1%Q; 0%Q]])
          (FinancialVectorStore.add_anomaly (λ _ _ _, Some [[1%Q; 0%Q]])
             (FinancialVectorStore.Store (B := Chroma.spec_backend (λ _ _, None))
                ∅ ∅ ∅ [])
             "2024-01-01T00:00:00" "flash" "first text" "high" ∅)
          "2024-01-02T00:00:00" "flash" "second text" "critical" ∅)
     : gmap string Chroma.stored) !! "flash"
    = Some (Chroma.Stored e "second text"
        (FinancialVectorStore.full_metadata "severity" (PStr "critical")
           "detected_at" (PStr "2024-01-02T00:00:00") ∅)).
Proof.
  destruct (add_twice_last_write_wins (λ _ _ _, Some [[1%Q; 0%Q]]) (λ _ _, None)
    (FinancialVectorStore.Store (B := Chroma.spec_backend (λ _ _, None)) ∅ ∅ ∅ [])
    "2024-01-01T00:00:00" "2024-01-02T00:00:00" "flash" "first text"
    "second text" "high" "critical" ∅ ∅
    (ex_intro _ [1%Q; 0%Q] eq_refl) (ex_intro _ [1%Q; 0%Q] eq_refl))
    as [[(e & _ & He) _] _].
  exists e. exact He.
Defined.

(** ** The remote model client: rate limit and cache *)

Lemma check_rate_limits_daily st w :
  (Config.hf_requests_per_day <= HuggingFaceAPI.requests_today st)%Z →
  HuggingFaceAPI.date_of (HuggingFaceAPI.clock w)
    = HuggingFaceAPI.last_reset_date st →
  HuggingFaceAPI._check_rate_limits st w
  = ((false, Some "Daily limit reached (1000 requests)"), st, w).
Proof.
  intros Hlim Hdate. unfold HuggingFaceAPI._check_rate_limits.
  rewrite Hdate, Z.eqb_refl. simpl negb. cbv iota.
  apply Z.leb_le in Hlim. rewrite Hlim. reflexivity.
Qed.

Lemma request_text_daily net st w prompt max_length key use_cache :
  (Config.hf_requests_per_day <= HuggingFaceAPI.requests_today st)%Z →
  HuggingFaceAPI.date_of (HuggingFaceAPI.clock w)
    = HuggingFaceAPI.last_reset_date st →
  HuggingFaceAPI.request_text net st w prompt max_length key use_cache
  = (None, st,
     HuggingFaceAPI.say HuggingFaceAPI.WARNING
       "Rate limit exceeded: Daily limit reached (1000 requests)" w).
Proof.
  intros Hlim Hdate. unfold HuggingFaceAPI.request_text.
  rewrite (check_rate_limits_daily _ _ Hlim Hdate). reflexivity.
Qed.

(** C6, as the code has it. When the day's counter has reached the
    daily limit and the date has not changed, a call to [generate_text]
    puts no request on the network.  Unless it is served from the cache
    (the cache is looked up before the limits are checked) it returns
    [None], the check gives the reason "Daily limit reached", and that
    reason is logged as a warning. *)
Theorem daily_limit_blocks_request (net : HuggingFaceAPI.endpoint)
    (st : HuggingFaceAPI.api) (w : HuggingFaceAPI.world)
    (prompt : string) (max_length : Z) (use_cache : bool) :
  (Config.hf_requests_per_day <= HuggingFaceAPI.requests_today st)%Z →
  HuggingFaceAPI.date_of (HuggingFaceAPI.clock w)
    = HuggingFaceAPI.last_reset_date st →
  let out := HuggingFaceAPI.generate_text net st w prompt max_length use_cache in
  HuggingFaceAPI.sent out.2 = HuggingFaceAPI.sent w ∧
  (HuggingFaceAPI._check_rate_limits st w).1.1
    = (false, Some "Daily limit reached (1000 requests)") ∧
  (use_cache = false ∨ HuggingFaceAPI.cache_hit st w prompt max_length = None →
     out.1.1 = None ∧
     last (HuggingFaceAPI.log out.2)
     = Some (HuggingFaceAPI.WARNING,
             "Rate limit exceeded: Daily limit reached (1000 requests)")) ∧
  (use_cache = true →
   ∀ t, HuggingFaceAPI.cache_hit st w prompt max_length = Some t →
     out.1.1 = Some t).
Proof.
  intros Hlim Hdate out. subst out.
  split; [|split; [by rewrite (check_rate_limits_daily _ _ Hlim Hdate)|]].
  all: unfold HuggingFaceAPI.generate_text, HuggingFaceAPI.cache_hit.
  all: destruct use_cache.
  all: unfold HuggingFaceAPI._check_cache.
  all: try destruct (HuggingFaceAPI.cache st !! _) as [[d tm]|] eqn:Hc.
  all: try destruct (HuggingFaceAPI.clock w - tm <? HuggingFaceAPI.cache_ttl)%Z eqn:Hfresh.
  all: try destruct (String.eqb d "") eqn:Hd.
  all: cbn [Py.truthy negb andb]; try rewrite Hd; cbn [negb]; cbv iota.
  all: try (rewrite request_text_daily; [|exact Hlim|exact Hdate]).
  all: cbn [fst snd HuggingFaceAPI.sent HuggingFaceAPI.log HuggingFaceAPI.say];
    try reflexivity.
  all: split;
    [ intros [H|H]; try discriminate; (split; [reflexivity | apply last_snoc])
    | intros Hu t Ht; first [discriminate | exact Ht] ].
Qed.

Lemma daily_limit_blocks_request_witness :
  HuggingFaceAPI.sent
    (HuggingFaceAPI.generate_text (λ _ _, (0%Z, HuggingFaceAPI.Timeout))
       (HuggingFaceAPI.Api 1000 0 1000 None ∅)
       (HuggingFaceAPI.World 5 [] [])
       "Explain what a stock market is" 100 true).2 = [].
Proof.
  exact (proj1 (daily_limit_blocks_request (λ _ _, (0%Z, HuggingFaceAPI.Timeout))
    (HuggingFaceAPI.Api 1000 0 1000 None ∅) (HuggingFaceAPI.World 5 [] [])
    "Explain what a stock market is" 100%Z true
    ltac:(vm_compute; discriminate) eq_refl)).
Defined.

(** C6, refuted as stated: with the daily limit reached and no change
    of date, a call whose answer is still in the cache returns that
    answer, not [None]. *)
Lemma daily_limit_cached_answer :
  (Config.hf_requests_per_day
   <= HuggingFaceAPI.requests_today
        (HuggingFaceAPI.Api 1000 0 1000 (Some 4%Z)
           {[ "Explain what a stock market is_100_0.1" := ("A market.", 4%Z) ]}))%Z ∧
  HuggingFaceAPI.date_of 5 = 0%Z ∧
  (HuggingFaceAPI.generate_text (λ _ _, (0%Z, HuggingFaceAPI.Timeout))
     (HuggingFaceAPI.Api 1000 0 1000 (Some 4%Z)
        {[ "Explain what a stock market is_100_0.1" := ("A market.", 4%Z) ]})
     (HuggingFaceAPI.World 5 [] [])
     "Explain what a stock market is" 100 true).1.1 = Some "A market.".
Proof.
  split; [vm_compute; discriminate|]. split; [reflexivity|].
  vm_compute. reflexivity.
Qed.


Lemma check_rate_limits_keeps st w r st' w' :
  HuggingFaceAPI._check_rate_limits st w = (r, st', w') →
  HuggingFaceAPI.cache st' = HuggingFaceAPI.cache st ∧
  HuggingFaceAPI.sent w' = HuggingFaceAPI.sent w.
Proof.
  unfold HuggingFaceAPI._check_rate_limits.
  destruct (negb _);
    cbn [HuggingFaceAPI.requests_today HuggingFaceAPI.total_requests_month
         HuggingFaceAPI.last_request_time];
    (destruct (_ <=? _)%Z; [intros [= <- <- <-]; done|]);
    (destruct (_ <=? _)%Z; [intros [= <- <- <-]; done|]);
    (destruct (HuggingFaceAPI.last_request_time st) as [t|];
      [destruct (_ <? _)%Z|]); intros [= <- <- <-]; done.
Qed.

Lemma post_sent net p w reply w' :
  HuggingFaceAPI.post net p w = (reply, w') →
  HuggingFaceAPI.sent w' = HuggingFaceAPI.sent w ++ [p].
Proof.
  unfold HuggingFaceAPI.post. destruct (net _ p) as [duration r].
  intros [= <- <-]. reflexivity.
Qed.

Lemma post_with_retry_sent net p w reply w' :
  HuggingFaceAPI.post_with_retry net p w = (reply, w') →
  HuggingFaceAPI.sent w' = HuggingFaceAPI.sent w ++ [p] ∨
  HuggingFaceAPI.sent w' = HuggingFaceAPI.sent w ++ [p; p].
Proof.
  unfold HuggingFaceAPI.post_with_retry.
  destruct (HuggingFaceAPI.post net p w) as [r w0] eqn:H0.
  apply post_sent in H0.
  assert (Hretry : HuggingFaceAPI.post net p
      (HuggingFaceAPI.sleep (HuggingFaceAPI.seconds 20)
         (HuggingFaceAPI.say HuggingFaceAPI.INFO
            "Model is loading, waiting 20 seconds..." w0)) = (reply, w') →
    HuggingFaceAPI.sent w' = HuggingFaceAPI.sent w ++ [p; p]).
  { intros H1. apply post_sent in H1. rewrite H1. simpl. rewrite H0.
    by rewrite <- app_assoc. }
  assert (Hplain : (r, w0) = (reply, w') →
    HuggingFaceAPI.sent w' = HuggingFaceAPI.sent w ++ [p]).
  { intros [= <- <-]. exact H0. }
  destruct r as [| |status reason text body]; [left; auto | left; auto |].
  destruct (decide (status = 503%Z)) as [->|Hne]; [right; auto|].
  intros H. left. apply Hplain. revert H.
  destruct status as [|q|q]; try done.
  repeat (destruct q as [q|q|]; try done).
Qed.

Lemma handle_reply_cached st w key reply t st' w' :
  HuggingFaceAPI.handle_reply st w key true reply = (Some t, st', w') →
  t ≠ "" →
  HuggingFaceAPI.cache st' !! key = Some (t, HuggingFaceAPI.clock w) ∧
  HuggingFaceAPI.sent w' = HuggingFaceAPI.sent w.
Proof.
  unfold HuggingFaceAPI.handle_reply. intros H Ht.
  destruct reply as [|err [rt|]|status reason text body]; try discriminate.
  destruct (_ && _)%bool; [discriminate|].
  destruct body as [err|repr|[err|item]]; try discriminate.
  injection H as H1 H2 H3. subst t.
  apply String.eqb_neq in Ht. rewrite Ht in H2. simpl in H2. subst st' w'.
  simpl. split; [apply lookup_insert_eq | reflexivity].
Qed.

Lemma request_text_cached net st w prompt max_length key t st' w' :
  HuggingFaceAPI.request_text net st w prompt max_length key true
    = (Some t, st', w') →
  t ≠ "" →
  (∃ time, HuggingFaceAPI.cache st' !! key = Some (t, time)) ∧
  ∃ n, (1 ≤ n ≤ 2)%nat ∧
    HuggingFaceAPI.sent w' = HuggingFaceAPI.sent w ++
      replicate n (HuggingFaceAPI.Payload prompt max_length Config.temperature
                     Config.top_p false true).
Proof.
  unfold HuggingFaceAPI.request_text. intros H Ht.
  destruct (HuggingFaceAPI._check_rate_limits st w) as [[[can reason] st0] w0] eqn:Hr.
  apply check_rate_limits_keeps in Hr as [_ Hs0].
  destruct can; simpl negb in H; cbv iota in H; [|discriminate].
  destruct (HuggingFaceAPI.post_with_retry _ _ _) as [reply w1] eqn:Hp.
  apply post_with_retry_sent in Hp. simpl in Hp. rewrite Hs0 in Hp.
  destruct (handle_reply_cached _ _ _ _ _ _ _ H Ht) as [Hc Hs].
  split; [by eexists|]. rewrite Hs.
  destruct Hp as [->| ->]; [exists 1%nat | exists 2%nat]; (split; [lia | reflexivity]).
Qed.

Lemma generate_text_cached net st w prompt max_length t st' w' :
  HuggingFaceAPI.generate_text net st w prompt max_length true
    = (Some t, st', w') →
  t ≠ "" →
  (∃ time, HuggingFaceAPI.cache st'
             !! HuggingFaceAPI._get_cache_key prompt max_length
           = Some (t, time)) ∧
  ∃ n, (n ≤ 2)%nat ∧
    HuggingFaceAPI.sent w' = HuggingFaceAPI.sent w ++
      replicate n (HuggingFaceAPI.Payload prompt max_length Config.temperature
                     Config.top_p false true).
Proof.
  unfold HuggingFaceAPI.generate_text, HuggingFaceAPI._check_cache.
  intros H Ht.
  assert (Hrest : ∀ st0 w0,
    HuggingFaceAPI.sent w0 = HuggingFaceAPI.sent w →
    HuggingFaceAPI.request_text net st0 w0 prompt max_length
      (HuggingFaceAPI._get_cache_key prompt max_length) true = (Some t, st', w') →
    (∃ time, HuggingFaceAPI.cache st'
               !! HuggingFaceAPI._get_cache_key prompt max_length
             = Some (t, time)) ∧
    ∃ n, (n ≤ 2)%nat ∧
      HuggingFaceAPI.sent w' = HuggingFaceAPI.sent w ++
        replicate n (HuggingFaceAPI.Payload prompt max_length Config.temperature
                       Config.top_p false true)).
  { intros st0 w0 Hs Hreq.
    destruct (request_text_cached _ _ _ _ _ _ _ _ _ Hreq Ht) as [Hc (n & Hn & Hsent)].
    split; [exact Hc|]. exists n. split; [lia|]. by rewrite <- Hs. }
  destruct (HuggingFaceAPI.cache st !! _) as [[d tm]|] eqn:Hc.
  - destruct (_ <? _)%Z.
    + cbn [Py.truthy] in H. destruct (String.eqb d "") eqn:Hd; simpl negb in H; cbv iota in H.
      * eapply Hrest; [|exact H]. reflexivity.
      * injection H as -> <- <-. split; [by eexists|].
        exists 0%nat. split; [lia|]. simpl. by rewrite app_nil_r.
    + cbn [Py.truthy] in H. cbv iota in H. eapply Hrest; [|exact H]. reflexivity.
  - cbn [Py.truthy] in H. cbv iota in H. eapply Hrest; [|exact H]. reflexivity.
Qed.

Lemma generate_text_hit net st w prompt max_length t time :
  HuggingFaceAPI.cache st !! HuggingFaceAPI._get_cache_key prompt max_length
    = Some (t, time) →
  t ≠ "" →
  (HuggingFaceAPI.clock w - time < HuggingFaceAPI.cache_ttl)%Z →
  HuggingFaceAPI.generate_text net st w prompt max_length true
  = (Some t, st, HuggingFaceAPI.say HuggingFaceAPI.DEBUG "Cache hit" w).
Proof.
  intros Hc Ht Hfresh.
  unfold HuggingFaceAPI.generate_text, HuggingFaceAPI._check_cache.
  rewrite Hc. apply Z.ltb_lt in Hfresh. rewrite Hfresh.
  cbn [Py.truthy]. apply String.eqb_neq in Ht. rewrite Ht. reflexivity.
Qed.

(** C7, as the code has it. If a first call with caching returns a
    non-empty text and the same call is made again while the cache entry
    is younger than one hour, the second call returns that text and
    puts no request on the network.  The requests of the two calls are
    those of the first: one as a rule, two when the first answer was a
    503 and the request was repeated, none when the first call was
    itself served from the cache. *)
Theorem second_call_served_from_cache (net : HuggingFaceAPI.endpoint)
    (st st1 : HuggingFaceAPI.api) (w w1 w2 : HuggingFaceAPI.world)
    (prompt : string) (max_length : Z) (t : string) :
  HuggingFaceAPI.generate_text net st w prompt max_length true
    = (Some t, st1, w1) →
  t ≠ "" →
  (∀ data time,
     HuggingFaceAPI.cache st1 !! HuggingFaceAPI._get_cache_key prompt max_length
       = Some (data, time) →
     (HuggingFaceAPI.clock w2 - time < HuggingFaceAPI.cache_ttl)%Z) →
  let out := HuggingFaceAPI.generate_text net st1 w2 prompt max_length true in
  out.1.1 = Some t ∧
  HuggingFaceAPI.sent out.2 = HuggingFaceAPI.sent w2 ∧
  ∃ n, (n ≤ 2)%nat ∧
    HuggingFaceAPI.sent w1 = HuggingFaceAPI.sent w ++
      replicate n (HuggingFaceAPI.Payload prompt max_length Config.temperature
                     Config.top_p false true).
Proof.
  intros H1 Ht Hfresh out. subst out.
  destruct (generate_text_cached _ _ _ _ _ _ _ _ H1 Ht) as [[time Hc] Hn].
  rewrite (generate_text_hit net st1 w2 prompt max_length t time Hc Ht
             (Hfresh _ _ Hc)).
  simpl. auto.
Qed.


Lemma second_call_served_from_cache_witness :
  (HuggingFaceAPI.generate_text (Examples.answering "A market.")
     (HuggingFaceAPI.generate_text (Examples.answering "A market.")
        Examples.fresh Examples.start "What is a stock market?" 100 true).1.2
     (HuggingFaceAPI.sleep (HuggingFaceAPI.seconds 60)
        (HuggingFaceAPI.generate_text (Examples.answering "A market.")
           Examples.fresh Examples.start "What is a stock market?" 100 true).2)
     "What is a stock market?" 100 true).1.1 = Some "A market.".
Proof.
  refine (proj1 (second_call_served_from_cache (Examples.answering "A market.")
    Examples.fresh
    (HuggingFaceAPI.generate_text (Examples.answering "A market.")
       Examples.fresh Examples.start "What is a stock market?" 100 true).1.2
    Examples.start
    (HuggingFaceAPI.generate_text (Examples.answering "A market.")
       Examples.fresh Examples.start "What is a stock market?" 100 true).2
    (HuggingFaceAPI.sleep (HuggingFaceAPI.seconds 60)
       (HuggingFaceAPI.generate_text (Examples.answering "A market.")
          Examples.fresh Examples.start "What is a stock market?" 100 true).2)
    "What is a stock market?" 100%Z "A market." _ _ _)).
  - vm_compute. reflexivity.
  - discriminate.
  - intros data time H. vm_compute in H. injection H as _ <-.
    vm_compute. reflexivity.
Defined.

(** C7, refuted as stated: the model is loading at the first request,
    the first call repeats it after the 503 and succeeds, the second
    call is served from the cache: two requests went out, not one. *)
Lemma cache_hit_after_retry_two_requests :
  let first :=
    HuggingFaceAPI.generate_text (Examples.loading_first "A market.")
      Examples.fresh Examples.start "What is a stock market?" 100 true in
  let second :=
    HuggingFaceAPI.generate_text (Examples.loading_first "A market.")
      first.1.2 (HuggingFaceAPI.sleep (HuggingFaceAPI.seconds 60) first.2)
      "What is a stock market?" 100 true in
  first.1.1 = Some "A market." ∧
  second.1.1 = Some "A market." ∧
  length (HuggingFaceAPI.sent second.2) = 2%nat.
Proof. vm_compute. repeat split; reflexivity. Qed.

(** ** The result of a query *)

(** C9. In every result of [process_query] the reported row count is
    the length of the returned rows: a successful result carries both,
    with [row_count = len(results)], a failed one carries neither. *)
Theorem process_query_row_count
    (classifier : LocalModelManager.zero_shot) (schema_for : string → string)
    (sqlparse : string → NaturalLanguageSQL.parse_outcome)
    (db : NaturalLanguageSQL.database) (net : HuggingFaceAPI.endpoint)
    (elapsed : Q) (hf : HuggingFaceAPI.api) (w : HuggingFaceAPI.world)
    (query : string) (use_ai : bool) :
  let r := (NaturalLanguageSQL.process_query classifier schema_for sqlparse db
              net elapsed hf w query use_ai).1.1 in
  (∀ n rows, NaturalLanguageSQL.row_count r = Some n →
             NaturalLanguageSQL.results r = Some rows → n = length rows) ∧
  (NaturalLanguageSQL.success r = true →
     ∃ rows, NaturalLanguageSQL.results r = Some rows ∧
             NaturalLanguageSQL.row_count r = Some (length rows)) ∧
  (NaturalLanguageSQL.success r = false →
     NaturalLanguageSQL.results r = None ∧
     NaturalLanguageSQL.row_count r = None).
Proof.
  intros r. subst r. unfold NaturalLanguageSQL.process_query.
  destruct (LocalModelManager.classify_query_intent _ _ _) as [intent confidence].
  destruct (if (_ || _)%bool then _ else _) as [sql0 method0].
  destruct (if (_ && _)%bool then _ else _) as [[[sql1 method1] hf1] w1].
  destruct sql1 as [sql1|]; [destruct (String.eqb sql1 "")|].
  2: destruct (NaturalLanguageSQL._validate_sql sqlparse sql1) as [[|] verr].
  2: destruct (NaturalLanguageSQL._execute_query db sql1 100) as [e|rows].
  all: cbn [fst snd NaturalLanguageSQL.row_count NaturalLanguageSQL.results
            NaturalLanguageSQL.success].
  all: repeat split; intros; try discriminate; try congruence; eauto.
Qed.


Lemma process_query_row_count_witness :
  ∃ rows,
    NaturalLanguageSQL.results
      (NaturalLanguageSQL.process_query (Examples.sure "data_retrieval")
         (λ _, "") (λ _, NaturalLanguageSQL.Parsed 1) Examples.two_rows
         (Examples.answering "") 1 Examples.fresh Examples.start
         "Show me the top 5 stocks by return" false).1.1 = Some rows ∧
    NaturalLanguageSQL.row_count
      (NaturalLanguageSQL.process_query (Examples.sure "data_retrieval")
         (λ _, "") (λ _, NaturalLanguageSQL.Parsed 1) Examples.two_rows
         (Examples.answering "") 1 Examples.fresh Examples.start
         "Show me the top 5 stocks by return" false).1.1
    = Some (length rows).
Proof.
  apply (proj1 (proj2 (process_query_row_count (Examples.sure "data_retrieval")
    (λ _, "") (λ _, NaturalLanguageSQL.Parsed 1) Examples.two_rows
    (Examples.answering "") 1 Examples.fresh Examples.start
    "Show me the top 5 stocks by return" false))).
  vm_compute. reflexivity.
Defined.

(* ================================================================== *)
(** * Further properties of the code *)
(* ================================================================== *)

(** ** The remote model client: counters, limits, spacing *)

Lemma check_cache_effect st w key r st' w' :
  HuggingFaceAPI._check_cache st w key = (r, st', w') →
  HuggingFaceAPI.requests_today st' = HuggingFaceAPI.requests_today st ∧
  HuggingFaceAPI.last_reset_date st' = HuggingFaceAPI.last_reset_date st ∧
  HuggingFaceAPI.total_requests_month st'
    = HuggingFaceAPI.total_requests_month st ∧
  HuggingFaceAPI.last_request_time st' = HuggingFaceAPI.last_request_time st ∧
  HuggingFaceAPI.sent w' = HuggingFaceAPI.sent w ∧
  HuggingFaceAPI.clock w' = HuggingFaceAPI.clock w.
Proof.
  unfold HuggingFaceAPI._check_cache.
  destruct (HuggingFaceAPI.cache st !! key) as [[d tm]|];
    [destruct (_ <? _)%Z|]; intros [= <- <- <-]; done.
Qed.

Lemma rate_limits_effect st w can reason st' w' :
  HuggingFaceAPI._check_rate_limits st w = ((can, reason), st', w') →
  HuggingFaceAPI.total_requests_month st'
    = HuggingFaceAPI.total_requests_month st ∧
  HuggingFaceAPI.last_request_time st' = HuggingFaceAPI.last_request_time st ∧
  HuggingFaceAPI.last_reset_date st'
    = HuggingFaceAPI.date_of (HuggingFaceAPI.clock w) ∧
  HuggingFaceAPI.requests_today st'
    = (if (HuggingFaceAPI.date_of (HuggingFaceAPI.clock w)
           =? HuggingFaceAPI.last_reset_date st)%Z
       then HuggingFaceAPI.requests_today st else 0%Z) ∧
  (can = true ↔
     (HuggingFaceAPI.requests_today st' < Config.hf_requests_per_day)%Z ∧
     (HuggingFaceAPI.total_requests_month st < Config.hf_requests_per_month)%Z) ∧
  (HuggingFaceAPI.clock w <= HuggingFaceAPI.clock w')%Z ∧
  (can = true → ∀ t, HuggingFaceAPI.last_request_time st = Some t →
     (t + HuggingFaceAPI.seconds 1 <= HuggingFaceAPI.clock w')%Z ∧
     ((t <= HuggingFaceAPI.clock w)%Z →
      (HuggingFaceAPI.clock w' - HuggingFaceAPI.clock w
       <= HuggingFaceAPI.seconds 1)%Z)).
Proof.
  unfold HuggingFaceAPI._check_rate_limits.
  destruct (Z.eqb_spec (HuggingFaceAPI.date_of (HuggingFaceAPI.clock w))
              (HuggingFaceAPI.last_reset_date st)) as [Hd|Hd];
    cbn [negb HuggingFaceAPI.requests_today HuggingFaceAPI.total_requests_month
         HuggingFaceAPI.last_request_time].
  all: destruct (HuggingFaceAPI.last_request_time st) as [t|] eqn:Ht.
  all: repeat match goal with
    | |- context [(?a <=? ?b)%Z] => destruct (Z.leb_spec a b)
    | |- context [(?a <? ?b)%Z] => destruct (Z.ltb_spec a b)
    end.
  all: intros [= <- <- <- <-];
    cbn [HuggingFaceAPI.requests_today HuggingFaceAPI.total_requests_month
         HuggingFaceAPI.last_request_time HuggingFaceAPI.last_reset_date
         HuggingFaceAPI.clock HuggingFaceAPI.sleep HuggingFaceAPI.say].
  all: repeat split; try done; try lia.
  all: try (intros [? ?]; lia).
  all: try (intros _ t' [= <-]; split; [lia | intros; lia]).
  all: try (intros ? t' ?; discriminate).
  all: intros; simplify_eq;
    cbn [HuggingFaceAPI.clock HuggingFaceAPI.say] in *;
    unfold HuggingFaceAPI.seconds in *; lia.
Qed.

Lemma handle_reply_effect st w key use_cache reply r st' w' :
  HuggingFaceAPI.handle_reply st w key use_cache reply = (r, st', w') →
  HuggingFaceAPI.sent w' = HuggingFaceAPI.sent w ∧
  HuggingFaceAPI.clock w' = HuggingFaceAPI.clock w ∧
  HuggingFaceAPI.last_reset_date st' = HuggingFaceAPI.last_reset_date st ∧
  (use_cache = false → HuggingFaceAPI.cache st' = HuggingFaceAPI.cache st) ∧
  ((r = None ∧
    HuggingFaceAPI.requests_today st' = HuggingFaceAPI.requests_today st ∧
    HuggingFaceAPI.total_requests_month st'
      = HuggingFaceAPI.total_requests_month st ∧
    HuggingFaceAPI.last_request_time st' = HuggingFaceAPI.last_request_time st ∧
    HuggingFaceAPI.cache st' = HuggingFaceAPI.cache st) ∨
   (HuggingFaceAPI.requests_today st'
      = (HuggingFaceAPI.requests_today st + 1)%Z ∧
    HuggingFaceAPI.total_requests_month st'
      = (HuggingFaceAPI.total_requests_month st + 1)%Z ∧
    HuggingFaceAPI.last_request_time st' = Some (HuggingFaceAPI.clock w))).
Proof.
  unfold HuggingFaceAPI.handle_reply.
  destruct reply as [|err [rt|]|status reason text body].
  4: destruct (_ && _)%bool.
  5: destruct body as [err|repr|[err|item]].
  8: destruct use_cache; cbn [andb];
     [destruct (negb _)|].
  all: intros [= <- <- <-]; cbn.
  all: do 3 (split; [done|]); (split; [intros; done|]).
  all: first [ left; repeat split; done | right; repeat split; done ].
Qed.

(** What one call of [generate_text] can do to the counters and to the
    network: it is served from the cache, or it is refused by the
    limits, or it sends one or two requests and counts at most once. *)
Lemma generate_text_effect net st w prompt max_length use_cache r st' w' :
  HuggingFaceAPI.generate_text net st w prompt max_length use_cache
    = (r, st', w') →
  let today :=
    if (HuggingFaceAPI.date_of (HuggingFaceAPI.clock w)
        =? HuggingFaceAPI.last_reset_date st)%Z
    then HuggingFaceAPI.requests_today st else 0%Z in
  ∃ n : nat,
    HuggingFaceAPI.sent w' = HuggingFaceAPI.sent w ++
      replicate n (HuggingFaceAPI.Payload prompt max_length Config.temperature
                     Config.top_p false true) ∧
    (use_cache = false → HuggingFaceAPI.cache st' = HuggingFaceAPI.cache st) ∧
    ((n = 0%nat ∧ use_cache = true ∧ Py.truthy r = true ∧
      HuggingFaceAPI.requests_today st' = HuggingFaceAPI.requests_today st ∧
      HuggingFaceAPI.total_requests_month st'
        = HuggingFaceAPI.total_requests_month st ∧
      HuggingFaceAPI.last_reset_date st' = HuggingFaceAPI.last_reset_date st) ∨
     (n = 0%nat ∧ r = None ∧
      ¬ ((today < Config.hf_requests_per_day)%Z ∧
         (HuggingFaceAPI.total_requests_month st
          < Config.hf_requests_per_month)%Z) ∧
      HuggingFaceAPI.requests_today st' = today ∧
      HuggingFaceAPI.total_requests_month st'
        = HuggingFaceAPI.total_requests_month st ∧
      HuggingFaceAPI.last_reset_date st'
        = HuggingFaceAPI.date_of (HuggingFaceAPI.clock w)) ∨
     ((1 ≤ n ≤ 2)%nat ∧
      (today < Config.hf_requests_per_day)%Z ∧
      (HuggingFaceAPI.total_requests_month st
       < Config.hf_requests_per_month)%Z ∧
      HuggingFaceAPI.last_reset_date st'
        = HuggingFaceAPI.date_of (HuggingFaceAPI.clock w) ∧
      ((r = None ∧ HuggingFaceAPI.requests_today st' = today ∧
        HuggingFaceAPI.total_requests_month st'
          = HuggingFaceAPI.total_requests_month st) ∨
       (HuggingFaceAPI.requests_today st' = (today + 1)%Z ∧
        HuggingFaceAPI.total_requests_month st'
          = (HuggingFaceAPI.total_requests_month st + 1)%Z)))).
Proof.
  intros H today. unfold HuggingFaceAPI.generate_text in H.
  set (key := HuggingFaceAPI._get_cache_key prompt max_length) in *.
  destruct (if use_cache then HuggingFaceAPI._check_cache st w key
            else (None, st, w)) as [[cached st0] w0] eqn:Hc.
  assert (Hpre :
    HuggingFaceAPI.requests_today st0 = HuggingFaceAPI.requests_today st ∧
    HuggingFaceAPI.last_reset_date st0 = HuggingFaceAPI.last_reset_date st ∧
    HuggingFaceAPI.total_requests_month st0
      = HuggingFaceAPI.total_requests_month st ∧
    HuggingFaceAPI.last_request_time st0
      = HuggingFaceAPI.last_request_time st ∧
    HuggingFaceAPI.sent w0 = HuggingFaceAPI.sent w ∧
    HuggingFaceAPI.clock w0 = HuggingFaceAPI.clock w ∧
    (use_cache = false → HuggingFaceAPI.cache st0 = HuggingFaceAPI.cache st ∧
                         cached = None)).
  { destruct use_cache.
    - apply check_cache_effect in Hc. intuition discriminate.
    - injection Hc as <- <- <-. intuition. }
  destruct Hpre as (Ht0 & Hd0 & Hm0 & Hl0 & Hs0 & Hk0 & Hnc).
  destruct (Py.truthy cached) eqn:Htr.
  { injection H as <- <- <-. exists 0%nat. rewrite app_nil_r.
    split; [done|]. split; [intros Hu; by destruct (Hnc Hu)|].
    left. destruct use_cache; [done|]. destruct (Hnc eq_refl) as [_ ->].
    discriminate. }
  unfold HuggingFaceAPI.request_text in H.
  destruct (HuggingFaceAPI._check_rate_limits st0 w0)
    as [[[can reason] st1] w1] eqn:Hr.
  pose proof (check_rate_limits_keeps _ _ _ _ _ Hr) as [Hcache1 Hsent1].
  apply rate_limits_effect in Hr
    as (Hm1 & Hl1 & Hd1 & Ht1 & Hcan & _ & _).
  rewrite Hk0, Hd0, Ht0 in *. fold today in Ht1.
  destruct can; cbn [negb] in H; cbv iota in H.
  - destruct (HuggingFaceAPI.post_with_retry _ _ _) as [reply w2] eqn:Hp.
    apply post_with_retry_sent in Hp. cbn [HuggingFaceAPI.sent HuggingFaceAPI.say] in Hp.
    apply handle_reply_effect in H as (Hs3 & _ & Hd3 & Hc3 & Hcount).
    destruct (proj1 Hcan eq_refl) as [Hlt1 Hlt2]. rewrite Ht1 in Hlt1.
    assert (∃ n, (1 ≤ n ≤ 2)%nat ∧ HuggingFaceAPI.sent w' =
      HuggingFaceAPI.sent w ++ replicate n
        (HuggingFaceAPI.Payload prompt max_length Config.temperature
           Config.top_p false true)) as (n & Hn & Hsent).
    { rewrite Hs3, <- Hs0, <- Hsent1.
      destruct Hp as [->| ->]; [exists 1%nat | exists 2%nat]; (split; [lia|done]). }
    exists n. split; [exact Hsent|]. split.
    { intros Hu. rewrite (Hc3 Hu), Hcache1. by destruct (Hnc Hu). }
    right; right. split; [exact Hn|]. split; [lia|]. split; [lia|].
    split; [congruence|].
    destruct Hcount as [(-> & Ha & Hb & _)|(Ha & Hb & _)];
      [left | right]; repeat split; congruence.
  - injection H as <- <- <-. exists 0%nat. rewrite app_nil_r.
    cbn [HuggingFaceAPI.sent HuggingFaceAPI.say].
    split; [congruence|]. split.
    { intros Hu. rewrite Hcache1. by destruct (Hnc Hu). }
    right; left. split; [done|]. split; [done|]. split.
    + intros [Ha Hb]. rewrite <- Ht1, <- Hm0 in *.
      assert (false = true) by (apply Hcan; split; lia). discriminate.
    + repeat split; congruence.
Qed.

Lemma triple_eta {A B C} (x : A * B * C) : x = (x.1.1, x.1.2, x.2).
Proof. by destruct x as [[? ?] ?]. Qed.

(** X1. The counters stay within the limits: if the daily and the
    monthly counter do not exceed their limits before a call of
    [generate_text], they do not exceed them after it, so
    [get_usage_stats] never reports a negative remainder. *)
Theorem counters_within_limits net st w prompt max_length use_cache r st' w' :
  (HuggingFaceAPI.requests_today st <= Config.hf_requests_per_day)%Z →
  (HuggingFaceAPI.total_requests_month st <= Config.hf_requests_per_month)%Z →
  HuggingFaceAPI.generate_text net st w prompt max_length use_cache
    = (r, st', w') →
  (HuggingFaceAPI.requests_today st' <= Config.hf_requests_per_day)%Z ∧
  (HuggingFaceAPI.total_requests_month st' <= Config.hf_requests_per_month)%Z ∧
  (0 <= HuggingFaceAPI.remaining_today (HuggingFaceAPI.get_usage_stats st'))%Z ∧
  (0 <= HuggingFaceAPI.remaining_month (HuggingFaceAPI.get_usage_stats st'))%Z.
Proof.
  intros Hd Hm H. apply generate_text_effect in H as (n & _ & _ & Hcases).
  cbn [HuggingFaceAPI.get_usage_stats HuggingFaceAPI.remaining_today
       HuggingFaceAPI.remaining_month].
  assert (0 <= Config.hf_requests_per_day)%Z by (vm_compute; discriminate).
  destruct (_ =? _)%Z;
    destruct Hcases as [(_ & _ & _ & -> & -> & _)
      |[(_ & _ & _ & -> & -> & _)
       |(_ & ? & ? & _ & [(_ & -> & ->)|(-> & ->)])]]; lia.
Qed.

Lemma counters_within_limits_witness :
  (HuggingFaceAPI.requests_today
     (HuggingFaceAPI.generate_text (Examples.answering "A market.")
        (HuggingFaceAPI.Api 999 0 29999 None ∅) Examples.start
        "What is a stock market?" 100 true).1.2
   <= Config.hf_requests_per_day)%Z.
Proof.
  refine (proj1 (counters_within_limits (Examples.answering "A market.")
    (HuggingFaceAPI.Api 999 0 29999 None ∅) Examples.start
    "What is a stock market?" 100%Z true _ _ _ _ _
    (triple_eta _))).
  - vm_compute. discriminate.
  - vm_compute. discriminate.
Defined.

(** X2. One call sends at most two requests (two only after a 503),
    never lowers the monthly counter, raises either counter by at most
    one, and raises the monthly counter only when it has sent a
    request. *)
Theorem call_counts_at_most_once net st w prompt max_length use_cache r st' w' :
  HuggingFaceAPI.generate_text net st w prompt max_length use_cache
    = (r, st', w') →
  ∃ n : nat,
    (n ≤ 2)%nat ∧
    HuggingFaceAPI.sent w' = HuggingFaceAPI.sent w ++
      replicate n (HuggingFaceAPI.Payload prompt max_length Config.temperature
                     Config.top_p false true) ∧
    (HuggingFaceAPI.total_requests_month st
     <= HuggingFaceAPI.total_requests_month st'
     <= HuggingFaceAPI.total_requests_month st + 1)%Z ∧
    (n = 0%nat → HuggingFaceAPI.total_requests_month st'
                 = HuggingFaceAPI.total_requests_month st) ∧
    (r ≠ None → use_cache = false → (1 ≤ n)%nat).
Proof.
  intros H. apply generate_text_effect in H as (n & Hs & _ & Hcases).
  exists n.
  destruct Hcases as [(-> & -> & _ & _ & -> & _)
    |[(-> & -> & _ & _ & -> & _)
     |(? & _ & _ & _ & [(_ & _ & ->)|(_ & ->)])]];
    repeat split; try done; try lia; try (intros; lia).
Qed.

Lemma call_counts_at_most_once_witness :
  ∃ n : nat, (n ≤ 2)%nat ∧
    HuggingFaceAPI.sent
      (HuggingFaceAPI.generate_text (Examples.loading_first "A market.")
         Examples.fresh Examples.start "What is a stock market?" 100 true).2
    = HuggingFaceAPI.sent Examples.start ++
      replicate n (HuggingFaceAPI.Payload "What is a stock market?" 100
                     Config.temperature Config.top_p false true).
Proof.
  destruct (call_counts_at_most_once (Examples.loading_first "A market.")
    Examples.fresh Examples.start "What is a stock market?" 100%Z true
    _ _ _ (triple_eta _)) as (n & Hn & Hs & _).
  exists n. split; [exact Hn | exact Hs].
Defined.

(** X3. A change of date reopens the daily budget: when the clock shows
    another day than the last reset and the monthly limit is not
    reached, a call without cache sends a request whatever the daily
    counter was, the reset date becomes the day of the clock and the
    daily counter restarts from zero (it is 0 or 1 after the call). *)
Theorem date_rollover_resets_daily_counter net st w prompt max_length r st' w' :
  HuggingFaceAPI.date_of (HuggingFaceAPI.clock w)
    ≠ HuggingFaceAPI.last_reset_date st →
  (HuggingFaceAPI.total_requests_month st < Config.hf_requests_per_month)%Z →
  HuggingFaceAPI.generate_text net st w prompt max_length false
    = (r, st', w') →
  HuggingFaceAPI.sent w ≠ HuggingFaceAPI.sent w' ∧
  HuggingFaceAPI.last_reset_date st'
    = HuggingFaceAPI.date_of (HuggingFaceAPI.clock w) ∧
  (0 <= HuggingFaceAPI.requests_today st' <= 1)%Z.
Proof.
  intros Hd Hm H. apply generate_text_effect in H as (n & Hs & _ & Hcases).
  apply Z.eqb_neq in Hd. rewrite Hd in Hcases.
  assert (0 < Config.hf_requests_per_day)%Z by (vm_compute; reflexivity).
  destruct Hcases as [(_ & ? & _)
    |[(_ & _ & Hno & _)|(Hn & _ & _ & -> & Hc)]];
    [discriminate | exfalso; apply Hno; split; lia |].
  split; [|split; [reflexivity|]].
  - rewrite Hs. intros E. apply (f_equal length) in E.
    rewrite length_app, length_replicate in E. lia.
  - destruct Hc as [(_ & -> & _)|(-> & _)]; lia.
Qed.

Lemma date_rollover_resets_daily_counter_witness :
  HuggingFaceAPI.last_reset_date
    (HuggingFaceAPI.generate_text (Examples.answering "A market.")
       (HuggingFaceAPI.Api 1000 (-1) 1000 None ∅) Examples.start
       "What is a stock market?" 100 false).1.2
  = HuggingFaceAPI.date_of (HuggingFaceAPI.clock Examples.start).
Proof.
  refine (proj1 (proj2 (date_rollover_resets_daily_counter
    (Examples.answering "A market.")
    (HuggingFaceAPI.Api 1000 (-1) 1000 None ∅) Examples.start
    "What is a stock market?" 100%Z _ _ _ _ _ (triple_eta _)))).
  - vm_compute. discriminate.
  - vm_compute. reflexivity.
Defined.

(** X4. The monthly limit holds across days: once the monthly counter
    has reached its limit a call sends nothing and leaves that counter
    as it is, whatever the date; without cache it returns [None]. *)
Theorem monthly_limit_blocks_request net st w prompt max_length use_cache
    r st' w' :
  (Config.hf_requests_per_month <= HuggingFaceAPI.total_requests_month st)%Z →
  HuggingFaceAPI.generate_text net st w prompt max_length use_cache
    = (r, st', w') →
  HuggingFaceAPI.sent w' = HuggingFaceAPI.sent w ∧
  HuggingFaceAPI.total_requests_month st'
    = HuggingFaceAPI.total_requests_month st ∧
  (use_cache = false → r = None).
Proof.
  intros Hm H. apply generate_text_effect in H as (n & Hs & _ & Hcases).
  destruct Hcases as [(-> & -> & _ & _ & -> & _)
    |[(-> & -> & _ & _ & -> & _)|(_ & _ & ? & _)]]; [| |lia].
  all: rewrite Hs, app_nil_r; repeat split; done.
Qed.

Lemma monthly_limit_blocks_request_witness :
  HuggingFaceAPI.sent
    (HuggingFaceAPI.generate_text (Examples.answering "A market.")
       (HuggingFaceAPI.Api 0 (-1) 30000 None ∅) Examples.start
       "What is a stock market?" 100 false).2
  = HuggingFaceAPI.sent Examples.start.
Proof.
  refine (proj1 (monthly_limit_blocks_request (Examples.answering "A market.")
    (HuggingFaceAPI.Api 0 (-1) 30000 None ∅) Examples.start
    "What is a stock market?" 100%Z false _ _ _ _ (triple_eta _))).
  vm_compute. discriminate.
Defined.

(** X5. The spacing of requests: when [_check_rate_limits] lets a call
    proceed, the clock it leaves is at least one second after the last
    request; it never turns the clock back and, when the last request
    is not in the future, it sleeps at most one second. *)
Theorem rate_limit_spacing st w reason st' w' t :
  HuggingFaceAPI._check_rate_limits st w = ((true, reason), st', w') →
  HuggingFaceAPI.last_request_time st = Some t →
  (t + HuggingFaceAPI.seconds 1 <= HuggingFaceAPI.clock w')%Z ∧
  (HuggingFaceAPI.clock w <= HuggingFaceAPI.clock w')%Z ∧
  ((t <= HuggingFaceAPI.clock w)%Z →
   (HuggingFaceAPI.clock w' - HuggingFaceAPI.clock w
    <= HuggingFaceAPI.seconds 1)%Z).
Proof.
  intros H Ht.
  apply rate_limits_effect in H as (_ & _ & _ & _ & _ & Hmono & Hsp).
  destruct (Hsp eq_refl t Ht) as [H1 H2]. auto.
Qed.

Lemma rate_limit_spacing_witness :
  (HuggingFaceAPI.seconds 5 - 300000 + HuggingFaceAPI.seconds 1
   <= HuggingFaceAPI.clock
        (HuggingFaceAPI._check_rate_limits
           (HuggingFaceAPI.Api 3 0 3 (Some (HuggingFaceAPI.seconds 5 - 300000)%Z) ∅)
           Examples.start).2)%Z.
Proof.
  refine (proj1 (rate_limit_spacing
    (HuggingFaceAPI.Api 3 0 3 (Some (HuggingFaceAPI.seconds 5 - 300000)%Z) ∅)
    Examples.start None _ _ _ _ eq_refl)).
  vm_compute. reflexivity.
Defined.


(** X6. With [use_cache=False] the cache plays no part: the call
    returns the same text, sends the same requests and writes the same
    log whatever the cache holds, and it leaves the cache as it was. *)
Theorem no_cache_call_ignores_cache net (a b c : Z) (d : option Z)
    (cache1 cache2 : gmap string (string * Z)) w prompt max_length :
  let out1 := HuggingFaceAPI.generate_text net (HuggingFaceAPI.Api a b c d cache1)
                w prompt max_length false in
  let out2 := HuggingFaceAPI.generate_text net (HuggingFaceAPI.Api a b c d cache2)
                w prompt max_length false in
  out1.1.1 = out2.1.1 ∧ out1.2 = out2.2 ∧
  HuggingFaceAPI.cache out1.1.2 = cache1 ∧
  HuggingFaceAPI.cache out2.1.2 = cache2.
Proof.
  intros out1 out2. subst out1 out2.
  unfold HuggingFaceAPI.generate_text, HuggingFaceAPI.request_text,
    HuggingFaceAPI._check_rate_limits.
  cbn [Py.truthy HuggingFaceAPI.last_reset_date HuggingFaceAPI.requests_today
       HuggingFaceAPI.total_requests_month HuggingFaceAPI.last_request_time
       HuggingFaceAPI.cache].
  cbv iota.
  destruct (negb _); cbn [HuggingFaceAPI.requests_today
    HuggingFaceAPI.total_requests_month HuggingFaceAPI.last_request_time].
  all: destruct (Config.hf_requests_per_day <=? _)%Z; [by cbn|].
  all: destruct (Config.hf_requests_per_month <=? _)%Z; [by cbn|].
  all: cbn [negb]; cbv iota.
  all: destruct (HuggingFaceAPI.post_with_retry _ _ _) as [reply w2].
  all: unfold HuggingFaceAPI.handle_reply.
  all: destruct reply as [|err [rt|]|status reason text body]; try by cbn.
  all: destruct (_ && _)%bool; [by cbn|].
  all: destruct body as [err|repr|[err|item]]; by cbn.
Qed.

(** ** Cleaning the answers of the remote model *)

Lemma chars_str_of l : Py.chars (Py.str_of l) = l.
Proof. apply Stdlib.Strings.String.list_ascii_of_string_of_list_ascii. Qed.

Lemma startswith_spec p l :
  Py.startswith p l = true ↔ ∃ q, l = p ++ q.
Proof.
  revert l. induction p as [|a p IH]; intros l; simpl.
  - split; [eauto | done].
  - destruct l as [|b l].
    + split; [done | intros [q Hq]; discriminate].
    + rewrite andb_true_iff, IH. split.
      * intros [Hab [q ->]]. apply Ascii.eqb_eq in Hab as ->. eauto.
      * intros [q [= -> ->]]. split; [apply Ascii.eqb_refl | eauto].
Qed.

Lemma contains_spec sub l :
  Py.contains sub l = true ↔ ∃ p q, l = p ++ sub ++ q.
Proof.
  induction l as [|c l IH]; simpl.
  - rewrite orb_false_r, startswith_spec. split.
    + intros [q Hq]. by exists [], q.
    + intros (p & q & H). destruct p; [by exists q|discriminate].
  - rewrite orb_true_iff, startswith_spec, IH. split.
    + intros [[q Hq]|(p & q & ->)]; [by exists [], q | by exists (c :: p), q].
    + intros (p & q & H). destruct p as [|a p]; [left; by exists q|].
      injection H as -> ->. right; eauto.
Qed.

Lemma contains_infix sub p m q :
  Py.contains sub m = true → Py.contains sub (p ++ m ++ q) = true.
Proof.
  rewrite !contains_spec. intros (p' & q' & ->).
  exists (p ++ p'), (q' ++ q). by rewrite <- !app_assoc.
Qed.

Lemma lstrip_suffix l : ∃ p, l = p ++ Py.lstrip l.
Proof.
  induction l as [|c l [p IH]]; [by exists []|]. simpl.
  destruct (Py.is_space c); [|by exists []].
  exists (c :: p). simpl. by f_equal.
Qed.

Lemma lstrip_head l c : head (Py.lstrip l) = Some c → Py.is_space c = false.
Proof.
  induction l as [|a l IH]; [done|]. simpl.
  destruct (Py.is_space a) eqn:Ha; [exact IH|]. intros [= <-]. exact Ha.
Qed.

Lemma rstrip_prefix l : ∃ q, l = Py.rstrip l ++ q.
Proof.
  unfold Py.rstrip. destruct (lstrip_suffix (rev l)) as [p Hp].
  exists (rev p). rewrite <- rev_app_distr, <- Hp. by rewrite rev_involutive.
Qed.

Lemma strip_infix l : ∃ p q, l = p ++ Py.strip l ++ q.
Proof.
  unfold Py.strip. destruct (lstrip_suffix l) as [p Hp].
  destruct (rstrip_prefix (Py.lstrip l)) as [q Hq].
  exists p, q. by rewrite <- Hq.
Qed.

Lemma prefix_head (x l q : list ascii) c :
  l = x ++ q → head x = Some c → head l = Some c.
Proof. intros -> H. by destruct x. Qed.

Lemma lstrip_semicolons_suffix l :
  ∃ p, l = p ++ HuggingFaceAPI.lstrip_semicolons l.
Proof.
  induction l as [|c l [p IH]]; [by exists []|]. simpl.
  destruct (Ascii.eqb c ";"); [|by exists []].
  exists (c :: p). simpl. by f_equal.
Qed.

Lemma lstrip_semicolons_head l :
  head (HuggingFaceAPI.lstrip_semicolons l) ≠ Some ";"%char.
Proof.
  induction l as [|a l IH]; [done|]. simpl.
  destruct (Ascii.eqb a ";") eqn:Ha; [exact IH|].
  simpl. intros [= ->]. by rewrite Ascii.eqb_refl in Ha.
Qed.

Lemma rstrip_semicolons_prefix l :
  ∃ q, l = HuggingFaceAPI.rstrip_semicolons l ++ q.
Proof.
  unfold HuggingFaceAPI.rstrip_semicolons.
  destruct (lstrip_semicolons_suffix (rev l)) as [p Hp].
  exists (rev p). rewrite <- rev_app_distr, <- Hp. by rewrite rev_involutive.
Qed.

Lemma last_rev_head (l : list ascii) : last (rev l) = head l.
Proof.
  destruct l as [|a l]; [done|]. simpl. by rewrite last_snoc.
Qed.

Lemma rstrip_semicolons_last l :
  last (HuggingFaceAPI.rstrip_semicolons l) ≠ Some ";"%char.
Proof.
  unfold HuggingFaceAPI.rstrip_semicolons. rewrite last_rev_head.
  apply lstrip_semicolons_head.
Qed.

Lemma drop_label_suffix l : ∃ p, l = p ++ HuggingFaceAPI.drop_label l.
Proof.
  unfold HuggingFaceAPI.drop_label.
  assert (Hd : ∀ k, ∃ p, l = p ++ Py.lstrip (drop k l)).
  { intros k. destruct (lstrip_suffix (drop k l)) as [p Hp].
    exists (take k l ++ p). rewrite <- app_assoc, <- Hp. by rewrite take_drop. }
  destruct (Py.startswith _ _); [apply Hd|].
  destruct (Py.startswith _ _); [apply Hd | by exists []].
Qed.

(** The three back-ticks of a fence. *)
Lemma fence_here prev l :
  (Py.match_here HuggingFaceAPI.fence prev l = None ∧
   Py.startswith (Py.chars "```") l = false) ∨
  ((∃ n, Py.match_here HuggingFaceAPI.fence prev l = Some (S n)) ∧
   Py.startswith (Py.chars "```") l = true).
Proof.
  destruct l as [|a [|b [|c l]]]; cbn -[Ascii.eqb].
  - by left.
  - left. by destruct (Ascii.eqb "`" a).
  - left. destruct (Ascii.eqb "`" a); [|done]. by destruct (Ascii.eqb "`" b).
  - destruct (Ascii.eqb "`" a); [|by left].
    destruct (Ascii.eqb "`" b); [|by left].
    destruct (Ascii.eqb "`" c); [|by left].
    right. split; [|done]. cbn -[Ascii.eqb].
    destruct l as [|d l]; cbn; [by eexists|].
    destruct (HuggingFaceAPI.is_newline d); cbn; by eexists.
Qed.

Lemma delete_fence_step prev c l :
  (Py.startswith (Py.chars "```") (c :: l) = true ∧
   ∃ n, HuggingFaceAPI.re_delete_from HuggingFaceAPI.fence prev (c :: l) 0
        = HuggingFaceAPI.re_delete_from HuggingFaceAPI.fence (Some c) l n) ∨
  (Py.startswith (Py.chars "```") (c :: l) = false ∧
   HuggingFaceAPI.re_delete_from HuggingFaceAPI.fence prev (c :: l) 0
   = c :: HuggingFaceAPI.re_delete_from HuggingFaceAPI.fence (Some c) l 0).
Proof.
  cbn [HuggingFaceAPI.re_delete_from].
  destruct (fence_here prev (c :: l)) as [[-> Hs]|[[n ->] Hs]].
  - by right.
  - left. split; [exact Hs | by exists n].
Qed.

Lemma startswith_cons a p b l :
  Py.startswith (a :: p) (b :: l) = true ↔ a = b ∧ Py.startswith p l = true.
Proof.
  simpl. rewrite andb_true_iff. split; intros [H ?]; split; auto.
  - by apply Ascii.eqb_eq.
  - subst. apply Ascii.eqb_refl.
Qed.

Lemma delete_fence_one prev l :
  Py.startswith ["`"%char]
    (HuggingFaceAPI.re_delete_from HuggingFaceAPI.fence prev l 0) = true →
  Py.startswith ["`"%char] l = true.
Proof.
  destruct l as [|c l]; [done|].
  change (Py.chars "```") with ["`"; "`"; "`"]%char in *.
  destruct (delete_fence_step prev c l) as [[Hs _]|[_ ->]].
  - change (Py.chars "```") with ["`"; "`"; "`"]%char in Hs.
    apply startswith_cons in Hs as [<- _]. intros _. by apply startswith_cons.
  - intros H. apply startswith_cons in H as [<- _]. by apply startswith_cons.
Qed.

Lemma delete_fence_two prev l :
  Py.startswith ["`"; "`"]%char
    (HuggingFaceAPI.re_delete_from HuggingFaceAPI.fence prev l 0) = true →
  Py.startswith ["`"; "`"]%char l = true.
Proof.
  destruct l as [|c l]; [done|].
  destruct (delete_fence_step prev c l) as [[Hs _]|[_ ->]].
  - change (Py.chars "```") with ["`"; "`"; "`"]%char in Hs.
    apply startswith_cons in Hs as [<- Hs].
    destruct l as [|d l]; [done|]. apply startswith_cons in Hs as [<- _].
    intros _. apply startswith_cons. split; [done|]. by apply startswith_cons.
  - intros H. apply startswith_cons in H as [<- H].
    apply delete_fence_one in H. by apply startswith_cons.
Qed.

Lemma delete_fence_no_start l : ∀ prev skip,
  Py.startswith (Py.chars "```")
    (HuggingFaceAPI.re_delete_from HuggingFaceAPI.fence prev l skip) = false.
Proof.
  induction l as [|c l IH]; intros prev skip; [done|].
  destruct skip as [|k]; [|cbn [HuggingFaceAPI.re_delete_from]; apply IH].
  destruct (delete_fence_step prev c l) as [[_ [n ->]]|[Hs ->]]; [apply IH|].
  apply not_true_is_false. intros H. apply not_true_iff_false in Hs. apply Hs.
  change (Py.chars "```") with ["`"; "`"; "`"]%char in *.
  apply startswith_cons in H as [<- H]. apply delete_fence_two in H.
  by apply startswith_cons.
Qed.

Lemma delete_fence_clean l : ∀ prev skip,
  Py.contains (Py.chars "```")
    (HuggingFaceAPI.re_delete_from HuggingFaceAPI.fence prev l skip) = false.
Proof.
  induction l as [|c l IH]; intros prev skip; [done|].
  destruct skip as [|k]; [|cbn [HuggingFaceAPI.re_delete_from]; apply IH].
  pose proof (delete_fence_no_start (c :: l) prev 0) as Hn.
  destruct (delete_fence_step prev c l) as [[_ [n ->]]|[_ Hr]]; [apply IH|].
  rewrite Hr in *. cbn [Py.contains]. rewrite Hn. apply IH.
Qed.

(** X7. What [_clean_sql] returns holds no markdown fence (three
    back-ticks), does not end in a semicolon and does not begin with
    white space. *)
Theorem clean_sql_is_clean (sql : string) :
  Py.contains (Py.chars "```") (Py.chars (HuggingFaceAPI._clean_sql sql)) = false ∧
  last (Py.chars (HuggingFaceAPI._clean_sql sql)) ≠ Some ";"%char ∧
  ∀ c, head (Py.chars (HuggingFaceAPI._clean_sql sql)) = Some c →
       Py.is_space c = false.
Proof.
  unfold HuggingFaceAPI._clean_sql.
  destruct (String.eqb sql ""); [by repeat split|].
  rewrite chars_str_of.
  set (body := HuggingFaceAPI.re_delete HuggingFaceAPI.fence
                 (HuggingFaceAPI.re_delete HuggingFaceAPI.sql_fence (Py.chars sql))).
  destruct (drop_label_suffix body) as [p1 H1].
  destruct (strip_infix (HuggingFaceAPI.drop_label body)) as (p2 & q2 & H2).
  destruct (rstrip_semicolons_prefix (Py.strip (HuggingFaceAPI.drop_label body)))
    as [q3 H3].
  split; [|split].
  - apply not_true_is_false. intros Hc.
    assert (Py.contains (Py.chars "```") body = true) as Hb.
    { rewrite H1, H2, H3.
      rewrite <- (app_nil_r (_ ++ q3)), <- !app_assoc.
      rewrite (app_assoc p1 p2). apply contains_infix. exact Hc. }
    unfold body, HuggingFaceAPI.re_delete in Hb.
    by rewrite delete_fence_clean in Hb.
  - apply rstrip_semicolons_last.
  - intros c Hc.
    pose proof (prefix_head _ _ _ c H3 Hc) as Hs.
    unfold Py.strip in Hs.
    destruct (rstrip_prefix (Py.lstrip (HuggingFaceAPI.drop_label body))) as [q4 H4].
    pose proof (prefix_head _ _ _ c H4 Hs) as Hl.
    by apply lstrip_head in Hl.
Qed.

Lemma split_from_words l : ∀ cur,
  Forall (λ c, Py.is_space c = false) cur →
  Forall (λ word, word ≠ [] ∧ Forall (λ c, Py.is_space c = false) word)
         (HuggingFaceAPI.split_from cur l).
Proof.
  induction l as [|c l IH]; intros cur Hcur; simpl.
  - destruct cur; [constructor|]. constructor; [done | constructor].
  - destruct (Py.is_space c) eqn:Hc.
    + destruct cur; [by apply IH|].
      constructor; [done|]. by apply IH.
    + apply IH. apply Forall_app. by repeat constructor.
Qed.

Lemma lstrip_id l :
  (∀ c, head l = Some c → Py.is_space c = false) → Py.lstrip l = l.
Proof.
  destruct l as [|a l]; [done|]. intros H. simpl. by rewrite (H a eq_refl).
Qed.

Lemma rstrip_id l :
  (∀ c, last l = Some c → Py.is_space c = false) → Py.rstrip l = l.
Proof.
  intros H. unfold Py.rstrip. rewrite lstrip_id; [apply rev_involutive|].
  intros c Hc. apply H. rewrite <- (rev_involutive l), last_rev_head. exact Hc.
Qed.

Lemma join_blank_ends words :
  Forall (λ word, word ≠ [] ∧ Forall (λ c, Py.is_space c = false) word) words →
  (∀ c, head (HuggingFaceAPI.join_blank words) = Some c → Py.is_space c = false) ∧
  (∀ c, last (HuggingFaceAPI.join_blank words) = Some c → Py.is_space c = false).
Proof.
  induction 1 as [|word words [Hne Hw] Hrest [IHh IHl]]; [done|].
  assert (Hhead : ∀ c, head word = Some c → Py.is_space c = false).
  { intros c Hc. destruct word as [|a word]; [done|]. injection Hc as <-.
    by apply Forall_inv in Hw. }
  assert (Hlast : ∀ c, last word = Some c → Py.is_space c = false).
  { intros c Hc. apply last_Some_elem_of in Hc.
    rewrite Forall_forall in Hw. by apply Hw. }
  destruct words as [|w2 words]; [by split|].
  change (HuggingFaceAPI.join_blank (word :: w2 :: words))
    with (word ++ " "%char :: HuggingFaceAPI.join_blank (w2 :: words)).
  split.
  - intros c Hc. apply Hhead. destruct word; [done | exact Hc].
  - intros c Hc. apply IHl.
    rewrite last_app in Hc.
    destruct (last (" "%char :: HuggingFaceAPI.join_blank (w2 :: words)))
      as [e|] eqn:He; [|by apply last_None in He].
    injection Hc as <-.
    destruct (HuggingFaceAPI.join_blank (w2 :: words)) as [|j js] eqn:Hj.
    + exfalso. apply Forall_inv in Hrest as [Hne2 _].
      destruct w2; [done|]. destruct words; discriminate.
    + exact He.
Qed.

(** X8. What [_clean_explanation] returns is a sequence of words, none
    empty and none with white space inside, joined by single blanks:
    no line break, no tab, no doubled blank, nothing at either end. *)
Theorem clean_explanation_is_normalised (text : string) :
  ∃ words : list (list ascii),
    Forall (λ word, word ≠ [] ∧ Forall (λ c, Py.is_space c = false) word) words ∧
    Py.chars (HuggingFaceAPI._clean_explanation text)
    = HuggingFaceAPI.join_blank words.
Proof.
  unfold HuggingFaceAPI._clean_explanation.
  destruct (String.eqb text ""); [by exists []|].
  set (words := HuggingFaceAPI.split
                  (HuggingFaceAPI.drop_heading (Py.chars text))).
  assert (Hw : Forall (λ word, word ≠ [] ∧
                 Forall (λ c, Py.is_space c = false) word) words)
    by (apply split_from_words; constructor).
  exists words. split; [exact Hw|].
  rewrite chars_str_of. destruct (join_blank_ends words Hw) as [Hh Hl].
  unfold Py.strip. rewrite (lstrip_id _ Hh). apply rstrip_id, Hl.
Qed.


(** ** The SQL guard, exactly *)

Lemma match_literals_inv kw rest prev l n :
  Py.match_here (map Py.Lit kw ++ rest) prev l = Some n →
  ∃ b m, l = kw ++ b ∧
         Py.match_here rest (SqlGuard.last_or prev kw) b = Some m.
Proof.
  revert prev l n. induction kw as [|c kw IH]; intros prev l n H.
  - exists l, n. split; [done | exact H].
  - simpl in H. destruct l as [|c' l]; [discriminate|].
    destruct (Ascii.eqb c c') eqn:Hc; [|discriminate].
    apply Ascii.eqb_eq in Hc as <-.
    destruct (Py.match_here (map Py.Lit kw ++ rest) (Some c) l) as [k|] eqn:Hk;
      [|discriminate].
    destruct (IH _ _ _ Hk) as (b & m & -> & Hm).
    exists b, m. split; [done|]. by rewrite last_or_cons.
Qed.

Lemma match_word_inv kw prev l n :
  kw ≠ [] → Forall (λ c, Py.is_word c = true) kw →
  Py.match_here (Py.word_pattern kw) prev l = Some n →
  ∃ b, l = kw ++ b ∧ Py.word_opt prev = false ∧ Py.word_opt (head b) = false.
Proof.
  intros Hne Hw H. unfold Py.word_pattern in H. cbn [Py.match_here] in H.
  destruct (Py.at_boundary prev l) eqn:Hb; [|discriminate].
  destruct (match_literals_inv _ _ _ _ _ H) as (b & m & -> & Hm).
  exists b. split; [done|].
  destruct kw as [|k kw]; [done|].
  pose proof (Forall_inv Hw) as Hk. simpl in Hk.
  unfold Py.at_boundary in Hb. simpl in Hb. rewrite Hk in Hb.
  split; [by destruct (Py.word_opt prev)|].
  cbn [Py.match_here] in Hm.
  destruct (Py.at_boundary _ b) eqn:Hb2; [|discriminate].
  unfold Py.at_boundary in Hb2.
  assert (Hl : Py.word_opt (SqlGuard.last_or prev (k :: kw)) = true).
  { unfold SqlGuard.last_or. destruct (last (k :: kw)) as [e|] eqn:He.
    - apply last_Some_elem_of in He. rewrite Forall_forall in Hw. by apply Hw.
    - by apply last_None in He. }
  rewrite Hl in Hb2. by destruct (Py.word_opt (head b)).
Qed.

Lemma search_from_sound kw prev l :
  kw ≠ [] → Forall (λ c, Py.is_word c = true) kw →
  Py.search_from (Py.word_pattern kw) prev l = true →
  ∃ a b, l = a ++ kw ++ b ∧
         Py.word_opt (SqlGuard.last_or prev a) = false ∧
         Py.word_opt (head b) = false.
Proof.
  intros Hne Hw. revert prev. induction l as [|c l IH]; intros prev H; cbn [Py.search_from] in H.
  - destruct (Py.match_here _ prev []) as [n|] eqn:Hm; [|discriminate].
    destruct (match_word_inv _ _ _ _ Hne Hw Hm) as (b & Hl & Hp & Hb).
    by exists [], b.
  - destruct (Py.match_here _ prev (c :: l)) as [n|] eqn:Hm.
    + destruct (match_word_inv _ _ _ _ Hne Hw Hm) as (b & Hl & Hp & Hb).
      by exists [], b.
    + destruct (IH _ H) as (a & b & -> & Hp & Hb).
      exists (c :: a), b. split; [done|]. by rewrite last_or_cons.
Qed.

Lemma lstrip_spaces l : ∃ p, l = p ++ Py.lstrip l ∧ Forall (λ c, Py.is_space c = true) p.
Proof.
  induction l as [|c l (p & IH & Hp)]; [exists []; by split|]. simpl.
  destruct (Py.is_space c) eqn:Hc; [|exists []; by split].
  exists (c :: p). split; [simpl; by f_equal | by constructor].
Qed.

Lemma strip_spaces l :
  ∃ p q, l = p ++ Py.strip l ++ q ∧
         Forall (λ c, Py.is_space c = true) p ∧
         Forall (λ c, Py.is_space c = true) q.
Proof.
  unfold Py.strip, Py.rstrip.
  destruct (lstrip_spaces l) as (p & Hp & Fp).
  destruct (lstrip_spaces (rev (Py.lstrip l))) as (q & Hq & Fq).
  exists p, (rev q). split; [|split; [done|]].
  - rewrite <- rev_app_distr, <- Hq, rev_involutive. exact Hp.
  - apply Forall_forall. intros x Hx. rewrite Forall_forall in Fq.
    apply Fq. apply list_elem_of_In, in_rev. by apply list_elem_of_In.
Qed.

Lemma space_not_word c : Py.is_space c = true → Py.is_word c = false.
Proof. destruct c as [[] [] [] [] [] [] [] []]; vm_compute; congruence. Qed.

Lemma lower_app_inv l x y :
  Py.lower l = x ++ y → ∃ l1 l2, l = l1 ++ l2 ∧ Py.lower l1 = x ∧ Py.lower l2 = y.
Proof.
  unfold Py.lower. intros H. apply map_eq_app in H as (l1 & l2 & -> & <- & <-).
  by exists l1, l2.
Qed.

Lemma head_lower l : head (Py.lower l) = Py.lower_char <$> head l.
Proof. by destruct l. Qed.

Lemma standalone_word_of_search kw sql :
  Py.chars kw ≠ [] → Forall (λ c, Py.is_word c = true) (Py.chars kw) →
  Py.re_search (Py.word_pattern (Py.chars kw))
               (Py.strip (Py.lower (Py.chars sql))) = true →
  SqlGuard.standalone_word kw sql.
Proof.
  intros Hne Hw Hs. unfold Py.re_search in Hs.
  apply search_from_sound in Hs as (a & b & Hl & Hp & Hb); [|done|done].
  rewrite strip_lower in Hl.
  apply lower_app_inv in Hl as (a0 & r & Hstrip & Ha & Hr).
  apply lower_app_inv in Hr as (w & b0 & -> & Hw0 & Hb0).
  destruct (strip_spaces (Py.chars sql)) as (p & q & Hsql & Fp & Fq).
  exists (p ++ a0), w, (b0 ++ q). rewrite Hstrip in Hsql.
  split; [by rewrite Hsql, <- !app_assoc|]. split; [exact Hw0|]. split.
  - subst a. unfold SqlGuard.last_or in Hp. rewrite last_lower in Hp.
    destruct a0 as [|x a0] using rev_ind.
    + rewrite app_nil_r. destruct (last p) as [e|] eqn:He; [|done].
      simpl. apply space_not_word. apply last_Some_elem_of in He.
      rewrite Forall_forall in Fp. by apply Fp.
    + rewrite app_assoc, last_snoc. rewrite last_snoc in Hp. simpl in *.
      by rewrite lower_char_word in Hp.
  - subst b. rewrite head_lower in Hb.
    destruct b0 as [|x b0].
    + simpl. destruct q as [|e q]; [done|]. simpl. apply space_not_word.
      by apply Forall_inv in Fq.
    + simpl in *. by rewrite lower_char_word in Hb.
Qed.

Lemma first_dangerous_sound kws l kw :
  NaturalLanguageSQL.first_dangerous kws l = Some kw →
  kw ∈ kws ∧ Py.re_search (Py.word_pattern (Py.chars kw)) l = true.
Proof.
  induction kws as [|k kws IH]; [discriminate|]. simpl.
  destruct (Py.re_search (Py.word_pattern (Py.chars k)) l) eqn:Hk.
  - intros [= <-]. split; [by left | done].
  - intros H. destruct (IH H). split; [by right | done].
Qed.

(** X9. The guard, exactly: [_validate_sql] accepts a text if and only
    if no denylisted keyword stands in it as a word of its own (in any
    letter case), the trimmed text begins with [select] (in any letter
    case) and the parser finds at least one statement.  A keyword that
    is only part of a longer word, as in [created_at], does not count;
    a missing [LIMIT] does not matter. *)
Theorem validate_sql_accepts_iff
    (sqlparse : string → NaturalLanguageSQL.parse_outcome) (sql : string) :
  (NaturalLanguageSQL._validate_sql sqlparse sql).1 = true ↔
  (∀ kw, kw ∈ NaturalLanguageSQL.dangerous_keywords →
         ¬ SqlGuard.standalone_word kw sql) ∧
  SqlGuard.begins_with_select sql = true ∧
  ∃ n, sqlparse sql = NaturalLanguageSQL.Parsed (S n).
Proof.
  pose proof dangerous_keywords_words as HF. rewrite Forall_forall in HF.
  unfold NaturalLanguageSQL._validate_sql, SqlGuard.begins_with_select.
  rewrite <- strip_lower.
  destruct (NaturalLanguageSQL.first_dangerous _ _) as [k|] eqn:Hfd.
  - split; [discriminate|]. intros (Hno & _).
    apply first_dangerous_sound in Hfd as [Hin Hs].
    destruct (HF k Hin) as [Hne Hw].
    exfalso. apply (Hno k Hin). by apply standalone_word_of_search.
  - assert (Hno : ∀ kw, kw ∈ NaturalLanguageSQL.dangerous_keywords →
                        ¬ SqlGuard.standalone_word kw sql).
    { intros kw Hin Hst. destruct (HF kw Hin) as [Hne Hw].
      pose proof (standalone_word_found kw sql Hne Hw Hst) as Hs.
      destruct (first_dangerous_found kw _ _ Hin Hs) as [k' Hk]. congruence. }
    destruct (Py.startswith _ _); cbn [negb]; cbv iota.
    + destruct (sqlparse sql) as [e|[|n]]; cbn.
      * split; [discriminate | intros (_ & _ & m & ?); discriminate].
      * split; [discriminate | intros (_ & _ & m & ?); discriminate].
      * split; [intros _; split; [done|split; [done|by exists n]] | done].
    + split; [discriminate | intros (_ & ? & _); discriminate].
Qed.

Lemma rstrip_semicolons_tail l :
  ∃ q, l = HuggingFaceAPI.rstrip_semicolons l ++ q ∧ Forall (λ c, c = ";"%char) q.
Proof.
  unfold HuggingFaceAPI.rstrip_semicolons.
  assert (H : ∀ m, ∃ p, m = p ++ HuggingFaceAPI.lstrip_semicolons m ∧
                        Forall (λ c, c = ";"%char) p).
  { induction m as [|c m (p & IH & Fp)]; [exists []; by split|]. simpl.
    destruct (Ascii.eqb c ";") eqn:Hc; [|exists []; by split].
    apply Ascii.eqb_eq in Hc as ->.
    exists (";"%char :: p). split; [simpl; by f_equal | by constructor]. }
  destruct (H (rev l)) as (p & Hp & Fp). exists (rev p). split.
  - rewrite <- rev_app_distr, <- Hp. by rewrite rev_involutive.
  - apply Forall_forall. intros x Hx. rewrite Forall_forall in Fp.
    apply Fp. apply list_elem_of_In, in_rev. by apply list_elem_of_In.
Qed.

(** ** Executing a statement *)

Lemma chars_app a b : Py.chars (a +:+ b) = Py.chars a ++ Py.chars b.
Proof.
  unfold Py.chars. induction a as [|c a IH]; [done|].
  cbn. by rewrite <- IH.
Qed.

Lemma lower_app a b : Py.lower (a ++ b) = Py.lower a ++ Py.lower b.
Proof. apply map_app. Qed.

(** X10. What the database is asked always holds a [limit]: a
    statement that already has the letters [limit] somewhere, in any
    letter case and even inside a longer name, is executed unchanged;
    otherwise the statement executed is the given one without its
    trailing semicolons, followed by [ LIMIT ] and the limit. *)
Theorem execute_query_statement_limited
    (db : NaturalLanguageSQL.database) (sql : string) (limit : N) :
  ∃ stmt : string,
    NaturalLanguageSQL._execute_query db sql limit
    = match db stmt with
      | inl err => inl err
      | inr (columns, rows) =>
        inr (map (NaturalLanguageSQL.row_dict columns) rows)
      end ∧
    NaturalLanguageSQL.has "limit" (Py.lower (Py.chars stmt)) = true ∧
    (NaturalLanguageSQL.has "limit" (Py.lower (Py.chars sql)) = true →
     stmt = sql) ∧
    (NaturalLanguageSQL.has "limit" (Py.lower (Py.chars sql)) = false →
     ∃ body rest,
       Py.chars sql = body ++ rest ∧
       Forall (λ c, c = ";"%char) rest ∧
       last body ≠ Some ";"%char ∧
       Py.chars stmt
       = body ++ Py.chars " LIMIT "
              ++ Py.chars (NaturalLanguageSQL.str_of_N limit)).
Proof.
  unfold NaturalLanguageSQL._execute_query.
  destruct (NaturalLanguageSQL.has "limit" (Py.lower (Py.chars sql))) eqn:Hl.
  - exists sql. by repeat split.
  - eexists. split; [reflexivity|].
    rewrite !chars_app, chars_str_of. split; [|split; [done|]].
    + unfold NaturalLanguageSQL.has. rewrite !lower_app.
      by apply contains_infix.
    + intros _. destruct (rstrip_semicolons_tail (Py.chars sql)) as (q & Hq & Fq).
      exists (HuggingFaceAPI.rstrip_semicolons (Py.chars sql)), q.
      split; [exact Hq|]. split; [exact Fq|].
      split; [apply rstrip_semicolons_last | done].
Qed.

Section RowDict.
Context (k : string).

Let step := λ (d : pyrow) '((col, val) : string * NaturalLanguageSQL.dbval),
  <[col := NaturalLanguageSQL.normalize val]> d.

Lemma row_fold_absent columns row (d : pyrow) :
  (∀ j, (j < length row)%nat → columns !! j ≠ Some k) →
  foldl step d (zip columns row) !! k = d !! k.
Proof.
  revert row d. induction columns as [|c columns IH]; intros [|v row] d H;
    try done.
  cbn [zip zip_with foldl]. rewrite IH.
  - unfold step. apply lookup_insert_ne. intros ->.
    by apply (H 0%nat); [simpl; lia|].
  - intros j Hj. apply (H (S j)). simpl. lia.
Qed.

Lemma row_fold_last_wins columns row (d : pyrow) i val :
  columns !! i = Some k → row !! i = Some val →
  (∀ j, (i < j < length row)%nat → columns !! j ≠ Some k) →
  foldl step d (zip columns row) !! k
  = Some (NaturalLanguageSQL.normalize val).
Proof.
  revert columns row d. induction i as [|i IH];
    intros [|c columns] [|v row] d Hc Hr Hlast; try done.
  - simpl in Hc, Hr. simplify_eq. cbn [zip zip_with foldl].
    rewrite row_fold_absent.
    + unfold step. apply lookup_insert_eq.
    + intros j Hj. apply (Hlast (S j)). simpl. lia.
  - cbn [zip zip_with foldl]. apply IH; [done | done |].
    intros j Hj. apply (Hlast (S j)). simpl. lia.
Qed.

Lemma row_fold_origin columns row (d : pyrow) v :
  foldl step d (zip columns row) !! k = Some v →
  d !! k = Some v ∨
  ∃ i val, columns !! i = Some k ∧ row !! i = Some val ∧
           v = NaturalLanguageSQL.normalize val.
Proof.
  revert row d. induction columns as [|c columns IH]; intros [|x row] d H;
    try (by left).
  cbn [zip zip_with foldl] in H. apply IH in H as [H | (i & val & ? & ? & ?)].
  - unfold step in H. destruct (decide (c = k)) as [->|Hne].
    + rewrite lookup_insert_eq in H. right. exists 0%nat, x. by simplify_eq.
    + rewrite lookup_insert_ne in H by done. by left.
  - right. by exists (S i), val.
Qed.

End RowDict.

(** X11. The rows that [_execute_query] returns: as many as the
    database fetched, in the same order; a key of a returned row is one
    of the column names and its value is the converted value of that
    column; when a column name occurs more than once, the last
    occurrence that the row has a value for is the one kept. *)
Theorem execute_query_rows
    (db : NaturalLanguageSQL.database) (sql : string) (limit : N)
    (rows : list pyrow) :
  NaturalLanguageSQL._execute_query db sql limit = inr rows →
  ∃ stmt columns fetched,
    db stmt = inr (columns, fetched) ∧
    length rows = length fetched ∧
    ∀ n row raw, rows !! n = Some row → fetched !! n = Some raw →
      (∀ k v, row !! k = Some v →
         ∃ i val, columns !! i = Some k ∧ raw !! i = Some val ∧
                  v = NaturalLanguageSQL.normalize val) ∧
      (∀ i k val, columns !! i = Some k → raw !! i = Some val →
         (∀ j, (i < j < length raw)%nat → columns !! j ≠ Some k) →
         row !! k = Some (NaturalLanguageSQL.normalize val)).
Proof.
  unfold NaturalLanguageSQL._execute_query.
  match goal with |- context [db ?s] => set (stmt := s) end.
  destruct (db stmt) as [e|[columns fetched]] eqn:Hdb; [discriminate|].
  intros [= <-]. exists stmt, columns, fetched.
  split; [done|]. split; [by rewrite length_map|].
  intros n row raw Hrow Hraw.
  change (map ?f ?l) with (f <$> l) in Hrow.
  rewrite list_lookup_fmap, Hraw in Hrow.
  simpl in Hrow. injection Hrow as <-.
  unfold NaturalLanguageSQL.row_dict. split.
  - intros k v H. apply row_fold_origin in H as [H|H]; [|done].
    by rewrite lookup_empty in H.
  - intros i k val Hc Hr Hlast. by apply row_fold_last_wins with i.
Qed.

Lemma execute_query_rows_witness :
  ∃ stmt columns fetched,
    Examples.two_rows stmt = inr (columns, fetched) ∧
    length (map (NaturalLanguageSQL.row_dict ["asset_symbol"; "total_return"])
              [[NaturalLanguageSQL.DbText "AAPL";
                NaturalLanguageSQL.DbDecimal (12 # 100)];
               [NaturalLanguageSQL.DbText "MSFT";
                NaturalLanguageSQL.DbDecimal (9 # 100)]])
    = length fetched ∧
    ∀ n row raw,
      map (NaturalLanguageSQL.row_dict ["asset_symbol"; "total_return"])
        [[NaturalLanguageSQL.DbText "AAPL";
          NaturalLanguageSQL.DbDecimal (12 # 100)];
         [NaturalLanguageSQL.DbText "MSFT";
          NaturalLanguageSQL.DbDecimal (9 # 100)]] !! n = Some row →
      fetched !! n = Some raw →
      (∀ k v, row !! k = Some v →
         ∃ i val, columns !! i = Some k ∧ raw !! i = Some val ∧
                  v = NaturalLanguageSQL.normalize val) ∧
      (∀ i k val, columns !! i = Some k → raw !! i = Some val →
         (∀ j, (i < j < length raw)%nat → columns !! j ≠ Some k) →
         row !! k = Some (NaturalLanguageSQL.normalize val)).
Proof.
  apply (execute_query_rows Examples.two_rows "SELECT 1" 100).
  reflexivity.
Defined.

(** ** The entry point [process_query] *)

(** X12. With [use_ai=False] the query stays local: the remote client
    and the world are left as they were (nothing is sent), the method
    reported is ['template'] or none, and a statement reported is the
    one the templates give for the classified intent. *)
Theorem process_query_without_ai_is_local
    (classifier : LocalModelManager.zero_shot) (schema_for : string → string)
    (sqlparse : string → NaturalLanguageSQL.parse_outcome)
    (db : NaturalLanguageSQL.database) (net : HuggingFaceAPI.endpoint)
    (elapsed : Q) (hf : HuggingFaceAPI.api) (w : HuggingFaceAPI.world)
    (query : string) :
  let out := NaturalLanguageSQL.process_query classifier schema_for sqlparse
               db net elapsed hf w query false in
  out.1.2 = hf ∧ out.2 = w ∧
  (NaturalLanguageSQL.method out.1.1 = None ∨
   NaturalLanguageSQL.method out.1.1 = Some "template") ∧
  ∀ s, NaturalLanguageSQL.sql out.1.1 = Some s →
       NaturalLanguageSQL._generate_sql_template query
         (NaturalLanguageSQL.intent out.1.1) = Some s.
Proof.
  unfold NaturalLanguageSQL.process_query.
  destruct (LocalModelManager.classify_query_intent _ _ _) as [intent conf].
  rewrite orb_true_r, andb_false_r.
  destruct (NaturalLanguageSQL._generate_sql_template query intent) as [s|] eqn:Ht;
    [|cbn; by repeat split; auto].
  destruct (String.eqb s ""); [cbn; by repeat split; auto|].
  destruct (NaturalLanguageSQL._validate_sql sqlparse s) as [[] e];
    [destruct (NaturalLanguageSQL._execute_query db s 100)|];
    cbn; repeat split; auto; by intros ? [= <-].
Qed.

(** X13. A success went through the guard and the database: when
    [process_query] reports success, the statement it reports is not
    empty, [_validate_sql] accepted it, the rows reported are the ones
    [_execute_query] returned for it with the limit 100, and no error
    is reported. *)
Theorem process_query_success_is_validated
    (classifier : LocalModelManager.zero_shot) (schema_for : string → string)
    (sqlparse : string → NaturalLanguageSQL.parse_outcome)
    (db : NaturalLanguageSQL.database) (net : HuggingFaceAPI.endpoint)
    (elapsed : Q) (hf : HuggingFaceAPI.api) (w : HuggingFaceAPI.world)
    (query : string) (use_ai : bool) :
  let r := (NaturalLanguageSQL.process_query classifier schema_for sqlparse
              db net elapsed hf w query use_ai).1.1 in
  NaturalLanguageSQL.success r = true →
  ∃ s rows,
    NaturalLanguageSQL.sql r = Some s ∧ s ≠ "" ∧
    (NaturalLanguageSQL._validate_sql sqlparse s).1 = true ∧
    NaturalLanguageSQL._execute_query db s 100 = inr rows ∧
    NaturalLanguageSQL.results r = Some rows ∧
    NaturalLanguageSQL.error r = None.
Proof.
  unfold NaturalLanguageSQL.process_query.
  destruct (LocalModelManager.classify_query_intent _ _ _) as [intent conf].
  destruct (if (FinancialVectorStore.Qgt_bool conf (7 # 10) || negb use_ai)%bool
            then _ else _) as [s0 m0].
  destruct (if (negb (Py.truthy s0) && use_ai)%bool then _ else _)
    as [[[s1 m1] hf1] w1].
  destruct s1 as [s|]; [|cbn; discriminate].
  destruct (String.eqb s "") eqn:He; [cbn; discriminate|].
  destruct (NaturalLanguageSQL._validate_sql sqlparse s) as [[] e] eqn:Hv;
    [|cbn; discriminate].
  destruct (NaturalLanguageSQL._execute_query db s 100) as [err|rows] eqn:Hx;
    [cbn; discriminate|].
  cbn. intros _. exists s, rows. rewrite Hv.
  repeat split; auto. intros ->. discriminate.
Qed.

Lemma process_query_success_is_validated_witness :
  ∃ s rows,
    NaturalLanguageSQL.sql
      (NaturalLanguageSQL.process_query (Examples.sure "data_retrieval")
         (λ _, "") (λ _, NaturalLanguageSQL.Parsed 1) Examples.two_rows
         (Examples.answering "") 1 Examples.fresh Examples.start
         "Show me the latest crypto prices" false).1.1 = Some s ∧
    s ≠ "" ∧
    (NaturalLanguageSQL._validate_sql (λ _, NaturalLanguageSQL.Parsed 1) s).1
    = true ∧
    NaturalLanguageSQL._execute_query Examples.two_rows s 100 = inr rows ∧
    NaturalLanguageSQL.results
      (NaturalLanguageSQL.process_query (Examples.sure "data_retrieval")
         (λ _, "") (λ _, NaturalLanguageSQL.Parsed 1) Examples.two_rows
         (Examples.answering "") 1 Examples.fresh Examples.start
         "Show me the latest crypto prices" false).1.1 = Some rows ∧
    NaturalLanguageSQL.error
      (NaturalLanguageSQL.process_query (Examples.sure "data_retrieval")
         (λ _, "") (λ _, NaturalLanguageSQL.Parsed 1) Examples.two_rows
         (Examples.answering "") 1 Examples.fresh Examples.start
         "Show me the latest crypto prices" false).1.1 = None.
Proof.
  apply (process_query_success_is_validated (Examples.sure "data_retrieval")
    (λ _, "") (λ _, NaturalLanguageSQL.Parsed 1) Examples.two_rows
    (Examples.answering "") 1 Examples.fresh Examples.start
    "Show me the latest crypto prices" false).
  vm_compute. reflexivity.
Defined.

(** X14. A statement the guard rejects never reaches the database:
    when the statement that [process_query] reports is one that
    [_validate_sql] rejects, the outcome is a failure without rows and
    it is the same, client and world included, whatever database is
    behind. *)
Theorem rejected_statement_never_executed
    (classifier : LocalModelManager.zero_shot) (schema_for : string → string)
    (sqlparse : string → NaturalLanguageSQL.parse_outcome)
    (db db' : NaturalLanguageSQL.database) (net : HuggingFaceAPI.endpoint)
    (elapsed : Q) (hf : HuggingFaceAPI.api) (w : HuggingFaceAPI.world)
    (query : string) (use_ai : bool) (s : string) :
  let out := NaturalLanguageSQL.process_query classifier schema_for sqlparse
               db net elapsed hf w query use_ai in
  NaturalLanguageSQL.sql out.1.1 = Some s →
  (NaturalLanguageSQL._validate_sql sqlparse s).1 = false →
  NaturalLanguageSQL.success out.1.1 = false ∧
  NaturalLanguageSQL.results out.1.1 = None ∧
  NaturalLanguageSQL.row_count out.1.1 = None ∧
  NaturalLanguageSQL.process_query classifier schema_for sqlparse
    db' net elapsed hf w query use_ai = out.
Proof.
  unfold NaturalLanguageSQL.process_query.
  destruct (LocalModelManager.classify_query_intent _ _ _) as [intent conf].
  destruct (if (FinancialVectorStore.Qgt_bool conf (7 # 10) || negb use_ai)%bool
            then _ else _) as [s0 m0].
  destruct (if (negb (Py.truthy s0) && use_ai)%bool then _ else _)
    as [[[s1 m1] hf1] w1].
  destruct s1 as [s'|]; [|cbn; discriminate].
  destruct (String.eqb s' "") eqn:He; [cbn; discriminate|].
  destruct (NaturalLanguageSQL._validate_sql sqlparse s') as [[] e] eqn:Hv.
  - destruct (NaturalLanguageSQL._execute_query db s' 100) as [err|rows];
      cbn; intros [= <-] Hr; rewrite Hv in Hr; discriminate.
  - cbn. by intros [= <-] _.
Qed.

Lemma rejected_statement_never_executed_witness :
  NaturalLanguageSQL.success
    (NaturalLanguageSQL.process_query (λ _ _ _, None)
       (λ _, "") (λ _, NaturalLanguageSQL.Parsed 1) Examples.two_rows
       (Examples.answering "DROP TABLE prices") 1 Examples.fresh
       Examples.start "remove the prices" true).1.1 = false ∧
  NaturalLanguageSQL.results
    (NaturalLanguageSQL.process_query (λ _ _ _, None)
       (λ _, "") (λ _, NaturalLanguageSQL.Parsed 1) Examples.two_rows
       (Examples.answering "DROP TABLE prices") 1 Examples.fresh
       Examples.start "remove the prices" true).1.1 = None ∧
  NaturalLanguageSQL.row_count
    (NaturalLanguageSQL.process_query (λ _ _ _, None)
       (λ _, "") (λ _, NaturalLanguageSQL.Parsed 1) Examples.two_rows
       (Examples.answering "DROP TABLE prices") 1 Examples.fresh
       Examples.start "remove the prices" true).1.1 = None ∧
  NaturalLanguageSQL.process_query (λ _ _ _, None)
    (λ _, "") (λ _, NaturalLanguageSQL.Parsed 1) (λ _, inl "down")
    (Examples.answering "DROP TABLE prices") 1 Examples.fresh
    Examples.start "remove the prices" true
  = NaturalLanguageSQL.process_query (λ _ _ _, None)
      (λ _, "") (λ _, NaturalLanguageSQL.Parsed 1) Examples.two_rows
      (Examples.answering "DROP TABLE prices") 1 Examples.fresh
      Examples.start "remove the prices" true.
Proof.
  apply (rejected_statement_never_executed (λ _ _ _, None)
    (λ _, "") (λ _, NaturalLanguageSQL.Parsed 1) Examples.two_rows
    (λ _, inl "down") (Examples.answering "DROP TABLE prices") 1
    Examples.fresh Examples.start "remove the prices" true
    "DROP TABLE prices").
  - vm_compute. reflexivity.
  - vm_compute. reflexivity.
Defined.

(** X15. With [use_ai=True] and a confidence of at most 0.7 (a failed
    classifier gives 0) the templates are not consulted: the statement
    reported, if any, is the one [generate_sql_from_nl] returned, the
    method is never ['template'], and the client and the world are the
    ones that call left. *)
Theorem low_confidence_goes_to_remote_model
    (classifier : LocalModelManager.zero_shot) (schema_for : string → string)
    (sqlparse : string → NaturalLanguageSQL.parse_outcome)
    (db : NaturalLanguageSQL.database) (net : HuggingFaceAPI.endpoint)
    (elapsed : Q) (hf : HuggingFaceAPI.api) (w : HuggingFaceAPI.world)
    (query : string) :
  let out := NaturalLanguageSQL.process_query classifier schema_for sqlparse
               db net elapsed hf w query true in
  let gen := HuggingFaceAPI.generate_sql_from_nl net hf w query
               (schema_for query) in
  (LocalModelManager.classify_query_intent classifier query
     NaturalLanguageSQL.query_intents).2 <= 7 # 10 →
  out.1.2 = gen.1.2 ∧ out.2 = gen.2 ∧
  NaturalLanguageSQL.method out.1.1 ≠ Some "template" ∧
  (∀ s, NaturalLanguageSQL.sql out.1.1 = Some s → gen.1.1 = Some s) ∧
  (gen.1.1 = None → NaturalLanguageSQL.sql out.1.1 = None).
Proof.
  unfold NaturalLanguageSQL.process_query.
  destruct (LocalModelManager.classify_query_intent _ _ _) as [intent conf].
  cbn [snd]. intros Hc.
  assert (Hq : FinancialVectorStore.Qgt_bool conf (7 # 10) = false).
  { unfold FinancialVectorStore.Qgt_bool. apply negb_false_iff.
    by apply Qle_bool_iff. }
  rewrite Hq. cbn [orb negb Py.truthy andb].
  destruct (HuggingFaceAPI.generate_sql_from_nl _ _ _ _ _) as [[g hf1] w1].
  destruct g as [s|]; [|cbn; by repeat split].
  destruct (String.eqb s ""); [cbn; by repeat split|].
  destruct (NaturalLanguageSQL._validate_sql sqlparse s) as [[] e];
    [destruct (NaturalLanguageSQL._execute_query db s 100)|];
    cbn; repeat split; auto; discriminate.
Qed.

Lemma low_confidence_goes_to_remote_model_witness :
  let out := NaturalLanguageSQL.process_query (λ _ _ _, None) (λ _, "")
               (λ _, NaturalLanguageSQL.Parsed 1) Examples.two_rows
               (Examples.answering "SELECT 1") 1 Examples.fresh
               Examples.start "Show me the latest crypto prices" true in
  let gen := HuggingFaceAPI.generate_sql_from_nl (Examples.answering "SELECT 1")
               Examples.fresh Examples.start
               "Show me the latest crypto prices" "" in
  out.1.2 = gen.1.2 ∧ out.2 = gen.2 ∧
  NaturalLanguageSQL.method out.1.1 ≠ Some "template" ∧
  (∀ s, NaturalLanguageSQL.sql out.1.1 = Some s → gen.1.1 = Some s) ∧
  (gen.1.1 = None → NaturalLanguageSQL.sql out.1.1 = None).
Proof.
  apply (low_confidence_goes_to_remote_model (λ _ _ _, None) (λ _, "")
    (λ _, NaturalLanguageSQL.Parsed 1) Examples.two_rows
    (Examples.answering "SELECT 1") 1 Examples.fresh Examples.start
    "Show me the latest crypto prices").
  vm_compute. discriminate.
Defined.

(** ** Numbers in the question *)

Lemma digit_is_word c : Py.is_digit c = true → Py.is_word c = true.
Proof. destruct c as [[] [] [] [] [] [] [] []]; vm_compute; congruence. Qed.

Lemma match_number_no_digit prev l :
  (∀ c, head l = Some c → Py.is_digit c = false) →
  Py.match_here Py.number_pattern prev l = None.
Proof.
  intros H. unfold Py.number_pattern. cbn [Py.match_here].
  destruct (Py.at_boundary prev l); [|done].
  assert (Hr : Py.run Py.is_digit None l = 0%nat).
  { destruct l as [|c l]; [done|]. simpl. by rewrite (H c). }
  by rewrite Hr.
Qed.

Lemma findall_number_skip prev a r :
  Forall (λ c, Py.is_digit c = false) a →
  Py.findall_from Py.number_pattern prev (a ++ r) 0
  = Py.findall_from Py.number_pattern (SqlGuard.last_or prev a) r 0.
Proof.
  intros Ha. revert prev. induction Ha as [|c a Hc Ha IH]; intros prev; [done|].
  rewrite <- app_comm_cons. cbn [Py.findall_from].
  rewrite match_number_no_digit by (by intros ? [= <-]).
  by rewrite IH, last_or_cons.
Qed.

Lemma findall_number_none prev l :
  Forall (λ c, Py.is_digit c = false) l →
  Py.findall_from Py.number_pattern prev l 0 = [].
Proof.
  intros Hl. revert prev. induction Hl as [|c l Hc Hl IH]; intros prev.
  - cbn [Py.findall_from]. by rewrite match_number_no_digit.
  - cbn [Py.findall_from].
    rewrite match_number_no_digit by (by intros ? [= <-]). apply IH.
Qed.

Lemma run_digits ds b :
  Forall (λ c, Py.is_digit c = true) ds →
  (∀ c, head b = Some c → Py.is_digit c = false) →
  Py.run Py.is_digit None (ds ++ b) = length ds.
Proof.
  intros Hd Hb. induction Hd as [|c ds Hc Hd IH].
  - destruct b as [|c b]; [done|]. simpl. by rewrite (Hb c).
  - simpl. by rewrite Hc, IH.
Qed.

Lemma prev_at_end prev (ds b : list ascii) :
  ds ≠ [] → Py.prev_at prev (ds ++ b) (length ds) = last ds.
Proof.
  intros Hne. destruct ds as [|c ds] using rev_ind; [done|].
  rewrite length_app, Nat.add_1_r. cbn [Py.prev_at].
  rewrite <- app_assoc. cbn [app]. rewrite list_lookup_middle by done.
  by rewrite last_snoc.
Qed.

Lemma match_number_here prev ds b :
  ds ≠ [] → Forall (λ c, Py.is_digit c = true) ds →
  Py.word_opt prev = false → Py.word_opt (head b) = false →
  Py.match_here Py.number_pattern prev (ds ++ b) = Some (length ds).
Proof.
  intros Hne Hd Hp Hb. unfold Py.number_pattern. cbn [Py.match_here].
  assert (Hh : Py.word_opt (head (ds ++ b)) = true).
  { destruct ds as [|c ds]; [done|]. simpl. apply digit_is_word.
    by apply Forall_inv in Hd. }
  unfold Py.at_boundary at 1. rewrite Hp, Hh. cbn [xorb].
  rewrite run_digits; [|done|].
  2:{ intros c Hc. rewrite Hc in Hb. simpl in Hb.
      destruct (Py.is_digit c) eqn:E; [|done].
      apply digit_is_word in E. congruence. }
  destruct (length ds) as [|n] eqn:Hlen; [by destruct ds|].
  cbn [Py.backtrack]. replace (S n <? 1)%nat with false
    by (symmetry; apply Nat.ltb_ge; lia).
  rewrite <- Hlen, prev_at_end, drop_app_length by done.
  assert (Hl : Py.word_opt (last ds) = true).
  { destruct (last ds) as [e|] eqn:He; [|by apply last_None in He].
    simpl. apply digit_is_word. apply last_Some_elem_of in He.
    rewrite Forall_forall in Hd. by apply Hd. }
  unfold Py.at_boundary. rewrite Hl, Hb. cbn. by rewrite Nat.add_0_r.
Qed.

(** [_extract_number] falls back on the default: a text without
    any digit gives the default. *)
Theorem extract_number_default (text : string) (default_ : N) :
  Forall (λ c, Py.is_digit c = false) (Py.chars text) →
  NaturalLanguageSQL._extract_number text default_ = default_.
Proof.
  intros H. unfold NaturalLanguageSQL._extract_number, Py.re_findall.
  by rewrite findall_number_none.
Qed.

Lemma extract_number_default_witness :
  NaturalLanguageSQL._extract_number "show me the best stocks" 10 = 10%N.
Proof.
  apply (extract_number_default "show me the best stocks" 10).
  repeat constructor.
Defined.

(** X16. [_extract_number] returns the first number that stands alone:
    when the text is [before ++ digits ++ after], with no digit in
    [before], a non-empty run of digits, and no word character right
    before or right after the run, the result is the value of that run
    (so ['top 5 stocks'] gives 5), whatever the default. *)
Theorem extract_number_first_standalone
    (text : string) (default_ : N) (before digits after : list ascii) :
  Py.chars text = before ++ digits ++ after →
  Forall (λ c, Py.is_digit c = false) before →
  digits ≠ [] → Forall (λ c, Py.is_digit c = true) digits →
  Py.word_opt (last before) = false →
  Py.word_opt (head after) = false →
  NaturalLanguageSQL._extract_number text default_
  = NaturalLanguageSQL.int_of_digits digits.
Proof.
  intros Ht Hb Hne Hd Hl Hh.
  unfold NaturalLanguageSQL._extract_number, Py.re_findall.
  rewrite Ht, findall_number_skip by auto.
  assert (Hm := match_number_here (SqlGuard.last_or None before) digits after
                  Hne Hd).
  assert (Hp : Py.word_opt (SqlGuard.last_or None before) = false).
  { unfold SqlGuard.last_or. by destruct (last before). }
  specialize (Hm Hp Hh).
  destruct digits as [|d ds]; [done|].
  rewrite <- app_comm_cons in *. cbn [Py.findall_from]. rewrite Hm.
  cbn [length take]. rewrite take_app_length. done.
Qed.

Lemma extract_number_first_standalone_witness :
  NaturalLanguageSQL._extract_number "top 5 stocks" 10
  = NaturalLanguageSQL.int_of_digits (Py.chars "5").
Proof.
  apply (extract_number_first_standalone "top 5 stocks" 10
           (Py.chars "top ") (Py.chars "5") (Py.chars " stocks")).
  - reflexivity.
  - repeat constructor.
  - discriminate.
  - repeat constructor.
  - reflexivity.
  - reflexivity.
Defined.


(** ** The templates and the guard *)

Lemma infix_around_digits (x kw y a ds b : list ascii) :
  x ++ kw ++ y = a ++ ds ++ b →
  ds ≠ [] → Forall (λ c, Py.is_digit c = true) ds →
  Forall (λ c, Py.is_digit c = false) kw →
  Py.contains kw a = true ∨ Py.contains kw b = true.
Proof.
  intros H Hne Hd Hk.
  apply app_eq_inv in H as [(k & -> & H)|(k & -> & H)].
  - right. apply app_eq_inv in H as [(k2 & -> & Hb)|(k2 & -> & ->)].
    + destruct k2 as [|c k2].
      * simpl in Hb. apply contains_spec. exists [], y. by rewrite Hb.
      * destruct kw as [|c' kw].
        -- apply contains_spec. by exists [], b.
        -- simpl in Hb. injection Hb as -> Hb.
           apply Forall_app in Hd as [_ Hd]. apply Forall_inv in Hd.
           apply Forall_inv in Hk. congruence.
    + apply contains_spec. by exists k2, y.
  - left. apply app_eq_inv in H as [(k2 & -> & Hb)|(k2 & -> & ->)].
    + destruct k2 as [|c k2].
      * rewrite app_nil_r. apply contains_spec. exists x, [].
        by rewrite app_nil_r.
      * destruct ds as [|d ds]; [done|]. simpl in Hb. injection Hb as -> Hb.
        apply Forall_inv in Hd.
        apply Forall_app in Hk as [_ Hk]. apply Forall_inv in Hk. congruence.
    + apply contains_spec. by exists x, k2.
Qed.

Lemma lstrip_app_keeps a w :
  w ≠ [] → Forall (λ c, Py.is_space c = false) w →
  ∃ s, Py.lstrip (a ++ w) = s ++ w.
Proof.
  intros Hne Hw. induction a as [|c a (s & IH)].
  - exists []. simpl. destruct w as [|c w]; [done|]. simpl.
    apply Forall_inv in Hw. by rewrite Hw.
  - simpl. destruct (Py.is_space c); [by exists s | by exists (c :: a)].
Qed.

Lemma startswith_strip_app w a rest :
  w ≠ [] → Forall (λ c, Py.is_space c = false) w →
  Py.startswith w (Py.lstrip a) = true →
  Py.startswith w (Py.strip (a ++ rest)) = true.
Proof.
  intros Hne Hw H. apply startswith_spec in H as [q Hq].
  destruct (lstrip_spaces a) as (p & Ha & Hp). rewrite Hq in Ha.
  assert (Hl : Py.lstrip (a ++ rest) = w ++ q ++ rest).
  { rewrite Ha. clear Ha. induction Hp as [|c p Hc Hp IH]; simpl.
    - destruct w as [|c w]; [done|]. simpl. apply Forall_inv in Hw.
      by rewrite Hw, <- app_assoc.
    - by rewrite Hc. }
  unfold Py.strip, Py.rstrip. rewrite Hl, !rev_app_distr.
  assert (Hr : rev w ≠ []).
  { intros E. apply (f_equal (@rev ascii)) in E.
    by rewrite rev_involutive in E. }
  assert (Hrw : Forall (λ c, Py.is_space c = false) (rev w)).
  { apply Forall_forall. intros c Hc. rewrite Forall_forall in Hw.
    apply Hw. apply list_elem_of_In, in_rev. by apply list_elem_of_In. }
  destruct (lstrip_app_keeps (rev rest ++ rev q) (rev w) Hr Hrw) as [s ->].
  rewrite rev_app_distr, rev_involutive. apply startswith_spec. by eexists.
Qed.

Lemma digit_lower c : Py.is_digit c = true → Py.lower_char c = c.
Proof. destruct c as [[] [] [] [] [] [] [] []]; vm_compute; congruence. Qed.

Lemma lower_digits ds :
  Forall (λ c, Py.is_digit c = true) ds → Py.lower ds = ds.
Proof.
  induction 1 as [|c ds Hc Hd IH]; [done|].
  unfold Py.lower in *. simpl. by rewrite IH, digit_lower.
Qed.

Lemma string_of_uint_digits d :
  Forall (λ c, Py.is_digit c = true)
         (Py.chars (DecimalString.NilEmpty.string_of_uint d)).
Proof. induction d; simpl; repeat constructor; done. Qed.

Lemma str_of_N_digits n :
  Py.chars (NaturalLanguageSQL.str_of_N n) ≠ [] ∧
  Forall (λ c, Py.is_digit c = true) (Py.chars (NaturalLanguageSQL.str_of_N n)).
Proof.
  unfold NaturalLanguageSQL.str_of_N, DecimalString.NilZero.string_of_uint.
  destruct (N.to_uint n) eqn:E;
    try (split; [discriminate | apply (string_of_uint_digits (_ _))]).
  split; [discriminate | repeat constructor].
Qed.

Lemma dangerous_keywords_letters :
  Forall (λ kw, Forall (λ c, Py.is_digit c = false) (Py.chars kw))
         NaturalLanguageSQL.dangerous_keywords.
Proof. repeat constructor. Qed.

(** A template with one hole for a number: when neither fixed part
    holds a keyword of the denylist and the first part begins, after
    white space, with [select], the guard accepts the filled template. *)
Lemma one_number_template_accepted (a b number : string) sqlparse n :
  Py.chars number ≠ [] →
  Forall (λ c, Py.is_digit c = true) (Py.chars number) →
  Forall (λ kw,
            Py.contains (Py.chars kw) (Py.lower (Py.chars a)) = false ∧
            Py.contains (Py.chars kw) (Py.lower (Py.chars b)) = false)
         NaturalLanguageSQL.dangerous_keywords →
  Py.startswith (Py.chars "select") (Py.lstrip (Py.lower (Py.chars a))) = true →
  sqlparse (a +:+ number +:+ b) = NaturalLanguageSQL.Parsed (S n) →
  NaturalLanguageSQL._validate_sql sqlparse (a +:+ number +:+ b) = (true, None).
Proof.
  intros Hne Hd Hsafe Hsel Hparse.
  unfold NaturalLanguageSQL._validate_sql. rewrite Hparse.
  rewrite !chars_app, !lower_app, (lower_digits _ Hd).
  destruct (NaturalLanguageSQL.first_dangerous _ _) as [kw|] eqn:Hfd.
  - exfalso. apply first_dangerous_sound in Hfd as [Hin Hs].
    pose proof dangerous_keywords_words as HW. rewrite Forall_forall in HW.
    destruct (HW kw Hin) as [Hk1 Hk2].
    pose proof dangerous_keywords_letters as HL. rewrite Forall_forall in HL.
    rewrite Forall_forall in Hsafe. destruct (Hsafe kw Hin) as [Ha Hb].
    apply search_from_sound in Hs as (x & y & Hxy & _ & _); [|done|done].
    destruct (strip_infix (Py.lower (Py.chars a) ++ Py.chars number
                           ++ Py.lower (Py.chars b))) as (p & q & Hpq).
    rewrite Hxy in Hpq.
    assert (E : (p ++ x) ++ Py.chars kw ++ (y ++ q)
                = Py.lower (Py.chars a) ++ Py.chars number
                  ++ Py.lower (Py.chars b)).
    { rewrite Hpq at 1. by rewrite <- !app_assoc. }
    destruct (infix_around_digits _ _ _ _ _ _ E Hne Hd (HL kw Hin));
      congruence.
  - rewrite startswith_strip_app; [done | discriminate | repeat constructor | done].
Qed.

Ltac parts_checked :=
  unfold NaturalLanguageSQL.dangerous_keywords;
  repeat (apply Forall_cons; split; [split; vm_compute; reflexivity|]);
  constructor.

Ltac template_accepted :=
  lazymatch goal with
  | |- (∃ l, ?t = _) ∨ _ =>
    lazymatch t with
    | NaturalLanguageSQL.compare_assets _ => left; eexists; reflexivity
    | ?f (NaturalLanguageSQL.str_of_N ?number) =>
      let sqlparse := fresh "sqlparse" in
      let k := fresh "k" in
      let Hp := fresh "Hp" in
      right; intros sqlparse k Hp;
      destruct (str_of_N_digits number);
      unfold f in *;
      apply one_number_template_accepted with (n := k);
      [assumption | assumption | parts_checked | vm_compute; reflexivity
      | exact Hp]
    | _ =>
      let sqlparse := fresh "sqlparse" in
      let k := fresh "k" in
      let Hp := fresh "Hp" in
      right; intros sqlparse k Hp;
      unfold NaturalLanguageSQL._validate_sql; rewrite Hp;
      vm_compute; reflexivity
    end
  end.

(** X17. The templates are safe for the guard: a statement that
    [_generate_sql_template] returns is either the comparison of the
    assets named in the question, or a statement that [_validate_sql]
    accepts whenever the parser finds a statement in it, whatever
    number the question holds. *)
Theorem templates_pass_guard (query intent s : string) :
  NaturalLanguageSQL._generate_sql_template query intent = Some s →
  (∃ assets_list, s = NaturalLanguageSQL.compare_assets assets_list) ∨
  ∀ sqlparse n, sqlparse s = NaturalLanguageSQL.Parsed (S n) →
    NaturalLanguageSQL._validate_sql sqlparse s = (true, None).
Proof.
  unfold NaturalLanguageSQL._generate_sql_template. cbv zeta.
  repeat match goal with
         | |- (if ?c then _ else _) = _ → _ => destruct c
         | |- None = Some _ → _ => discriminate
         end;
    intros [= <-]; template_accepted.
Qed.

Lemma templates_pass_guard_witness :
  (∃ assets_list,
     NaturalLanguageSQL.top_stocks_by_return "5"
     = NaturalLanguageSQL.compare_assets assets_list) ∨
  ∀ sqlparse n,
    sqlparse (NaturalLanguageSQL.top_stocks_by_return "5")
    = NaturalLanguageSQL.Parsed (S n) →
    NaturalLanguageSQL._validate_sql sqlparse
      (NaturalLanguageSQL.top_stocks_by_return "5") = (true, None).
Proof.
  apply (templates_pass_guard "Show me the top 5 stocks by return"
           "data_retrieval" (NaturalLanguageSQL.top_stocks_by_return "5")).
  vm_compute. reflexivity.
Defined.

(** ** The asset comparison *)

Lemma join_elem sep (assets : list string) kw :
  kw ∈ assets →
  ∃ u v, Py.chars (NaturalLanguageSQL.join sep assets) = u ++ Py.chars kw ++ v ∧
         (u = [] ∨ ∃ u', u = u' ++ Py.chars sep) ∧
         (v = [] ∨ ∃ v', v = Py.chars sep ++ v').
Proof.
  induction assets as [|x [|y rest] IH]; intros Hin.
  - by apply elem_of_nil in Hin.
  - apply list_elem_of_singleton in Hin as ->. exists [], [].
    simpl. rewrite app_nil_r. auto.
  - change (NaturalLanguageSQL.join sep (x :: y :: rest))
      with (x +:+ sep +:+ NaturalLanguageSQL.join sep (y :: rest)).
    rewrite !chars_app.
    apply elem_of_cons in Hin as [->|Hin].
    + exists [], (Py.chars sep ++ Py.chars (NaturalLanguageSQL.join sep (y :: rest))).
      split; [done|]. split; [by left | right; by eexists].
    + destruct (IH Hin) as (u & v & -> & Hu & Hv).
      exists (Py.chars x ++ Py.chars sep ++ u), v.
      split; [by rewrite <- !app_assoc|]. split; [right | done].
      destruct Hu as [->|[u' ->]].
      * exists (Py.chars x). by rewrite app_nil_r.
      * exists (Py.chars x ++ Py.chars sep ++ u'). by rewrite <- !app_assoc.
Qed.

Lemma dangerous_keywords_lower :
  Forall (λ kw, Py.lower (Py.chars kw) = Py.chars kw)
         NaturalLanguageSQL.dangerous_keywords.
Proof. repeat constructor. Qed.

(** X18. A comparison that names a denylisted word is stopped by the
    guard: when one of the assets put into the comparison template is a
    keyword of the denylist (as [drop], [alter] or [grant] can be, since
    any word of two to five letters counts as a ticker), [_validate_sql]
    rejects the statement, whatever the parser says. *)
Theorem comparison_with_keyword_rejected
    (sqlparse : string → NaturalLanguageSQL.parse_outcome)
    (assets : list string) (kw : string) :
  kw ∈ assets → kw ∈ NaturalLanguageSQL.dangerous_keywords →
  (NaturalLanguageSQL._validate_sql sqlparse
     (NaturalLanguageSQL.compare_assets
        (NaturalLanguageSQL.join "', '" assets))).1 = false.
Proof.
  intros Hin Hkw.
  pose proof dangerous_keywords_words as HW. rewrite Forall_forall in HW.
  destruct (HW kw Hkw) as [Hne Hword].
  pose proof dangerous_keywords_lower as HL. rewrite Forall_forall in HL.
  destruct (join_elem "', '" assets kw Hin) as (u & v & Hj & Hu & Hv).
  assert (Hst : SqlGuard.standalone_word kw
                  (NaturalLanguageSQL.compare_assets
                     (NaturalLanguageSQL.join "', '" assets))).
  { unfold NaturalLanguageSQL.compare_assets.
    match goal with
    | |- SqlGuard.standalone_word _ (?p +:+ ?l +:+ ?q) =>
      exists (Py.chars p ++ u), (Py.chars kw), (v ++ Py.chars q)
    end.
    split; [|split; [by apply HL|split]].
    - rewrite chars_app, (chars_app (NaturalLanguageSQL.join _ _)), Hj.
      by rewrite <- !app_assoc.
    - destruct Hu as [->|[u' ->]].
      + rewrite app_nil_r. vm_compute. reflexivity.
      + change (Py.chars "', '") with (Py.chars "', " ++ ["'"%char]).
        rewrite !app_assoc, last_snoc. reflexivity.
    - destruct Hv as [->|[v' ->]]; reflexivity. }
  unfold NaturalLanguageSQL._validate_sql.
  destruct (first_dangerous_found kw NaturalLanguageSQL.dangerous_keywords _ Hkw
              (standalone_word_found kw _ Hne Hword Hst)) as [k ->].
  reflexivity.
Qed.

Lemma comparison_with_keyword_rejected_witness :
  (NaturalLanguageSQL._validate_sql (λ _, NaturalLanguageSQL.Parsed 1)
     (NaturalLanguageSQL.compare_assets
        (NaturalLanguageSQL.join "', '" ["aapl"; "grant"]))).1 = false.
Proof.
  apply (comparison_with_keyword_rejected (λ _, NaturalLanguageSQL.Parsed 1)
           ["aapl"; "grant"] "grant").
  - set_solver.
  - unfold NaturalLanguageSQL.dangerous_keywords. set_solver.
Defined.

Lemma run_le_length p cap l : (Py.run p cap l ≤ length l)%nat.
Proof.
  revert cap. induction l as [|c l IH]; intros cap.
  - destruct cap as [[|k]|]; simpl; lia.
  - destruct cap as [[|k]|]; simpl; [lia | |];
      (destruct (p c); [|lia]); apply le_n_S, IH.
Qed.

Lemma run_le_cap p k l : (Py.run p (Some k) l ≤ k)%nat.
Proof.
  revert k. induction l as [|c l IH]; intros [|k]; simpl; try lia.
  destruct (p c); [|lia]. apply le_n_S, IH.
Qed.

Lemma run_forall p cap l : Forall (λ c, p c = true) (take (Py.run p cap l) l).
Proof.
  revert cap. induction l as [|c l IH]; intros cap.
  - destruct cap as [[|k]|]; constructor.
  - destruct cap as [[|k]|]; simpl; [constructor | |];
      (destruct (p c) eqn:Hc; [|constructor]); simpl; constructor; auto.
Qed.

Lemma backtrack_result cont prev l lo n r :
  Py.backtrack cont prev l lo n = Some r →
  ∃ n' m, (lo ≤ n' ≤ n)%nat ∧
          cont (Py.prev_at prev l n') (drop n' l) = Some m ∧ r = (n' + m)%nat.
Proof.
  induction n as [|n IH]; cbn [Py.backtrack].
  - destruct (0 <? lo)%nat eqn:Hlo; [discriminate|]. apply Nat.ltb_ge in Hlo.
    destruct (cont _ _) as [m|] eqn:Hm; [|discriminate].
    intros [= <-]. exists 0%nat, m. split; [lia | done].
  - destruct (S n <? lo)%nat eqn:Hlo; [discriminate|]. apply Nat.ltb_ge in Hlo.
    destruct (cont _ _) as [m|] eqn:Hm.
    + intros [= <-]. exists (S n), m. split; [lia | done].
    + intros H. destruct (IH H) as (n' & m & Hn & Hc & ->).
      exists n', m. split; [lia | done].
Qed.

Lemma match_ticker prev l r :
  Py.match_here Py.ticker_pattern prev l = Some r →
  (2 ≤ r ≤ 5)%nat ∧ length (take r l) = r ∧
  Forall (λ c, Py.is_upper c = true) (take r l).
Proof.
  unfold Py.ticker_pattern. cbn [Py.match_here].
  destruct (Py.at_boundary prev l); [|discriminate].
  intros H. apply backtrack_result in H as (n & m & Hn & Hc & ->).
  destruct (Py.at_boundary _ _); [|discriminate]. injection Hc as <-.
  rewrite Nat.add_0_r.
  pose proof (run_le_cap Py.is_upper 5 l).
  pose proof (run_le_length Py.is_upper (Some 5%nat) l).
  split; [lia|]. split; [rewrite length_take; lia|].
  pose proof (run_forall Py.is_upper (Some 5%nat) l) as Hf.
  replace (take n l) with (take n (take (Py.run Py.is_upper (Some 5%nat) l) l))
    by (rewrite take_take; f_equal; lia).
  by apply Forall_take.
Qed.

Lemma findall_matches pat prev l skip x :
  x ∈ Py.findall_from pat prev l skip →
  ∃ prev' l' r, Py.match_here pat prev' l' = Some r ∧ x = take r l'.
Proof.
  revert prev skip. induction l as [|c l IH]; intros prev skip.
  - destruct skip as [|k]; cbn [Py.findall_from]; [|by intros ?%elem_of_nil].
    destruct (Py.match_here pat prev []) as [n|] eqn:Hm;
      [|by intros ?%elem_of_nil].
    intros ->%list_elem_of_singleton. by exists prev, [], n.
  - destruct skip as [|k]; cbn [Py.findall_from]; [|by apply IH].
    destruct (Py.match_here pat prev (c :: l)) as [n|] eqn:Hm; [|by apply IH].
    intros [->|Hin]%elem_of_cons; [by exists prev, (c :: l), n | by eapply IH].
Qed.

Lemma upper_lowered c : Py.is_upper c = true → Py.is_lower (Py.lower_char c) = true.
Proof. destruct c as [[] [] [] [] [] [] [] []]; vm_compute; congruence. Qed.

(** X19. What [_extract_assets] returns is made of short lower-case
    words: every asset has two to five characters, all of them
    lower-case letters, so that no quote, blank or other sign can reach
    the comparison statement through an asset. *)
Theorem extract_assets_are_short_lowercase_words (text asset : string) :
  asset ∈ NaturalLanguageSQL._extract_assets text →
  (2 ≤ length (Py.chars asset) ≤ 5)%nat ∧
  Forall (λ c, Py.is_lower c = true) (Py.chars asset).
Proof.
  unfold NaturalLanguageSQL._extract_assets, NaturalLanguageSQL.extracted_assets.
  rewrite elem_of_list_to_set, elem_of_app. intros [H|H].
  - apply list_elem_of_omap in H as ([keyword symbol] & Hin & Hs).
    destruct (Py.contains _ _); [|discriminate]. injection Hs as ->.
    unfold NaturalLanguageSQL.asset_keywords in Hin.
    repeat (apply elem_of_cons in Hin as [[= _ ->]|Hin];
            [split; [simpl; lia | repeat constructor]|]).
    by apply elem_of_nil in Hin.
  - apply list_elem_of_In, in_map_iff in H as (t & <- & Hin).
    apply list_elem_of_In, findall_matches in Hin as (prev & l & r & Hm & ->).
    apply match_ticker in Hm as (Hr & Hlen & Hup).
    rewrite chars_str_of. unfold Py.lower. rewrite length_map, Hlen.
    split; [done|]. apply Forall_forall. intros c Hc.
    apply list_elem_of_In, in_map_iff in Hc as (u & <- & Hu).
    apply upper_lowered. rewrite Forall_forall in Hup.
    by apply Hup, list_elem_of_In.
Qed.

Lemma extract_assets_are_short_lowercase_words_witness :
  (2 ≤ length (Py.chars "msft") ≤ 5)%nat ∧
  Forall (λ c, Py.is_lower c = true) (Py.chars "msft").
Proof.
  apply (extract_assets_are_short_lowercase_words "compare aapl and msft" "msft").
  unfold NaturalLanguageSQL._extract_assets. apply elem_of_list_to_set.
  assert (H : NaturalLanguageSQL.extracted_assets "compare aapl and msft"
              = ["aapl"; "and"; "msft"]) by (vm_compute; reflexivity).
  rewrite H. set_solver.
Defined.


(** ** The vector store: shape of the answers *)

Lemma format_one_is_Some results i :
  is_Some (FinancialVectorStore.format_one results i) ↔
  is_Some (FinancialVectorStore.ids results !! 0%nat ≫= (.!! i)) ∧
  is_Some (FinancialVectorStore.documents results !! 0%nat ≫= (.!! i)) ∧
  is_Some (FinancialVectorStore.metadatas results !! 0%nat ≫= (.!! i)) ∧
  is_Some (FinancialVectorStore.distances results !! 0%nat ≫= (.!! i)).
Proof.
  unfold FinancialVectorStore.format_one.
  destruct (FinancialVectorStore.ids results !! 0%nat ≫= (.!! i)); simpl;
    [|split; [by intros [? ?] | by intros [[? ?] _]]].
  destruct (FinancialVectorStore.documents results !! 0%nat ≫= (.!! i)); simpl;
    [|split; [by intros [? ?] | by intros (_ & [? ?] & _)]].
  destruct (FinancialVectorStore.metadatas results !! 0%nat ≫= (.!! i)); simpl;
    [|split; [by intros [? ?] | by intros (_ & _ & [? ?] & _)]].
  destruct (FinancialVectorStore.distances results !! 0%nat ≫= (.!! i)); simpl;
    [|split; [by intros [? ?] | by intros (_ & _ & _ & [? ?])]].
  split; [intros _; repeat split; by eexists | by eexists].
Qed.

Lemma first_row_covers {A} (ll : list (list A)) (n : nat) :
  (0 < n)%nat →
  (∀ i, (i < n)%nat → is_Some (ll !! 0%nat ≫= (.!! i))) ↔
  ∃ row, head ll = Some row ∧ (n ≤ length row)%nat.
Proof.
  intros Hn. destruct ll as [|row ll]; simpl.
  - split; [intros H; by destruct (H 0%nat Hn) | by intros (? & ? & _)].
  - split.
    + intros H. exists row. split; [done|].
      destruct (H (n - 1)%nat) as [x Hx]; [lia|].
      apply lookup_lt_Some in Hx. lia.
    + intros (? & [= <-] & Hlen) i Hi. apply lookup_lt_is_Some. lia.
Qed.

(** X20. The shape of what [_format_results] returns, for an answer
    whose first list of ids is not empty: it returns (rather than
    raises) exactly when the first lists of documents, metadatas and
    distances exist and are at least as long as the ids, and then the
    entries carry the ids, one entry per id and in their order; what
    the other lists hold beyond the ids is ignored. *)
Theorem format_results_shape (results : FinancialVectorStore.query_results)
    (ids0 : list string) (rest : list (list string)) :
  FinancialVectorStore.ids results = ids0 :: rest → ids0 ≠ [] →
  (is_Some (FinancialVectorStore._format_results results) ↔
   ∃ docs mds dists,
     head (FinancialVectorStore.documents results) = Some docs ∧
     head (FinancialVectorStore.metadatas results) = Some mds ∧
     head (FinancialVectorStore.distances results) = Some dists ∧
     (length ids0 ≤ length docs)%nat ∧ (length ids0 ≤ length mds)%nat ∧
     (length ids0 ≤ length dists)%nat) ∧
  (∀ formatted,
     FinancialVectorStore._format_results results = Some formatted →
     map FinancialVectorStore.id formatted = ids0).
Proof.
  intros Hids Hne.
  assert (Hn : (0 < length ids0)%nat) by (destruct ids0; [done | simpl; lia]).
  unfold FinancialVectorStore._format_results. rewrite Hids.
  destruct ids0 as [|x0 ids0]; [done|]. split.
  - rewrite mapM_is_Some, Forall_forall.
    split.
    + intros H.
      assert (H' : ∀ i, (i < length (x0 :: ids0))%nat →
                    is_Some (FinancialVectorStore.format_one results i)).
      { intros i Hi. apply (H i). apply elem_of_seq. lia. }
      destruct (proj1 (first_row_covers (FinancialVectorStore.documents results)
                         _ Hn)) as (docs & ? & ?).
      { intros i Hi. by apply format_one_is_Some, H'. }
      destruct (proj1 (first_row_covers (FinancialVectorStore.metadatas results)
                         _ Hn)) as (mds & ? & ?).
      { intros i Hi. by apply format_one_is_Some, H'. }
      destruct (proj1 (first_row_covers (FinancialVectorStore.distances results)
                         _ Hn)) as (dists & ? & ?).
      { intros i Hi. by apply format_one_is_Some, H'. }
      by exists docs, mds, dists.
    + intros (docs & mds & dists & Hd & Hm & Hx & ? & ? & ?) i Hi.
      apply elem_of_seq in Hi. apply format_one_is_Some.
      rewrite Hids. split; [|split; [|split]].
      * simpl. apply lookup_lt_is_Some. lia.
      * eapply first_row_covers; [exact Hn | by eexists | lia].
      * eapply first_row_covers; [exact Hn | by eexists | lia].
      * eapply first_row_covers; [exact Hn | by eexists | lia].
  - intros formatted H. apply mapM_Some in H.
    apply list_eq. intros i.
    change (map ?f ?l) with (f <$> l). rewrite list_lookup_fmap.
    destruct ((x0 :: ids0) !! i) as [x|] eqn:Hx.
    + assert (Hs : seq 0 (length (x0 :: ids0)) !! i = Some i).
      { apply lookup_seq. split; [done|]. by apply lookup_lt_Some in Hx. }
      destruct (Forall2_lookup_l _ _ _ _ _ H Hs) as (m & Hm & Hf).
      rewrite Hm. simpl.
      unfold FinancialVectorStore.format_one in Hf. rewrite Hids in Hf.
      simpl in Hf. rewrite Hx in Hf. simpl in Hf.
      repeat (match type of Hf with
              | context [?a ≫= _] =>
                destruct a; simpl in Hf; [|discriminate]
              end).
      by injection Hf as <-.
    + apply lookup_ge_None in Hx.
      rewrite (proj2 (lookup_ge_None formatted i)); [done|].
      apply Forall2_length in H. rewrite length_seq in H. lia.
Qed.

Lemma format_results_shape_witness :
  (is_Some (FinancialVectorStore._format_results
              (FinancialVectorStore.QueryResults [["a1"; "a2"]]
                 [["x"; "y"; "z"]] [[None; None]] [[1 # 10; 2 # 10]])) ↔
   ∃ docs mds dists,
     head [["x"; "y"; "z"]] = Some docs ∧
     head [[None; None]] = Some mds ∧
     head [[1 # 10; 2 # 10]] = Some dists ∧
     (length ["a1"; "a2"] ≤ length docs)%nat ∧
     (length ["a1"; "a2"] ≤ length (mds : list (option pyrow)))%nat ∧
     (length ["a1"; "a2"] ≤ length (dists : list Q))%nat) ∧
  (∀ formatted,
     FinancialVectorStore._format_results
       (FinancialVectorStore.QueryResults [["a1"; "a2"]]
          [["x"; "y"; "z"]] [[None; None]] [[1 # 10; 2 # 10]]) = Some formatted →
     map FinancialVectorStore.id formatted = ["a1"; "a2"]).
Proof.
  apply (format_results_shape
           (FinancialVectorStore.QueryResults [["a1"; "a2"]]
              [["x"; "y"; "z"]] [[None; None]] [[1 # 10; 2 # 10]])
           ["a1"; "a2"] []).
  - reflexivity.
  - discriminate.
Defined.

(** X21. Without a minimum severity nothing is cut: the search asks the
    anomaly collection for [2 * n_results] candidates and returns every
    one of them, so the answer can be twice as long as [n_results]. *)
Theorem unfiltered_anomaly_search_returns_all {B : FinancialVectorStore.backend}
    (encode : LocalModelManager.encoder) (st : FinancialVectorStore.store B)
    (query : string) (k : nat) (min_severity : option string)
    (e : list Q) (results : FinancialVectorStore.query_results)
    (formatted : list FinancialVectorStore.similarity_match) :
  Py.truthy min_severity = false →
  LocalModelManager.embed encode [query] !! 0%nat = Some e →
  FinancialVectorStore.coll_query B
    (FinancialVectorStore.anomalies_collection st)
    (FinancialVectorStore.QueryRequest [e] (k * 2) None) = Some results →
  FinancialVectorStore._format_results results = Some formatted →
  (FinancialVectorStore.search_similar_anomalies encode st query k
     min_severity).1 = formatted.
Proof.
  intros Ht He Hq Hf. unfold FinancialVectorStore.search_similar_anomalies.
  rewrite He, Hq. unfold FinancialVectorStore.filter_anomalies.
  by rewrite Hf, Ht.
Qed.

Lemma unfiltered_anomaly_search_returns_all_witness :
  length (FinancialVectorStore.search_similar_anomalies
            (λ _ _ _, Some [[1%Q; 0%Q]])
            (Chroma.canned_store (Some (FinancialVectorStore.QueryResults
               [["a1"; "a2"]] [["x"; "y"]] [[None; None]]
               [[1 # 10; 2 # 10]])))
            "sudden crash" 1 None).1 = 2%nat.
Proof.
  rewrite (unfiltered_anomaly_search_returns_all (λ _ _ _, Some [[1%Q; 0%Q]])
    (Chroma.canned_store (Some (FinancialVectorStore.QueryResults
       [["a1"; "a2"]] [["x"; "y"]] [[None; None]] [[1 # 10; 2 # 10]])))
    "sudden crash" 1 None [1%Q; 0%Q]
    (FinancialVectorStore.QueryResults
       [["a1"; "a2"]] [["x"; "y"]] [[None; None]] [[1 # 10; 2 # 10]])
    [FinancialVectorStore.SimilarityMatch "a1" "x" None (1 - (1 # 10)) "high";
     FinancialVectorStore.SimilarityMatch "a2" "y" None (1 - (2 # 10)) "medium"]);
    reflexivity.
Defined.

(** X22. The date filter of [search_historical_events]: with a start or
    an end date the search returns at most [n_results] events, each
    with metadata, and each either without a date (missing, [None] or
    empty) or with a date string that is neither before the start nor
    after the end in the order of strings.  An event without a date thus
    passes every range. *)
Theorem event_search_date_filter {B : FinancialVectorStore.backend}
    (encode : LocalModelManager.encoder) (st : FinancialVectorStore.store B)
    (query : string) (k : nat) (date_from date_to : option string) :
  (Py.truthy date_from || Py.truthy date_to)%bool = true →
  let out := FinancialVectorStore.search_historical_events encode st query k
               date_from date_to in
  (length out.1 ≤ k)%nat ∧
  ∀ r, r ∈ out.1 →
    ∃ md, FinancialVectorStore.metadata r = Some md ∧
      ∀ v, md !! "event_date" = Some v →
        FinancialVectorStore.py_truthy v = false ∨
        ∃ e, v = PStr e ∧
          (∀ f, date_from = Some f → f ≠ "" →
                FinancialVectorStore.str_lt (Py.chars e) (Py.chars f) = false) ∧
          (∀ t, date_to = Some t → t ≠ "" →
                FinancialVectorStore.str_lt (Py.chars t) (Py.chars e) = false).
Proof.
  intros Hfilter. unfold FinancialVectorStore.search_historical_events.
  destruct (LocalModelManager.embed encode [query] !! 0%nat) as [e|];
    [|split; [simpl; lia | by intros r ?%elem_of_nil]].
  destruct (FinancialVectorStore.coll_query _ _ _) as [results|];
    [|split; [simpl; lia | by intros r ?%elem_of_nil]].
  unfold FinancialVectorStore.filter_events. rewrite Hfilter.
  destruct (FinancialVectorStore._format_results results) as [formatted|];
    [|split; [simpl; lia | by intros r ?%elem_of_nil]].
  cbn [mbind option_bind].
  destruct (FinancialVectorStore.filter_raising _ formatted) as [kept|] eqn:Hk;
    [|split; [simpl; lia | by intros r ?%elem_of_nil]].
  apply filter_raising_sound in Hk as [_ Hall].
  simpl. split; [rewrite length_take; lia|].
  intros r Hr. apply (Forall_take _ k) in Hall. rewrite Forall_forall in Hall.
  specialize (Hall r Hr). unfold FinancialVectorStore.event_in_range in Hall.
  destruct (FinancialVectorStore.metadata r) as [md|]; [|discriminate].
  exists md. split; [done|]. intros v Hv. simpl in Hall. rewrite Hv in Hall.
  unfold FinancialVectorStore._date_in_range in Hall.
  destruct (FinancialVectorStore.py_truthy v) eqn:Hty; [|by left]. right.
  cbn [negb] in Hall.
  destruct v as [| | | |ev];
    try (destruct (Py.truthy date_from); [discriminate|];
         destruct (Py.truthy date_to); [discriminate|]; discriminate).
  exists ev. split; [done|]. split.
  - intros f -> Hf. simpl in Hall.
    rewrite (proj2 (String.eqb_neq f "") Hf) in Hall. simpl in Hall.
    by destruct (FinancialVectorStore.str_lt (Py.chars ev) (Py.chars f)).
  - intros t -> Ht.
    destruct (if Py.truthy date_from then _ else _) as [[]|]; try discriminate.
    simpl in Hall. rewrite (proj2 (String.eqb_neq t "") Ht) in Hall.
    simpl in Hall.
    by destruct (FinancialVectorStore.str_lt (Py.chars t) (Py.chars ev)).
Qed.

Lemma event_search_date_filter_witness :
  (length (FinancialVectorStore.search_historical_events
             (λ _ _ _, Some [[1%Q; 0%Q]])
             (Chroma.canned_store (Some (FinancialVectorStore.QueryResults
                [["e1"; "e2"; "e3"]] [["x"; "y"; "z"]]
                [[Some {[ "event_date" := PStr "2008-09-15" ]};
                  Some ∅;
                  Some {[ "event_date" := PStr "2020-03-16" ]}]]
                [[1 # 10; 2 # 10; 3 # 10]])))
             "bank failure" 2 (Some "2019-01-01") None).1 ≤ 2)%nat.
Proof.
  apply (event_search_date_filter (λ _ _ _, Some [[1%Q; 0%Q]])
    (Chroma.canned_store (Some (FinancialVectorStore.QueryResults
       [["e1"; "e2"; "e3"]] [["x"; "y"; "z"]]
       [[Some {[ "event_date" := PStr "2008-09-15" ]};
         Some ∅;
         Some {[ "event_date" := PStr "2020-03-16" ]}]]
       [[1 # 10; 2 # 10; 3 # 10]])))
    "bank failure" 2 (Some "2019-01-01") None).
  reflexivity.
Defined.


(** ** Classification and detection of anomalies *)

Lemma z_score_nonneg fos (a : pyrow) z :
  AnomalyDetector.z_score_of fos a = Some z → 0 <= z.
Proof.
  unfold AnomalyDetector.z_score_of.
  destruct (AnomalyDetector.py_float fos (AnomalyDetector.get0 a "anomaly_score"))
    as [s|]; simpl; [|discriminate].
  destruct (Qeq_bool (Qabs s) 0).
  - destruct (AnomalyDetector.py_float fos (AnomalyDetector.get0 a "daily_return"))
      as [r|]; simpl; [|discriminate].
    intros [= <-]. pose proof (Qabs_nonneg r). nra.
  - intros [= <-]. apply Qabs_nonneg.
Qed.

(** X23. What [_classify_anomalies] does to the rows: it only writes
    the keys ['severity'] and ['z_score_abs'] (a value the row had under
    them is overwritten) and leaves every other column as it was; the
    score it stores is never negative; and one row whose score cannot
    be converted makes the whole classification raise. *)
Theorem classify_anomalies_rows (float_of_str : string → option Q)
    (anomalies : list pyrow) :
  (∀ classified i row row',
     AnomalyDetector._classify_anomalies float_of_str anomalies = Some classified →
     anomalies !! i = Some row → classified !! i = Some row' →
     (∀ k, k ≠ "severity" → k ≠ "z_score_abs" → row' !! k = row !! k) ∧
     ∃ z, row' !! "z_score_abs" = Some (PFloat z) ∧ 0 <= z) ∧
  (∀ row, row ∈ anomalies →
     AnomalyDetector.z_score_of float_of_str row = None →
     AnomalyDetector._classify_anomalies float_of_str anomalies = None).
Proof.
  unfold AnomalyDetector._classify_anomalies. split.
  - intros classified i row row' H Hrow Hrow'. apply mapM_Some in H.
    destruct (Forall2_lookup_l _ _ _ _ _ H Hrow) as (r & Hr & Hc).
    rewrite Hrow' in Hr. injection Hr as <-.
    unfold AnomalyDetector.classify_one in Hc.
    destruct (AnomalyDetector.z_score_of float_of_str row) as [z|] eqn:Hz;
      simpl in Hc; [|discriminate].
    injection Hc as <-. split.
    + intros k Hk1 Hk2. by rewrite !lookup_insert_ne.
    + exists z. split; [apply lookup_insert_eq | by eapply z_score_nonneg].
  - intros row Hin Hz.
    destruct (mapM _ anomalies) as [classified|] eqn:H; [|done].
    exfalso. apply mapM_Some in H.
    apply list_elem_of_lookup in Hin as [i Hi].
    destruct (Forall2_lookup_l _ _ _ _ _ H Hi) as (r & _ & Hc).
    unfold AnomalyDetector.classify_one in Hc. by rewrite Hz in Hc.
Qed.

Lemma classify_anomalies_rows_witness :
  (∃ z, (<["z_score_abs" := PFloat (7 # 2)]>
           (<["severity" := PStr "high"]>
              ({[ "anomaly_score" := PFloat (- (7 # 2)) ]} : pyrow)))
          !! "z_score_abs" = Some (PFloat z) ∧ 0 <= z) ∧
  AnomalyDetector._classify_anomalies (λ _, None)
    [ ({[ "anomaly_score" := PFloat 3 ]} : pyrow);
      ({[ "anomaly_score" := PNone ]} : pyrow) ] = None.
Proof.
  split.
  - assert (Hc : AnomalyDetector._classify_anomalies (λ _, None)
      [ ({[ "anomaly_score" := PFloat (- (7 # 2)) ]} : pyrow) ]
      = Some [ <["z_score_abs" := PFloat (7 # 2)]>
          (<["severity" := PStr "high"]>
             ({[ "anomaly_score" := PFloat (- (7 # 2)) ]} : pyrow)) ])
      by (vm_compute; reflexivity).
    exact (proj2 (proj1 (classify_anomalies_rows (λ _, None) _) _ 0%nat _ _
                    Hc eq_refl eq_refl)).
  - apply (proj2 (classify_anomalies_rows (λ _, None) _)
             ({[ "anomaly_score" := PNone ]} : pyrow)).
    + set_solver.
    + vm_compute. reflexivity.
Defined.

Section DetectorFacts.
Context {B : FinancialVectorStore.backend}.
Variable encode : LocalModelManager.encoder.
Variable db : NaturalLanguageSQL.database.
Variable float_of_str : string → option Q.
Variable py_str : pyval → string.
Variable format_percent2 : Q → string.
Variable format_fixed2 : Q → string.

(** A dictionary whose severity is one of the four labels. *)
Let labelled (a : AnomalyReports.anomaly) : Prop :=
  ∃ z, a !! "severity" = Some (AnomalyReports.Val (PStr (AnomalyDetector.severity_of z))).

Lemma count_severity_cons label (a : AnomalyReports.anomaly) l s :
  a !! "severity" = Some (AnomalyReports.Val (PStr s)) →
  AnomalyReports.count_severity label (a :: l)
  = (λ n, if String.eqb s label then S n else n)
      <$> AnomalyReports.count_severity label l.
Proof.
  intros Ha. unfold AnomalyReports.count_severity.
  cbn [FinancialVectorStore.filter_raising].
  assert (Hs : AnomalyReports.has_severity label a = Some (String.eqb s label))
    by (unfold AnomalyReports.has_severity; by rewrite Ha).
  rewrite Hs. simpl.
  destruct (FinancialVectorStore.filter_raising _ l) as [kept|]; [|done].
  simpl. by destruct (String.eqb s label).
Qed.

Lemma counts_partition (l : list AnomalyReports.anomaly) :
  Forall labelled l →
  ∃ c h m w,
    AnomalyReports.count_severity "critical" l = Some c ∧
    AnomalyReports.count_severity "high" l = Some h ∧
    AnomalyReports.count_severity "medium" l = Some m ∧
    AnomalyReports.count_severity "low" l = Some w ∧
    (c + h + m + w)%nat = length l.
Proof.
  induction 1 as [|a l [z Ha] Hl (c & h & m & w & Hc & Hh & Hm & Hw & Hsum)].
  - exists 0%nat, 0%nat, 0%nat, 0%nat. by repeat split.
  - rewrite !(count_severity_cons _ a l _ Ha), Hc, Hh, Hm, Hw.
    destruct (severity_of_cases z) as [[? ->]|[(? & ? & ->)|[(? & ? & ->)|[? ->]]]];
      cbn; do 4 eexists; (repeat split; [reflexivity..|]); simpl; lia.
Qed.

Lemma classified_labelled (rows classified : list pyrow) :
  AnomalyDetector._classify_anomalies float_of_str rows = Some classified →
  length classified = length rows ∧
  Forall (λ row, ∃ z, row !! "severity"
                      = Some (PStr (AnomalyDetector.severity_of z))) classified.
Proof.
  unfold AnomalyDetector._classify_anomalies. intros H. apply mapM_Some in H.
  split; [symmetry; by eapply Forall2_length|].
  apply Forall_forall. intros row Hin.
  apply list_elem_of_lookup in Hin as [i Hi].
  destruct (Forall2_lookup_r _ _ _ _ _ H Hi) as (a & _ & Hc).
  apply classify_one_fields in Hc as (z & _ & _ & Hs). by exists z.
Qed.

Lemma search_anomalies_effect (st : FinancialVectorStore.store B) query k s :
  s ≠ "" →
  let out := FinancialVectorStore.search_similar_anomalies encode st query k
               (Some s) in
  (length out.1 ≤ k)%nat ∧
  FinancialVectorStore.patterns_collection out.2
    = FinancialVectorStore.patterns_collection st ∧
  FinancialVectorStore.anomalies_collection out.2
    = FinancialVectorStore.anomalies_collection st ∧
  FinancialVectorStore.events_collection out.2
    = FinancialVectorStore.events_collection st ∧
  ∃ qs, FinancialVectorStore.calls out.2 = FinancialVectorStore.calls st ++ qs ∧
        (length qs ≤ 1)%nat ∧
        Forall (λ q, ∃ r, q = FinancialVectorStore.CallQuery "market_anomalies" r ∧
                          FinancialVectorStore.n_results r = (k * 2)%nat) qs.
Proof.
  intros Hs. unfold FinancialVectorStore.search_similar_anomalies.
  destruct (LocalModelManager.embed encode [query] !! 0%nat) as [e|].
  2:{ simpl. repeat split; [lia|]. exists []. rewrite app_nil_r.
      repeat split; [simpl; lia | constructor]. }
  assert (Hq : ∃ qs,
    FinancialVectorStore.calls st ++
      [FinancialVectorStore.CallQuery "market_anomalies"
         (FinancialVectorStore.QueryRequest [e] (k * 2) None)]
    = FinancialVectorStore.calls st ++ qs ∧ (length qs ≤ 1)%nat ∧
    Forall (λ q, ∃ r, q = FinancialVectorStore.CallQuery "market_anomalies" r ∧
                      FinancialVectorStore.n_results r = (k * 2)%nat) qs).
  { eexists. split; [reflexivity|]. split; [simpl; lia|].
    constructor; [|constructor]. by eexists. }
  destruct (FinancialVectorStore.coll_query _ _ _) as [results|]; simpl;
    [|repeat split; [lia | exact Hq]].
  repeat split; [|exact Hq].
  destruct (FinancialVectorStore.filter_anomalies results k (Some s))
    as [kept|] eqn:Hk; simpl; [|lia].
  apply filter_anomalies_sound in Hk as (? & ? & _ & _ & _ & Hlen & _); done.
Qed.

Lemma enrich_effect (rows : list pyrow) :
  ∀ (st st' : FinancialVectorStore.store B) enriched,
  AnomalyReports._enrich_with_patterns encode float_of_str py_str
    format_percent2 format_fixed2 st rows = (Some enriched, st') →
  Forall2 (λ (row : pyrow) (a : AnomalyReports.anomaly),
             ∃ similar,
               a = <["similar_patterns" := AnomalyReports.Patterns similar]>
                     (AnomalyReports.Val <$> row) ∧
               (length similar ≤ 3)%nat) rows enriched ∧
  FinancialVectorStore.patterns_collection st'
    = FinancialVectorStore.patterns_collection st ∧
  FinancialVectorStore.anomalies_collection st'
    = FinancialVectorStore.anomalies_collection st ∧
  FinancialVectorStore.events_collection st'
    = FinancialVectorStore.events_collection st ∧
  ∃ qs, FinancialVectorStore.calls st' = FinancialVectorStore.calls st ++ qs ∧
        (length qs ≤ length rows)%nat ∧
        Forall (λ q, ∃ r, q = FinancialVectorStore.CallQuery "market_anomalies" r ∧
                          FinancialVectorStore.n_results r = 6%nat) qs.
Proof.
  induction rows as [|row rows IH]; intros st st' enriched H.
  - simpl in H. injection H as <- <-. repeat split; [constructor|].
    exists []. rewrite app_nil_r. repeat split; [simpl; lia | constructor].
  - cbn [AnomalyReports._enrich_with_patterns] in H.
    destruct (AnomalyReports.description_of _ _ _ _ row) as [d|]; [|discriminate].
    assert (Hm : "medium" ≠ "") by discriminate.
    pose proof (search_anomalies_effect st d 3 "medium" Hm) as Hsearch.
    destruct (FinancialVectorStore.search_similar_anomalies encode st d 3
                (Some "medium")) as [similar st1].
    simpl in Hsearch.
    destruct Hsearch as (Hlen & Hp & Ha & He & qs1 & Hc1 & Hl1 & Hf1).
    destruct (AnomalyReports._enrich_with_patterns _ _ _ _ _ st1 rows)
      as [[rest|] st2] eqn:Hrest; simpl in H; [|discriminate].
    injection H as <- <-.
    destruct (IH _ _ _ Hrest) as (Hall & Hp2 & Ha2 & He2 & qs2 & Hc2 & Hl2 & Hf2).
    split; [constructor; [by exists similar | done]|].
    split; [congruence|]. split; [congruence|]. split; [congruence|].
    exists (qs1 ++ qs2). rewrite Hc2, Hc1, <- app_assoc.
    split; [done|]. split; [rewrite length_app; simpl; lia|].
    by apply Forall_app.
Qed.

(** X24. The report of [detect_recent_anomalies] adds up: when it
    succeeds with rows, ['anomalies_found'] is the number of rows the
    database returned and the length of ['all_anomalies'], and the four
    counts of ['by_severity'] sum to it, each row being counted under
    exactly one label; the argument [min_severity] has no effect, rows
    of every severity are reported.  When the database returns no row
    the report is a success with 0 anomalies and the vector store is
    not queried. *)
Theorem detection_report_adds_up (st : FinancialVectorStore.store B)
    (days : Z) (min_severity : string) :
  let out := AnomalyReports.detect_recent_anomalies encode db float_of_str
               py_str format_percent2 format_fixed2 st days min_severity in
  AnomalyReports.success out.1 = true →
  ∃ rows,
    NaturalLanguageSQL._execute_query db
      (AnomalyReports.anomalies_query (HuggingFaceAPI.str_of_Z days)) 100
    = inr rows ∧
    AnomalyReports.anomalies_found out.1 = Some (length rows) ∧
    (rows = [] → AnomalyReports.by_severity out.1 = None ∧ out.2 = st) ∧
    (rows ≠ [] →
     ∃ counts all,
       AnomalyReports.by_severity out.1 = Some counts ∧
       AnomalyReports.all_anomalies out.1 = Some all ∧
       length all = length rows ∧
       (AnomalyReports.critical counts + AnomalyReports.high counts
        + AnomalyReports.medium counts + AnomalyReports.low counts)%nat
       = length rows) ∧
    ∀ other,
      AnomalyReports.detect_recent_anomalies encode db float_of_str
        py_str format_percent2 format_fixed2 st days other = out.
Proof.
  unfold AnomalyReports.detect_recent_anomalies.
  destruct (NaturalLanguageSQL._execute_query db _ 100) as [e|rows];
    [simpl; discriminate|].
  destruct rows as [|row rows].
  { simpl. intros _. exists []. by repeat split. }
  set (result := row :: rows).
  destruct (AnomalyDetector._classify_anomalies float_of_str result)
    as [classified|] eqn:Hc; [|simpl; discriminate].
  destruct (classified_labelled _ _ Hc) as [Hlen Hlab].
  destruct (AnomalyReports._enrich_with_patterns _ _ _ _ _ st (take 10 classified))
    as [[enriched|] st'] eqn:He; [|simpl; discriminate].
  destruct (enrich_effect _ _ _ _ He) as (Hall & _).
  set (all := enriched ++ _).
  assert (Hlenall : length all = length result).
  { unfold all. rewrite length_app, length_fmap, length_drop.
    apply Forall2_length in Hall. rewrite <- Hall, length_take. lia. }
  assert (Hlabelled : Forall labelled all).
  { unfold all. apply Forall_app. split.
    - apply Forall_forall. intros a Hin.
      apply list_elem_of_lookup in Hin as [i Hi].
      destruct (Forall2_lookup_r _ _ _ _ _ Hall Hi) as (r & Hr & similar & -> & _).
      apply list_elem_of_lookup_2 in Hr.
      pose proof (Forall_take _ 10 _ Hlab) as Ht.
      rewrite Forall_forall in Ht. destruct (Ht r Hr) as [z Hz].
      exists z. rewrite lookup_insert_ne by discriminate.
      by rewrite lookup_fmap, Hz.
    - apply Forall_fmap, Forall_forall. intros r Hr.
      pose proof (Forall_drop _ 10 _ Hlab) as Hd.
      rewrite Forall_forall in Hd. destruct (Hd r Hr) as [z Hz].
      exists z. simpl. by rewrite lookup_fmap, Hz. }
  destruct (counts_partition all Hlabelled)
    as (c & h & m & w & -> & -> & -> & -> & Hsum).
  simpl. intros _. exists result. split; [done|]. split; [done|].
  split; [done|]. split; [|done].
  intros _. exists (AnomalyReports.SeverityCounts c h m w), all.
  split; [done|]. split; [done|]. split; [exact Hlenall|].
  cbn [AnomalyReports.critical AnomalyReports.high AnomalyReports.medium
       AnomalyReports.low]. by rewrite Hsum.
Qed.

(** X25. The top anomalies of a report: they are the first ten entries
    of ['all_anomalies'] (the same dictionaries, so these entries carry
    ['similar_patterns'] there too), each with at most three similar
    patterns; finding them asks the anomaly collection at most once per
    top anomaly, for six candidates each time, and changes none of the
    three collections. *)
Theorem detection_top_anomalies (st : FinancialVectorStore.store B)
    (days : Z) (min_severity : string) (top : list AnomalyReports.anomaly) :
  let out := AnomalyReports.detect_recent_anomalies encode db float_of_str
               py_str format_percent2 format_fixed2 st days min_severity in
  AnomalyReports.top_anomalies out.1 = Some top →
  (∃ all, AnomalyReports.all_anomalies out.1 = Some all ∧ top = take 10 all) ∧
  (length top ≤ 10)%nat ∧
  Forall (λ a : AnomalyReports.anomaly,
            ∃ similar,
              a !! "similar_patterns" = Some (AnomalyReports.Patterns similar) ∧
              (length similar ≤ 3)%nat) top ∧
  FinancialVectorStore.patterns_collection out.2
    = FinancialVectorStore.patterns_collection st ∧
  FinancialVectorStore.anomalies_collection out.2
    = FinancialVectorStore.anomalies_collection st ∧
  FinancialVectorStore.events_collection out.2
    = FinancialVectorStore.events_collection st ∧
  ∃ qs, FinancialVectorStore.calls out.2 = FinancialVectorStore.calls st ++ qs ∧
        (length qs ≤ length top)%nat ∧
        Forall (λ q, ∃ r, q = FinancialVectorStore.CallQuery "market_anomalies" r ∧
                          FinancialVectorStore.n_results r = 6%nat) qs.
Proof.
  unfold AnomalyReports.detect_recent_anomalies.
  destruct (NaturalLanguageSQL._execute_query db _ 100) as [e|rows];
    [simpl; discriminate|].
  destruct rows as [|row rows]; [simpl; discriminate|].
  set (result := row :: rows).
  destruct (AnomalyDetector._classify_anomalies float_of_str result)
    as [classified|] eqn:Hc; [|simpl; discriminate].
  destruct (AnomalyReports._enrich_with_patterns _ _ _ _ _ st (take 10 classified))
    as [[enriched|] st'] eqn:He; [|simpl; discriminate].
  destruct (enrich_effect _ _ _ _ He)
    as (Hall & Hp & Ha & Hev & qs & Hcalls & Hqs & Hfq).
  assert (Hlen : length enriched = length (take 10 classified))
    by (symmetry; by eapply Forall2_length).
  destruct (AnomalyReports.count_severity "critical" _); [|simpl; discriminate].
  destruct (AnomalyReports.count_severity "high" _); [|simpl; discriminate].
  destruct (AnomalyReports.count_severity "medium" _); [|simpl; discriminate].
  destruct (AnomalyReports.count_severity "low" _); [|simpl; discriminate].
  simpl. intros [= <-]. split; [|split; [|split]].
  - eexists. split; [reflexivity|].
    rewrite length_take in Hlen.
    destruct (decide (length classified ≤ 10)%nat) as [Hle|Hgt].
    + rewrite (drop_ge classified) by lia. simpl. rewrite app_nil_r.
      rewrite take_ge; [done | lia].
    + rewrite take_app_length'; [done | lia].
  - rewrite Hlen, length_take. lia.
  - apply Forall_forall. intros a Hin.
    apply list_elem_of_lookup in Hin as [i Hi].
    destruct (Forall2_lookup_r _ _ _ _ _ Hall Hi) as (r & _ & similar & -> & ?).
    exists similar. split; [apply lookup_insert_eq | done].
  - split; [done|]. split; [done|]. split; [done|].
    exists qs. split; [done|]. split; [lia | done].
Qed.

(** X26. [compare_to_historical] and the vector store agree on the
    best match: when it reports a match, the best match is the first
    result of a search without minimum severity (so ['all_matches'] may
    hold up to ten entries for the five asked), the score reported is
    its similarity, and the quality is ['Very similar'] exactly when
    the store rated that result ['high'], ['Moderately similar'] when
    ['medium'] and ['Somewhat similar'] when ['low']. *)
Theorem comparison_matches_relevance (st : FinancialVectorStore.store B)
    (current_anomaly : pyrow) (c : AnomalyReports.comparison) :
  let out := AnomalyReports.compare_to_historical encode float_of_str
               format_percent2 st current_anomaly in
  out.1 = Some c → AnomalyReports.has_historical_match c = true →
  ∃ description best others,
    FinancialVectorStore.search_similar_anomalies encode st description 5 None
    = (best :: others, out.2) ∧
    AnomalyReports.all_matches c = Some (best :: others) ∧
    AnomalyReports.similarity_score c
    = Some (FinancialVectorStore.similarity best) ∧
    AnomalyReports.best_match_event c = Some (FinancialVectorStore.id best) ∧
    (AnomalyReports.match_quality c = Some "Very similar" ↔
     FinancialVectorStore.relevance best = "high") ∧
    (AnomalyReports.match_quality c = Some "Moderately similar" ↔
     FinancialVectorStore.relevance best = "medium") ∧
    (AnomalyReports.match_quality c = Some "Somewhat similar" ↔
     FinancialVectorStore.relevance best = "low").
Proof.
  unfold AnomalyReports.compare_to_historical.
  destruct (AnomalyDetector.py_float float_of_str
              (AnomalyDetector.get0 current_anomaly "daily_return"))
    as [return_val|]; [|simpl; discriminate].
  destruct (AnomalyDetector.py_float float_of_str
              (AnomalyDetector.get0 current_anomaly "return_z_score"))
    as [z|]; [|simpl; discriminate].
  match goal with
  | |- context [FinancialVectorStore.search_similar_anomalies encode st ?d 5 None] =>
    set (description := d)
  end.
  destruct (FinancialVectorStore.search_similar_anomalies encode st description
              5 None) as [similar st'] eqn:Hsearch.
  destruct similar as [|best others].
  { simpl. intros [= <-]. simpl. discriminate. }
  destruct (FinancialVectorStore.metadata best) as [md|] eqn:Hmd;
    [|simpl; discriminate].
  simpl. intros [= <-] _. exists description, best, others.
  split; [done|]. split; [done|]. split; [done|]. split; [done|].
  assert (Hrel : ∃ dist, FinancialVectorStore.similarity best = 1 - dist ∧
                         FinancialVectorStore.relevance best
                         = FinancialVectorStore.relevance_of dist).
  { unfold FinancialVectorStore.search_similar_anomalies in Hsearch.
    destruct (LocalModelManager.embed encode [description] !! 0%nat) as [e|];
      [|discriminate].
    destruct (FinancialVectorStore.coll_query _ _ _) as [results|];
      [|discriminate].
    unfold FinancialVectorStore.filter_anomalies in Hsearch.
    destruct (FinancialVectorStore._format_results results) as [formatted|] eqn:Hf;
      [|discriminate].
    simpl in Hsearch. injection Hsearch as -> _.
    pose proof (format_results_lookup results _ 0%nat best Hf eq_refl) as H0.
    unfold FinancialVectorStore.format_one in H0.
    repeat (match type of H0 with
            | context [?a ≫= _] => destruct a; simpl in H0; [|discriminate]
            end).
    injection H0 as <-. by eexists. }
  destruct Hrel as (dist & Hsim & Hr).
  cbn [AnomalyReports.match_quality]. rewrite Hr, Hsim.
  unfold AnomalyReports.quality_of, FinancialVectorStore.relevance_of.
  destruct (FinancialVectorStore.Qgt_bool (1 - dist) (8 # 10));
    [|destruct (FinancialVectorStore.Qgt_bool (1 - dist) (6 # 10))];
    repeat split; intros; (done || discriminate).
Qed.

End DetectorFacts.

Lemma detection_report_adds_up_witness :
  ∃ rows,
    NaturalLanguageSQL._execute_query AnomalyExamples.two_anomalies
      (AnomalyReports.anomalies_query (HuggingFaceAPI.str_of_Z 7)) 100
    = inr rows ∧
    AnomalyReports.anomalies_found
      (AnomalyReports.detect_recent_anomalies AnomalyExamples.constant_encoder
         AnomalyExamples.two_anomalies AnomalyExamples.no_parse
         AnomalyExamples.blank_str AnomalyExamples.blank_format
         AnomalyExamples.blank_format
         (Chroma.canned_store (Some AnomalyExamples.history)) 7 "high").1
    = Some (length rows).
Proof.
  destruct (detection_report_adds_up AnomalyExamples.constant_encoder
    AnomalyExamples.two_anomalies AnomalyExamples.no_parse
    AnomalyExamples.blank_str AnomalyExamples.blank_format
    AnomalyExamples.blank_format
    (Chroma.canned_store (Some AnomalyExamples.history)) 7 "high")
    as (rows & H1 & H2 & _).
  - vm_compute. reflexivity.
  - exists rows. split; assumption.
Defined.

Lemma detection_top_anomalies_witness :
  ∃ top,
    AnomalyReports.top_anomalies
      (AnomalyReports.detect_recent_anomalies AnomalyExamples.constant_encoder
         AnomalyExamples.two_anomalies AnomalyExamples.no_parse
         AnomalyExamples.blank_str AnomalyExamples.blank_format
         AnomalyExamples.blank_format
         (Chroma.canned_store (Some AnomalyExamples.history)) 7 "high").1
    = Some top ∧ (length top ≤ 10)%nat.
Proof.
  destruct (AnomalyReports.top_anomalies
      (AnomalyReports.detect_recent_anomalies AnomalyExamples.constant_encoder
         AnomalyExamples.two_anomalies AnomalyExamples.no_parse
         AnomalyExamples.blank_str AnomalyExamples.blank_format
         AnomalyExamples.blank_format
         (Chroma.canned_store (Some AnomalyExamples.history)) 7 "high").1)
    as [top|] eqn:Htop; [|vm_compute in Htop; discriminate].
  exists top. split; [reflexivity|].
  exact (proj1 (proj2 (detection_top_anomalies AnomalyExamples.constant_encoder
    AnomalyExamples.two_anomalies AnomalyExamples.no_parse
    AnomalyExamples.blank_str AnomalyExamples.blank_format
    AnomalyExamples.blank_format
    (Chroma.canned_store (Some AnomalyExamples.history)) 7 "high" top Htop))).
Defined.

Lemma comparison_matches_relevance_witness :
  ∃ c, (AnomalyReports.compare_to_historical AnomalyExamples.constant_encoder
          AnomalyExamples.no_parse AnomalyExamples.blank_format
          (Chroma.canned_store (Some AnomalyExamples.history))
          {[ "daily_return" := PFloat (- (6 # 100)) ]}).1 = Some c ∧
       AnomalyReports.match_quality c = Some "Very similar".
Proof.
  destruct (AnomalyReports.compare_to_historical AnomalyExamples.constant_encoder
          AnomalyExamples.no_parse AnomalyExamples.blank_format
          (Chroma.canned_store (Some AnomalyExamples.history))
          {[ "daily_return" := PFloat (- (6 # 100)) ]}).1
    as [c|] eqn:Hc; [|vm_compute in Hc; discriminate].
  exists c. split; [reflexivity|].
  assert (Hm : AnomalyReports.has_historical_match c = true).
  { vm_compute in Hc. injection Hc as <-. reflexivity. }
  destruct (comparison_matches_relevance AnomalyExamples.constant_encoder
    AnomalyExamples.no_parse AnomalyExamples.blank_format
    (Chroma.canned_store (Some AnomalyExamples.history))
    {[ "daily_return" := PFloat (- (6 # 100)) ]} c Hc Hm)
    as (d & best & others & Hs & _ & _ & _ & Hq & _).
  apply Hq. vm_compute in Hs. injection Hs as <- _. reflexivity.
Defined.


(** ** Sentiment *)

Lemma str_of_chars s : Py.str_of (Py.chars s) = s.
Proof. apply Stdlib.Strings.String.string_of_list_ascii_of_string. Qed.

Lemma sentiment_text_seen model text :
  LocalModelManager.analyze_sentiment model text
  = LocalModelManager.analyze_sentiment model
      (Py.str_of (take 512 (Py.chars text))).
Proof.
  unfold LocalModelManager.analyze_sentiment.
  rewrite chars_str_of, length_take.
  replace (512 <? 512 `min` length (Py.chars text))%nat with false
    by (symmetry; apply Nat.ltb_ge; lia).
  destruct (512 <? length (Py.chars text))%nat eqn:Hlen; [done|].
  apply Nat.ltb_ge in Hlen. rewrite take_ge by lia. by rewrite str_of_chars.
Qed.

(** X27. [analyze_sentiment] looks at the first 512 characters only:
    two texts that agree on their first 512 characters get the same
    answer, whatever the model is. *)
Theorem sentiment_reads_512_characters
    (model : LocalModelManager.sentiment_pipeline) (text1 text2 : string) :
  take 512 (Py.chars text1) = take 512 (Py.chars text2) →
  LocalModelManager.analyze_sentiment model text1
  = LocalModelManager.analyze_sentiment model text2.
Proof.
  intros H. rewrite (sentiment_text_seen model text1),
    (sentiment_text_seen model text2). by rewrite H.
Qed.

Lemma sentiment_reads_512_characters_witness :
  LocalModelManager.analyze_sentiment
    (λ t, if String.eqb t "" then inl "empty" else inr ("positive", 9 # 10))
    (Py.str_of (replicate 512 "a"%char ++ Py.chars " and more"))
  = LocalModelManager.analyze_sentiment
      (λ t, if String.eqb t "" then inl "empty" else inr ("positive", 9 # 10))
      (Py.str_of (replicate 512 "a"%char ++ Py.chars " or less")).
Proof.
  apply (sentiment_reads_512_characters
           (λ t, if String.eqb t "" then inl "empty" else inr ("positive", 9 # 10))
           (Py.str_of (replicate 512 "a"%char ++ Py.chars " and more"))
           (Py.str_of (replicate 512 "a"%char ++ Py.chars " or less"))).
  vm_compute. reflexivity.
Defined.

(** X28. The confidence always follows the score, in the fallback too:
    in every answer of [analyze_sentiment], and so in every entry of
    [batch_sentiment_analysis] (one entry per text, a failure on one
    text not touching the others), the confidence is ['high'] exactly
    when the score is above 0.8, ['medium'] when it is above 0.6 and at
    most 0.8, and ['low'] when it is at most 0.6. *)
Theorem sentiment_confidence_follows_score
    (model : LocalModelManager.sentiment_pipeline) (texts : list string) :
  length (LocalModelManager.batch_sentiment_analysis model texts)
  = length texts ∧
  Forall (λ r,
            (LocalModelManager.confidence r = "high" ↔
             8 # 10 < LocalModelManager.score r) ∧
            (LocalModelManager.confidence r = "medium" ↔
             6 # 10 < LocalModelManager.score r ∧
             LocalModelManager.score r <= 8 # 10) ∧
            (LocalModelManager.confidence r = "low" ↔
             LocalModelManager.score r <= 6 # 10))
         (LocalModelManager.batch_sentiment_analysis model texts).
Proof.
  unfold LocalModelManager.batch_sentiment_analysis.
  split; [apply length_map|].
  apply Forall_forall. intros r Hin.
  apply list_elem_of_In, in_map_iff in Hin as (text & <- & _).
  unfold LocalModelManager.analyze_sentiment.
  destruct (model _) as [e|[label score]]; cbn.
  - repeat split; intros; try done; try lra;
      repeat match goal with H : _ ∧ _ |- _ => destruct H end; lra.
  - destruct (Qle_bool score (8 # 10)) eqn:H8; cbn.
    + apply Qle_bool_iff in H8.
      destruct (Qle_bool score (6 # 10)) eqn:H6; cbn.
      * apply Qle_bool_iff in H6.
        repeat split; intros; try done; try lra;
          repeat match goal with H : _ ∧ _ |- _ => destruct H end; lra.
      * assert (6 # 10 < score).
        { apply Qnot_le_lt. intros Hle. apply Qle_bool_iff in Hle. congruence. }
        repeat split; intros; try done; try lra;
          repeat match goal with H : _ ∧ _ |- _ => destruct H end; lra.
    + assert (8 # 10 < score).
      { apply Qnot_le_lt. intros Hle. apply Qle_bool_iff in Hle. congruence. }
      repeat split; intros; try done; try lra;
        repeat match goal with H : _ ∧ _ |- _ => destruct H end; lra.
Qed.

(** ** The schema handed to the remote model *)

Lemma first_occurrences_spec seen l :
  NoDup (SchemaManager.first_occurrences seen l) ∧
  ∀ x, x ∈ SchemaManager.first_occurrences seen l → x ∈ l ∧ x ∉ seen.
Proof.
  revert seen. induction l as [|a l IH]; intros seen; simpl.
  - split; [constructor | by intros x ?%elem_of_nil].
  - destruct (existsb (String.eqb a) seen) eqn:Hex.
    + destruct (IH seen) as [Hnd Hin]. split; [done|].
      intros x Hx. destruct (Hin x Hx). split; [by right | done].
    + destruct (IH (a :: seen)) as [Hnd Hin].
      assert (Ha : a ∉ seen).
      { intros Hs. apply not_true_iff_false in Hex. apply Hex.
        apply existsb_exists. exists a. split; [by apply list_elem_of_In|].
        apply String.eqb_refl. }
      split.
      * constructor; [|done]. intros Hx. destruct (Hin a Hx) as [_ Hn].
        apply Hn. by left.
      * intros x [->|Hx]%elem_of_cons; [split; [by left | done]|].
        destruct (Hin x Hx) as [? Hn]. split; [by right|].
        intros ?. apply Hn. by right.
Qed.

Lemma mapped_tables query x :
  x ∈ concat (map (λ '(keyword, tables),
                     if Py.contains (Py.chars keyword)
                          (Py.lower (Py.chars query))
                     then tables else [])
                  SchemaManager.keyword_mapping) →
  x ∈ ["int_stock_daily_analysis"; "mart_asset_performance";
       "int_crypto_analysis"; "int_economic_analysis";
       "mart_daily_market_summary"; "analytics_cross_asset_correlations";
       "analytics_market_anomalies"].
Proof.
  intros H. apply list_elem_of_In, in_concat in H as (tables & Hin & Hx).
  apply in_map_iff in Hin as ([keyword mapped] & <- & Hin).
  apply list_elem_of_In in Hx. apply list_elem_of_In in Hin.
  unfold SchemaManager.keyword_mapping in Hin.
  destruct (Py.contains _ _); [|by apply elem_of_nil in Hx].
  repeat (apply elem_of_cons in Hin as [[= _ ->]|Hin];
          [repeat (apply elem_of_cons in Hx as [->|Hx];
                   [rewrite !elem_of_cons; tauto|]);
           by apply elem_of_nil in Hx|]).
  by apply elem_of_nil in Hin.
Qed.

(** X29. The tables that [get_relevant_tables] names, for any question:
    there is at least one, none is named twice, and each of them is a
    table of [schema_info] whose description begins with its name,
    except [int_stock_daily_analysis]: the schema knows that table under
    the name [public_intermediate.int_stock_daily_analysis] only, so
    its description is the text ['Table int_stock_daily_analysis not
    found']. *)
Theorem relevant_tables_described (query : string) :
  SchemaManager.get_relevant_tables query ≠ [] ∧
  NoDup (SchemaManager.get_relevant_tables query) ∧
  ∀ table, table ∈ SchemaManager.get_relevant_tables query →
    (table = "int_stock_daily_analysis" ∧
     ¬ (table ∈ SchemaManager.get_all_tables) ∧
     SchemaManager.get_table_description table
     = "Table int_stock_daily_analysis not found") ∨
    (table ∈ SchemaManager.get_all_tables ∧
     Py.startswith (Py.chars ("Table: " +:+ table +:+ SchemaManager.nl))
       (Py.chars (SchemaManager.get_table_description table)) = true).
Proof.
  assert (Hknown : ∀ table,
    table ∈ ["int_stock_daily_analysis"; "mart_asset_performance";
             "int_crypto_analysis"; "int_economic_analysis";
             "mart_daily_market_summary"; "analytics_cross_asset_correlations";
             "analytics_market_anomalies"] →
    (table = "int_stock_daily_analysis" ∧
     ¬ (table ∈ SchemaManager.get_all_tables) ∧
     SchemaManager.get_table_description table
     = "Table int_stock_daily_analysis not found") ∨
    (table ∈ SchemaManager.get_all_tables ∧
     Py.startswith (Py.chars ("Table: " +:+ table +:+ SchemaManager.nl))
       (Py.chars (SchemaManager.get_table_description table)) = true)).
  { intros table Hin.
    repeat (apply elem_of_cons in Hin as [->|Hin];
            [first [ left; split; [reflexivity|]; split;
                     [intros Hall; apply list_elem_of_In in Hall;
                      vm_compute in Hall; intuition discriminate
                     | vm_compute; reflexivity]
                   | right; split;
                     [apply list_elem_of_In; vm_compute; auto 20
                     | vm_compute; reflexivity] ]|]).
    by apply elem_of_nil in Hin. }
  unfold SchemaManager.get_relevant_tables.
  match goal with
  | |- context [SchemaManager.first_occurrences [] ?l] =>
    pose proof (first_occurrences_spec [] l) as [Hnd Hin];
    pose proof (mapped_tables query) as Hmap;
    destruct (SchemaManager.first_occurrences [] l) as [|t ts] eqn:Hf
  end.
  - split; [done|]. split.
    + apply (bool_decide_unpack _). vm_compute. reflexivity.
    + intros table Ht. apply Hknown.
      repeat (apply elem_of_cons in Ht as [->|Ht];
              [rewrite !elem_of_cons; tauto|]).
      by apply elem_of_nil in Ht.
  - split; [done|]. split; [done|].
    intros table Ht. apply Hknown, Hmap. by apply Hin.
Qed.

(** X30. A question about stocks gets no description of the stock
    table: when the lower-cased question contains [stock], the first
    table described in the text of [get_schema_for_sql_generation] is
    [int_stock_daily_analysis], and what the text says about it is that
    it was not found. *)
Theorem stock_question_schema_not_found (query : string) :
  Py.contains (Py.chars "stock") (Py.lower (Py.chars query)) = true →
  head (SchemaManager.get_relevant_tables query)
  = Some "int_stock_daily_analysis" ∧
  Py.startswith
    (Py.chars ("Available PostgreSQL Tables:" +:+ SchemaManager.nl
               +:+ SchemaManager.nl
               +:+ "Table int_stock_daily_analysis not found"
               +:+ SchemaManager.nl))
    (Py.chars (SchemaManager.get_schema_for_sql_generation query)) = true.
Proof.
  intros Hstock.
  assert (Hhead : ∃ rest, SchemaManager.get_relevant_tables query
                          = "int_stock_daily_analysis" :: rest).
  { unfold SchemaManager.get_relevant_tables, SchemaManager.keyword_mapping.
    cbn [map concat]. rewrite Hstock. cbn [app SchemaManager.first_occurrences
                                          existsb]. by eexists. }
  destruct Hhead as [rest Hrest].
  unfold SchemaManager.get_schema_for_sql_generation. rewrite Hrest.
  split; [done|]. cbn [take map SchemaManager.concat_str foldr].
  apply startswith_spec.
  assert (Hd : SchemaManager.get_table_description "int_stock_daily_analysis"
               = "Table int_stock_daily_analysis not found")
    by (vm_compute; reflexivity).
  rewrite Hd. rewrite !chars_app. eexists.
  rewrite <- !app_assoc. reflexivity.
Qed.

Lemma stock_question_schema_not_found_witness :
  head (SchemaManager.get_relevant_tables "Show me the top 5 stocks by return")
  = Some "int_stock_daily_analysis".
Proof.
  apply (stock_question_schema_not_found "Show me the top 5 stocks by return").
  vm_compute. reflexivity.
Defined.
